(** * Financial-Projects: the two S&P500 backtesters and the news gatherer

    A shallow embedding of
      - [BacktesterV1.py]  (simple SMA crossover),
      - [BacktesterV2.py]  (SMA crossover filtered by RSI),
      - [news_gathererV1.py] (watchlist batch fetch, clean, sort),
    followed by the properties stated about them.

    Numbers.  The scripts compute on IEEE doubles inside pandas columns.  A
    column cell is modelled by [F]: an exact rational, one of the two
    infinities, or NaN (pandas' marker of a missing value).  Arithmetic on
    finite cells is exact (no rounding; results are kept in lowest terms),
    signed zeros are not distinguished (a zero divisor counts as +0), and
    every rule that produces or propagates NaN and the infinities is
    written out.  Rounding and overflow are outside the model; the
    properties kept below are those that the rounded computation shares:
    equations between the same operations, the pattern of the missing
    values, and bounds that a monotone rounding keeps.  The square root
    used by [Series.std] and [math.sqrt] is a parameter. *)

From Stdlib Require Import QArith Qabs Qround ZArith List Bool Arith Lia Lqa.
From Stdlib Require Import Permutation Sorted.
From Stdlib Require String Ascii.
Import ListNotations.

Set Implicit Arguments.

(* ================================================================== *)
(** * Column cells *)
(* ================================================================== *)

Module Cell.

Inductive F : Type :=
| NaN
| PInf
| NInf
| Fin (q : Q).

Definition isnan (x : F) : bool :=
  match x with NaN => true | _ => false end.

Definition notna (x : F) : bool := negb (isnan x).

(** the infinity (or NaN) carrying the sign given by a comparison with 0 *)
Definition inf_of (c : comparison) : F :=
  match c with Gt => PInf | Lt => NInf | Eq => NaN end.

Definition fneg (x : F) : F :=
  match x with
  | NaN => NaN
  | PInf => NInf
  | NInf => PInf
  | Fin q => Fin (- q)
  end.

Definition fadd (x y : F) : F :=
  match x, y with
  | NaN, _ | _, NaN => NaN
  | PInf, NInf | NInf, PInf => NaN
  | PInf, _ | _, PInf => PInf
  | NInf, _ | _, NInf => NInf
  | Fin a, Fin b => Fin (Qred (a + b))
  end.

Definition fsub (x y : F) : F := fadd x (fneg y).

Definition fmul (x y : F) : F :=
  match x, y with
  | NaN, _ | _, NaN => NaN
  | Fin a, Fin b => Fin (Qred (a * b))
  | Fin a, PInf | PInf, Fin a => inf_of (a ?= 0)
  | Fin a, NInf | NInf, Fin a => inf_of (CompOpp (a ?= 0))
  | PInf, PInf | NInf, NInf => PInf
  | PInf, NInf | NInf, PInf => NInf
  end.

(** numpy division: [x/0] is an infinity of the sign of [x], [0/0] is NaN *)
Definition fdiv (x y : F) : F :=
  match x, y with
  | NaN, _ | _, NaN => NaN
  | Fin a, Fin b => if Qeq_bool b 0 then inf_of (a ?= 0) else Fin (Qred (a / b))
  | Fin _, PInf | Fin _, NInf => Fin 0
  | PInf, Fin b => match b ?= 0 with Lt => NInf | _ => PInf end
  | NInf, Fin b => match b ?= 0 with Lt => PInf | _ => NInf end
  | _, _ => NaN
  end.

Definition fabs (x : F) : F :=
  match x with
  | NaN => NaN
  | PInf | NInf => PInf
  | Fin q => Fin (Qabs q)
  end.

(** [x > y]; every comparison with NaN is false *)
Definition fgt (x y : F) : bool :=
  match x, y with
  | NaN, _ | _, NaN => false
  | PInf, PInf => false
  | PInf, _ => true
  | _, PInf => false
  | NInf, _ => false
  | Fin _, NInf => true
  | Fin a, Fin b => match a ?= b with Gt => true | _ => false end
  end.

Definition flt (x y : F) : bool := fgt y x.

(** [x == y] of numpy: false on NaN *)
Definition feqb (x y : F) : bool :=
  match x, y with
  | PInf, PInf | NInf, NInf => true
  | Fin a, Fin b => Qeq_bool a b
  | _, _ => false
  end.

Definition fmax (x y : F) : F := if fgt y x then y else x.
Definition fmin (x y : F) : F := if flt y x then y else x.

(** same cell: the same special value, or equal rationals *)
Definition same (x y : F) : Prop :=
  match x, y with
  | NaN, NaN | PInf, PInf | NInf, NInf => True
  | Fin a, Fin b => a == b
  | _, _ => False
  end.

Definition of_nat (n : nat) : F := Fin (inject_Z (Z.of_nat n)).

Definition is_fin (x : F) : Prop :=
  match x with Fin _ => True | _ => False end.

(** a price: a finite cell above 0 *)
Definition positive (x : F) : Prop :=
  match x with Fin q => 0 < q | _ => False end.

Definition positiveb (x : F) : bool :=
  match x with
  | Fin q => match 0 ?= q with Lt => true | _ => false end
  | _ => false
  end.

(** a return above -100% *)
Definition above_m1 (x : F) : Prop :=
  match x with Fin q => - (1) < q | _ => False end.

(** a position: flat or long *)
Definition binary (x : F) : Prop := x = Fin 0 \/ x = Fin 1.

(** a cell that is missing or has the property [P] *)
Definition or_nan (P : F -> Prop) (x : F) : Prop := x = NaN \/ P x.

(** a gain or a loss: a finite cell that is not negative *)
Definition nonneg (x : F) : Prop :=
  match x with Fin q => 0 <= q | _ => False end.

Definition is_finb (x : F) : bool :=
  match x with Fin _ => true | _ => false end.

End Cell.

Import Cell.

Declare Scope cell_scope.
Delimit Scope cell_scope with F.
Infix "+" := fadd : cell_scope.
Infix "-" := fsub : cell_scope.
Infix "*" := fmul : cell_scope.
Infix "/" := fdiv : cell_scope.

(* ================================================================== *)
(** * The pandas / numpy operations the scripts call *)
(* ================================================================== *)

Module Pandas.

(** A column of a DataFrame. *)
Definition Series := list F.

Definition at_ (s : Series) (i : nat) : F := nth i s NaN.

(** element-wise operation on two columns of one frame *)
Fixpoint map2 {A B C : Type} (f : A -> B -> C) (a : list A) (b : list B)
  : list C :=
  match a, b with
  | x :: a', y :: b' => f x y :: map2 f a' b'
  | _, _ => []
  end.

(** [s.shift(1)]: every value moves one row down, the first row is NaN and
    the last value falls off. *)
Definition shift1 (s : Series) : Series :=
  firstn (length s) (NaN :: s).

(** [s.diff()] = [s - s.shift(1)] *)
Definition diff (s : Series) : Series :=
  map2 fsub s (shift1 s).

(** [s.pct_change()] = [s / s.shift(1) - 1] (the column has no NaN to pad) *)
Definition pct_change (s : Series) : Series :=
  map2 (fun x p => (x / p - Fin 1)%F) s (shift1 s).

(** [s.fillna(0)] *)
Definition fillna0 (s : Series) : Series :=
  map (fun x => if isnan x then Fin 0 else x) s.

(** the [w] values ending at row [i] (rows [i-w+1 .. i]) *)
Definition window (w i : nat) (s : Series) : Series :=
  firstn w (skipn (S i - w) s).

Definition fsum (s : Series) : F := fold_left fadd s (Fin 0).

(** [s.rolling(window=w).mean()]: NaN until [w] rows are available (and
    whenever the window holds a NaN), else the mean of the last [w] rows. *)
Definition roll_at (w : nat) (s : Series) (i : nat) : F :=
  if (S i <? w)%nat then NaN else (fsum (window w i s) / of_nat w)%F.

Definition rolling_mean (w : nat) (s : Series) : Series :=
  map (roll_at w s) (seq 0 (length s)).

(** [np.cumprod]: plain running product *)
Fixpoint scan (f : F -> F -> F) (acc : F) (s : Series) : Series :=
  match s with
  | [] => []
  | x :: r => let a := f acc x in a :: scan f a r
  end.

Definition np_accumulate (f : F -> F -> F) (s : Series) : Series :=
  match s with
  | [] => []
  | x :: r => x :: scan f x r
  end.

Definition remask (orig res : Series) : Series :=
  map2 (fun o r => if isnan o then NaN else r) orig res.

(** [s.cumprod()] (skipna): NaN rows are replaced by 1, the running product
    is taken, and the NaN rows are put back as NaN. *)
Definition cumprod (s : Series) : Series :=
  remask s (np_accumulate fmul (map (fun x => if isnan x then Fin 1 else x) s)).

(** [s.cummax()] (skipna): the same with -inf and the running maximum. *)
Definition cummax (s : Series) : Series :=
  remask s (np_accumulate fmax (map (fun x => if isnan x then NInf else x) s)).

Definition valid (s : Series) : Series := filter notna s.

(** [s.min()] (skipna): NaN when no value is present *)
Definition smin (s : Series) : F :=
  match valid s with
  | [] => NaN
  | x :: r => fold_left fmin r x
  end.

(** [s.mean()] (skipna) *)
Definition mean (s : Series) : F :=
  match valid s with
  | [] => NaN
  | v => (fsum v / of_nat (length v))%F
  end.

(** [s.var()] with ddof = 1 (skipna): NaN with fewer than two values *)
Definition var (s : Series) : F :=
  let v := valid s in
  if (length v <=? 1)%nat then NaN
  else
    let avg := (fsum v / of_nat (length v))%F in
    (fsum (map (fun x => (avg - x) * (avg - x))%F v) / of_nat (length v - 1))%F.

(** State of the exponentially weighted mean: the running average, the
    weight of the past, and the number of observations seen. *)
Record ewm_state := { weighted : F; old_wt : Q; nobs : nat }.

(** one row of [ewm(com=c, adjust=True, ignore_na=False).mean()] *)
Definition ewm_step (com : Q) (st : ewm_state) (cur : F) : ewm_state :=
  let is_obs := notna cur in
  let n := if is_obs then S (nobs st) else nobs st in
  if notna (weighted st) then
    let ow := Qred (old_wt st * (1 - 1 / (1 + com))) in
    if is_obs then
      let w :=
        if feqb (weighted st) cur then weighted st
        else ((Fin ow * weighted st + Fin 1 * cur) / Fin (ow + 1))%F in
      {| weighted := w; old_wt := Qred (ow + 1); nobs := n |}
    else {| weighted := weighted st; old_wt := ow; nobs := n |}
  else if is_obs then {| weighted := cur; old_wt := old_wt st; nobs := n |}
  else {| weighted := weighted st; old_wt := old_wt st; nobs := n |}.

(** invariant of the state while it reads gains or losses: the average is
    a number that is not negative and the weight is positive *)
Definition ewm_ok (st : ewm_state) : Prop :=
  nonneg (weighted st) /\ 0 < old_wt st.

Definition ewm_out (minp : nat) (st : ewm_state) : F :=
  if (minp <=? nobs st)%nat then weighted st else NaN.

Fixpoint ewm_run (com : Q) (minp : nat) (st : ewm_state) (s : Series) : Series :=
  match s with
  | [] => []
  | x :: r =>
      let st' := ewm_step com st x in
      ewm_out minp st' :: ewm_run com minp st' r
  end.

(** [s.ewm(com=c, min_periods=m).mean()] *)
Definition ewm_mean (com : Q) (minp : nat) (s : Series) : Series :=
  match s with
  | [] => []
  | x :: r =>
      let st0 := {| weighted := x; old_wt := 1;
                    nobs := if notna x then 1 else 0 |} in
      ewm_out minp st0 :: ewm_run com minp st0 r
  end.

(** [df.loc[d, col]]: the cell of column [col] in the row labelled [d] *)
Fixpoint at_date (index : list nat) (col : Series) (d : nat) : option F :=
  match index, col with
  | i :: index', x :: col' =>
      if (i =? d)%nat then Some x else at_date index' col' d
  | _, _ => None
  end.

(** Vocabulary of the statements: [m] is the largest value of [s] in the
    rows [0..t]; [m] is the smallest value of [s].  Rows holding NaN have no
    value. *)
Definition running_max_of (s : Series) (t : nat) (m : Q) : Prop :=
  (exists k, (k <= t)%nat /\ at_ s k = Fin m)
  /\ (forall k c, (k <= t)%nat -> at_ s k = Fin c -> c <= m).

Definition minimum_of (s : Series) (m : Q) : Prop :=
  (exists k, at_ s k = Fin m)
  /\ (forall k c, at_ s k = Fin c -> m <= c).

(** What lines 46-49 (V1) and 46-48 (V2) are to deliver, for a cumulative
    column [cum], its peak column, the drawdown column and the reported
    maximum drawdown: every drawdown cell is [cum/peak - 1]; wherever the
    cumulative column has a value the peak is its running maximum and the
    drawdown is a number that is not positive; the reported figure is the
    smallest drawdown (missing when no row has one). *)
Definition drawdown_report (cum peak dd : Series) (max_dd : F) : Prop :=
  (forall t, at_ dd t = (at_ cum t / at_ peak t - Fin 1)%F)
  /\ (forall t c, at_ cum t = Fin c ->
        exists m d, at_ peak t = Fin m /\ running_max_of cum t m
                    /\ at_ dd t = Fin d /\ d <= 0)
  /\ ((max_dd = NaN /\ forall t, at_ dd t = NaN)
      \/ exists m, max_dd = Fin m /\ minimum_of dd m).

(** [np.where(cond, 1.0, 0.0)] *)
Definition where_1_0 (cond : list bool) : Series :=
  map (fun b : bool => if b then Fin 1 else Fin 0) cond.

End Pandas.

Import Pandas.

(* ================================================================== *)
(** * The price feed *)
(* ================================================================== *)

Module Feed.

(** One row of [yf.download]: the five columns of a daily bar. *)
Record Bar := {
  b_open : F; b_high : F; b_low : F; b_close : F; b_volume : F
}.

(** [data.dropna(inplace=True)] on the downloaded frame: a row with any
    missing value is removed. *)
Definition complete (b : Bar) : bool :=
  notna (b_open b) && notna (b_high b) && notna (b_low b)
  && notna (b_close b) && notna (b_volume b).

Definition dropna (data : list Bar) : list Bar := filter complete data.

(** the ["Close"] column of the cleaned frame *)
Definition close_column (data : list Bar) : Series :=
  map b_close (dropna data).

End Feed.

(** The square root of a cell, over a root [sqrt] of positive rationals:
    the root of 0 is 0, of a negative number NaN. *)
Definition fsqrt (sqrt : Q -> Q) (x : F) : F :=
  match x with
  | NaN | NInf => NaN
  | PInf => PInf
  | Fin q =>
      match q ?= 0 with
      | Lt => NaN
      | Eq => Fin 0
      | Gt => Fin (sqrt q)
      end
  end.

(** [s.std()] = root of [s.var()] *)
Definition std (sqrt : Q -> Q) (s : Series) : F := fsqrt sqrt (var s).

(* ================================================================== *)
(** * BacktesterV1.py *)
(* ================================================================== *)

Module V1.

(** A row of [data] once the two averages are attached (lines 14-16);
    [r_date] is the row label: the position of the bar in the cleaned
    download. *)
Record row := { r_date : nat; r_close : F; r_sma10 : F; r_sma50 : F }.

Definition with_sma (close : Series) : list row :=
  let sma10 := rolling_mean 10 close in
  let sma50 := rolling_mean 50 close in
  map (fun i => {| r_date := i; r_close := at_ close i;
                   r_sma10 := at_ sma10 i; r_sma50 := at_ sma50 i |})
      (seq 0 (length close)).

Definition row_complete (r : row) : bool :=
  notna (r_close r) && notna (r_sma10 r) && notna (r_sma50 r).

(** line 18: [data.dropna(inplace=True)] *)
Definition dropna (df : list row) : list row := filter row_complete df.

(** the frame [data] after line 18, from the cleaned ["Close"] column *)
Definition data (close : Series) : list row := dropna (with_sma close).

(** The columns the script adds to the frame [df]. *)
Section Columns.
Variable df : list row.

Definition index : list nat := map r_date df.
Definition Close : Series := map r_close df.
Definition SMA_10 : Series := map r_sma10 df.
Definition SMA_50 : Series := map r_sma50 df.

(** line 22 *)
Definition Position : Series :=
  where_1_0 (map2 fgt SMA_10 SMA_50).

(** line 25 *)
Definition daily_returns : Series := pct_change Close.

(** line 30 *)
Definition strategy_returns : Series :=
  map2 fmul daily_returns (shift1 Position).

(** line 32 *)
Definition cumulative_returns : Series :=
  cumprod (map (fun x => (x + Fin 1)%F) strategy_returns).

(** line 37 *)
Definition buy_hold_returns : Series :=
  cumprod (map (fun x => (x + Fin 1)%F) daily_returns).

(** lines 46-49 *)
Definition Running_max : Series := cummax cumulative_returns.
Definition Drawdown : Series :=
  map2 (fun c m => (c / m - Fin 1)%F) cumulative_returns Running_max.
Definition max_dd : F := smin Drawdown.

(** lines 40-43 *)
Variable sqrt : Q -> Q.
Definition mean_dr : F := mean strategy_returns.
Definition std_dr : F := std sqrt strategy_returns.
Definition daily_sharpe : F := (mean_dr / std_dr)%F.
Definition annual_sharpe : F := (daily_sharpe * fsqrt sqrt (Fin 252))%F.

End Columns.

(** the script on a downloaded frame: what lines 55-57 print (line 57
    takes the last cell of the third component) *)
Definition main (sqrt : Q -> Q) (download : list Feed.Bar) : F * F * Series :=
  let df := data (Feed.close_column download) in
  (annual_sharpe df sqrt, max_dd df, cumulative_returns df).

End V1.

(* ================================================================== *)
(** * BacktesterV2.py *)
(* ================================================================== *)

Module V2.

(** line 27 on one cell: [100 - (100 / (1 + rs))] *)
Definition rsi_of (rs : F) : F := (Fin 100 - Fin 100 / (Fin 1 + rs))%F.

Section Columns.
Variable close : Series.

(** no row is removed after line 14: the frame keeps every bar *)
Definition index : list nat := seq 0 (length close).
Definition Close : Series := close.

(** lines 17-18 *)
Definition SMA_10 : Series := rolling_mean 10 Close.
Definition SMA_50 : Series := rolling_mean 50 Close.

(** lines 21-27 *)
Definition Change : Series := diff Close.
Definition Gain : Series :=
  map (fun c => if fgt c (Fin 0) then c else Fin 0) Change.
Definition Loss : Series :=
  map (fun c => if flt c (Fin 0) then fabs c else Fin 0) Change.
Definition Avg_Gain : Series := ewm_mean 13 14 Gain.
Definition Avg_Loss : Series := ewm_mean 13 14 Loss.
Definition RS : Series := map2 fdiv Avg_Gain Avg_Loss.
Definition RSI : Series := map rsi_of RS.

(** line 30 *)
Definition Signal : Series :=
  where_1_0 (map2 andb (map2 fgt SMA_10 SMA_50)
                       (map (fun r => flt r (Fin 70)) RSI)).

(** lines 33-36 *)
Definition Market_returns : Series := pct_change Close.
Definition Strategy_returns : Series :=
  map2 fmul Market_returns (shift1 Signal).
Definition Cumulative_market : Series :=
  cumprod (map (fun x => (Fin 1 + x)%F) (fillna0 Market_returns)).
Definition Cumulative_strategy : Series :=
  cumprod (map (fun x => (Fin 1 + x)%F) (fillna0 Strategy_returns)).

(** lines 46-48 *)
Definition Peak : Series := cummax Cumulative_strategy.
Definition Drawdown : Series :=
  map2 (fun c m => (c / m - Fin 1)%F) Cumulative_strategy Peak.
Definition max_dd : F := smin Drawdown.

(** lines 39-43 *)
Variable sqrt : Q -> Q.
Definition std_ : F := std sqrt Strategy_returns.
Definition sharpe : F :=
  if fgt std_ (Fin 0)
  then (mean Strategy_returns / std_ * fsqrt sqrt (Fin 252))%F
  else Fin 0.

End Columns.

(** the script on a downloaded frame with at least one complete bar: what
    lines 52-55 print *)
Definition main (sqrt : Q -> Q) (download : list Feed.Bar) : F * F * F * F :=
  let close := Feed.close_column download in
  (at_ (Cumulative_strategy close) (length close - 1),
   at_ (Cumulative_market close) (length close - 1),
   max_dd close, sharpe close sqrt).

End V2.

(* ================================================================== *)
(** * news_gathererV1.py *)
(* ================================================================== *)

Module News.
Import String Ascii.
Local Open Scope string_scope.

(** The values a story of the API can hold. *)
#[warnings="-register-all"]
Inductive pyval : Type :=
| PyNone
| PyBool (b : bool)
| PyInt (z : Z)
| PyFloat (q : Q)
| PyStr (s : string)
| PyList (l : list pyval)
| PyDict (d : list (string * pyval)).

(** Python truth value: [x or y] yields [x] exactly when this holds *)
Definition truthy (v : pyval) : bool :=
  match v with
  | PyNone => false
  | PyBool b => b
  | PyInt z => negb (Z.eqb z 0)
  | PyFloat q => negb (Qeq_bool q 0)
  | PyStr s => negb (s =? "")
  | PyList l => match l with [] => false | _ => true end
  | PyDict d => match d with [] => false | _ => true end
  end.

Inductive exn : Type :=
| AttributeError (msg : string)
| TypeError (msg : string)
| UpstreamError (msg : string).

(** [str(e)] *)
Definition message (e : exn) : string :=
  match e with AttributeError m | TypeError m | UpstreamError m => m end.

Inductive result (A : Type) : Type :=
| Ok (a : A)
| Raise (e : exn).
Arguments Ok {A} a.
Arguments Raise {A} e.

Definition bind {A B} (r : result A) (k : A -> result B) : result B :=
  match r with Ok a => k a | Raise e => Raise e end.

Notation "x <- r ;; k" := (bind r (fun x => k))
  (at level 61, r at next level, right associativity).

Definition type_name (v : pyval) : string :=
  match v with
  | PyNone => "NoneType" | PyBool _ => "bool" | PyInt _ => "int"
  | PyFloat _ => "float" | PyStr _ => "str" | PyList _ => "list"
  | PyDict _ => "dict"
  end.

Fixpoint dict_get (d : list (string * pyval)) (k : string) (dflt : pyval)
  : pyval :=
  match d with
  | [] => dflt
  | (k', v) :: r => if k' =? k then v else dict_get r k dflt
  end.

(** [v.get(k, dflt)]: only a dict has the method *)
Definition get (v : pyval) (k : string) (dflt : pyval) : result pyval :=
  match v with
  | PyDict d => Ok (dict_get d k dflt)
  | _ => Raise (AttributeError
                  ("'" ++ type_name v ++ "' object has no attribute 'get'"))
  end.

(** [for story in v]: what the loop iterates over *)
Definition iter (v : pyval) : result (list pyval) :=
  match v with
  | PyList l => Ok l
  | PyDict d => Ok (map (fun kv => PyStr (fst kv)) d)
  | PyStr s => Ok (map (fun c => PyStr (String c "")) (list_ascii_of_string s))
  | _ => Raise (TypeError
                  ("'" ++ type_name v ++ "' object is not iterable"))
  end.

(** A [datetime]: the six fields that the format prints, the microsecond,
    and the offset from UTC in seconds.  [datetime.fromtimestamp(t)] gives
    a naive local time (no offset: [None]); [datetime.fromisoformat(s)]
    gives an aware one when [s] carries an offset, as every string with a
    [Z] does after line 70. *)
Record datetime := {
  year : N; month : N; day : N;
  hour : N; minute : N; second : N;
  microsecond : N;
  utcoffset : option Z
}.

Definition digit (n : N) : ascii := ascii_of_N (48 + n mod 10).

Definition pad2 (n : N) : string :=
  String (digit (n / 10)) (String (digit n) "").

Definition pad4 (n : N) : string :=
  String (digit (n / 1000)) (String (digit (n / 100)) (pad2 n)).

(** [%Y] as the C library of Linux prints it: the year in decimal, with
    four digits from the year 1000 on and without leading zeros before *)
Definition year_str (n : N) : string :=
  if (n <? 10)%N then String (digit n) ""
  else if (n <? 100)%N then pad2 n
  else if (n <? 1000)%N then String (digit (n / 100)) (pad2 n)
  else pad4 n.

(** [dt.strftime("%Y-%m-%d %H:%M:%S")]: the microsecond and the offset are
    not printed *)
Definition strftime (dt : datetime) : string :=
  year_str (year dt) ++ "-" ++ pad2 (month dt) ++ "-" ++ pad2 (day dt) ++ " "
  ++ pad2 (hour dt) ++ ":" ++ pad2 (minute dt) ++ ":" ++ pad2 (second dt).

(** the ranges of the fields of a [datetime] with a year of four digits *)
Definition wf_datetime (dt : datetime) : Prop :=
  (1000 <= year dt /\ year dt <= 9999 /\ month dt <= 12 /\ day dt <= 31
   /\ hour dt <= 23 /\ minute dt <= 59 /\ second dt <= 59)%N.

(** ** Vocabulary: the instant of an aware datetime

    What [newest] means for two aware datetimes: Python compares them by
    their instants, the wall clock minus the offset.  The day count is the
    proleptic Gregorian ordinal of [date.toordinal]. *)
Definition is_leap (y : Z) : bool :=
  (y mod 4 =? 0)%Z && (negb (y mod 100 =? 0)%Z || (y mod 400 =? 0)%Z).

Definition days_in_month (y m : Z) : Z :=
  if (m =? 2)%Z then (if is_leap y then 29 else 28)%Z
  else if ((m =? 4) || (m =? 6) || (m =? 9) || (m =? 11))%Z then 30%Z
  else 31%Z.

Definition days_before_year (y : Z) : Z :=
  ((y - 1) * 365 + (y - 1) / 4 - (y - 1) / 100 + (y - 1) / 400)%Z.

Definition days_before_month (y m : Z) : Z :=
  fold_right Z.add 0%Z
    (map (fun k => days_in_month y (Z.of_nat k)) (seq 1 (Z.to_nat m - 1))).

Definition toordinal (dt : datetime) : Z :=
  (days_before_year (Z.of_N (year dt))
   + days_before_month (Z.of_N (year dt)) (Z.of_N (month dt))
   + Z.of_N (day dt))%Z.

(** seconds of the wall clock since the start of day 0 of the ordinal *)
Definition wall_seconds (dt : datetime) : Z :=
  (((toordinal dt * 24 + Z.of_N (hour dt)) * 60 + Z.of_N (minute dt)) * 60
   + Z.of_N (second dt))%Z.

(** the instant of an aware datetime, in whole seconds; a naive one has
    none *)
Definition utc_seconds (dt : datetime) : option Z :=
  match utcoffset dt with
  | Some off => Some (wall_seconds dt - off)%Z
  | None => None
  end.

(** a date of the calendar with a time of day *)
Definition calendar_datetime (dt : datetime) : Prop :=
  (1 <= Z.of_N (year dt) <= 9999 /\ 1 <= Z.of_N (month dt) <= 12
   /\ 1 <= Z.of_N (day dt)
        <= days_in_month (Z.of_N (year dt)) (Z.of_N (month dt))
   /\ Z.of_N (hour dt) <= 23 /\ Z.of_N (minute dt) <= 59
   /\ Z.of_N (second dt) <= 59)%Z.

(** lexicographic combination of two comparisons *)
Definition lex (c1 c2 : comparison) : comparison :=
  match c1 with Eq => c2 | _ => c1 end.

(** the chronological order of the printed fields *)
Definition dt_compare (d1 d2 : datetime) : comparison :=
  lex (N.compare (year d1) (year d2))
 (lex (N.compare (month d1) (month d2))
 (lex (N.compare (day d1) (day d2))
 (lex (N.compare (hour d1) (hour d2))
 (lex (N.compare (minute d1) (minute d2))
      (N.compare (second d1) (second d2)))))).

(** [s.replace("Z", "+00:00")] *)
Fixpoint replace_Z (s : string) : string :=
  match s with
  | EmptyString => EmptyString
  | String c r =>
      if Ascii.eqb c "Z"%char then "+00:00" ++ replace_Z r
      else String c (replace_Z r)
  end.

(** the clean record of one story (lines 84-89) *)
Record info := {
  company : string; ticker : string; headline : pyval; time : string
}.

(** [s.ljust(n)], the [:<n] of an f-string *)
Definition ljust (n : nat) (s : string) : string :=
  s ++ string_of_list_ascii (repeat " "%char (n - String.length s)).

Definition newline : string := String (ascii_of_nat 10) "".

Fixpoint stable_insert (x : info) (l : list info) : list info :=
  match l with
  | [] => [x]
  | y :: r =>
      if String.ltb (time x) (time y) then y :: stable_insert x r
      else x :: y :: r
  end.

(** [l.sort(key=lambda x: x['time'], reverse=True)]: the stable sort into
    descending order of the key; records with equal keys keep the order
    they had. *)
Definition sort_desc (l : list info) : list info :=
  fold_right stable_insert [] l.

(** [a] may stand above [b] in the sorted list: its key is not below the
    key of [b] *)
Definition above (a b : info) : Prop := String.leb (time b) (time a) = true.

Record state := { all_market_news : list info; stdout : list string }.

Section Script.

(** What the script takes from outside: the [.news] of [yf.Ticker(t)] (a
    value, or an exception), the two parsers of [datetime] ([None] when
    they raise), and [str] on values that are not strings. *)
Variable fetch_news : string -> result pyval.
Variable fromtimestamp : pyval -> option datetime.
Variable fromisoformat : string -> option datetime.
Variable repr : pyval -> string.

Definition str (v : pyval) : string :=
  match v with PyStr s => s | _ => repr v end.

(** lines 50-54 *)
Definition raw_time_of (story : pyval) : result pyval :=
  a <- get story "providerPublishTime" PyNone ;;
  if truthy a then Ok a else
  b <- get story "pubDate" PyNone ;;
  if truthy b then Ok b else
  c <- get story "content" (PyDict []) ;;
  get c "pubDate" PyNone.

(** lines 56-75 *)
Definition time_str_of (raw_time : pyval) : string :=
  let on_error := if truthy raw_time then str raw_time else "Unknown Time" in
  match raw_time with
  | PyBool _ | PyInt _ | PyFloat _ =>
      match fromtimestamp raw_time with
      | Some dt_object => strftime dt_object
      | None => on_error
      end
  | PyStr s =>
      match fromisoformat (replace_Z s) with
      | Some dt_object => strftime dt_object
      | None => on_error
      end
  | _ => "Unknown Time"
  end.

(** line 79 *)
Definition headline_of (story : pyval) : result pyval :=
  a <- get story "title" PyNone ;;
  if truthy a then Ok a else
  c <- get story "content" (PyDict []) ;;
  get c "title" (PyStr "No Title").

(** one turn of the loop of lines 44-90 *)
Definition clean_story (name tick : string) (story : pyval) : result info :=
  raw_time <- raw_time_of story ;;
  h <- headline_of story ;;
  Ok {| company := name; ticker := tick; headline := h;
        time := time_str_of raw_time |}.

Fixpoint clean_loop (name tick : string) (stories : list pyval)
  (cleaned_news : list info) : result (list info) :=
  match stories with
  | [] => Ok cleaned_news
  | story :: rest =>
      i <- clean_story name tick story ;;
      clean_loop name tick rest (cleaned_news ++ [i])
  end.

(** lines 23-92; the printed line comes first *)
Definition get_news (name tick : string) : list string * result (list info) :=
  ( [ "Fetching news for " ++ name ++ " (" ++ tick ++ ")...." ],
    newslist <- fetch_news tick ;;
    if negb (truthy newslist) then Ok []
    else stories <- iter newslist ;; clean_loop name tick stories [] ).

(** lines 100-108 *)
Definition main_step (st : state) (entry : string * string) : state :=
  let '(name, tick) := entry in
  let '(printed, r) := get_news name tick in
  match r with
  | Ok results =>
      {| all_market_news := all_market_news st ++ results;
         stdout := stdout st ++ printed |}
  | Raise e =>
      {| all_market_news := all_market_news st;
         stdout := stdout st ++ printed
                   ++ [ "Error on " ++ tick ++ ": " ++ message e ] |}
  end.

Definition main_loop (watchlist : list (string * string)) : state :=
  fold_left main_step watchlist {| all_market_news := []; stdout := [] |}.

(** Vocabulary of the statements: what one entry of the watchlist adds to
    the master list, and the line printed for a failing ticker. *)
Definition results_of (entry : string * string) : list info :=
  match snd (get_news (fst entry) (snd entry)) with
  | Ok results => results
  | Raise _ => []
  end.

Definition error_marker (tick : string) (e : exn) : string :=
  "Error on " ++ tick ++ ": " ++ message e.

Definition printed_of (entry : string * string) : list string :=
  fst (get_news (fst entry) (snd entry))
  ++ match snd (get_news (fst entry) (snd entry)) with
     | Ok _ => []
     | Raise e => [ error_marker (snd entry) e ]
     end.

(** the [datetime] the script reads from a raw time, if any *)
Definition parsed (raw_time : pyval) : option datetime :=
  match raw_time with
  | PyBool _ | PyInt _ | PyFloat _ => fromtimestamp raw_time
  | PyStr s => fromisoformat (replace_Z s)
  | _ => None
  end.

(** lines 117-123 *)
Definition display (news : list info) : list string :=
  [ newline ++ string_of_list_ascii (repeat "="%char 80);
    ljust 20 "TIMESTAMP" ++ " | " ++ ljust 10 "TICKER" ++ " | " ++ "HEADLINE";
    string_of_list_ascii (repeat "-"%char 80) ]
  ++ map (fun item => "[" ++ time item ++ "] " ++ ljust 10 (company item)
                      ++ " | " ++ str (headline item)) news.

(** the whole script: loop, sort (line 114), display *)
Definition main (watchlist : list (string * string)) : state :=
  let st := main_loop watchlist in
  let sorted := sort_desc (all_market_news st) in
  {| all_market_news := sorted; stdout := stdout st ++ display sorted |}.

End Script.

(** lines 14-21 *)
Definition watchlist : list (string * string) :=
  [ ("Google", "GOOGL"); ("Tesla", "TSLA"); ("Palantir", "PLTR");
    ("Nvidia", "NVDA"); ("Gold", "GC=F"); ("Silver", "SI=F") ].

(** A sample run: Tesla's feed raises, Google has one dated story and one
    without a time, the other feeds are empty. *)
Module Sample.

Definition dated_story : pyval :=
  PyDict [("providerPublishTime", PyInt 1710921600); ("title", PyStr "A")].

Definition undated_story : pyval := PyDict [("title", PyStr "C")].

Definition fetch_news (t : string) : result pyval :=
  if t =? "TSLA" then Raise (UpstreamError "HTTP 500")
  else if t =? "GOOGL" then Ok (PyList [dated_story; undated_story])
  else Ok (PyList []).

Definition fromtimestamp (v : pyval) : option datetime :=
  match v with
  | PyInt 1710921600 =>
      Some {| year := 2024; month := 3; day := 20;
              hour := 8; minute := 0; second := 0;
              microsecond := 0; utcoffset := None |}
  | _ => None
  end.

Definition fromisoformat (s : string) : option datetime := None.

Definition repr (v : pyval) : string := "?".

Definition run : state :=
  main fetch_news fromtimestamp fromisoformat repr watchlist.

End Sample.

(** A feed in the schema with ISO strings: Google has one story stamped in
    UTC and an older one stamped at five hours east of UTC; the other
    feeds are empty. *)
Module Offsets.

Definition newer_story : pyval :=
  PyDict [("pubDate", PyStr "2024-03-20T08:00:00Z");
          ("title", PyStr "Newer")].

Definition older_story : pyval :=
  PyDict [("pubDate", PyStr "2024-03-20T10:00:00+05:00");
          ("title", PyStr "Older")].

Definition fetch_news (t : string) : result pyval :=
  if t =? "GOOGL" then Ok (PyList [newer_story; older_story])
  else Ok (PyList []).

(** [datetime.fromisoformat] on the two strings of the feed *)
Definition utc_time : datetime :=
  {| year := 2024; month := 3; day := 20; hour := 8; minute := 0;
     second := 0; microsecond := 0; utcoffset := Some 0%Z |}.

Definition east_time : datetime :=
  {| year := 2024; month := 3; day := 20; hour := 10; minute := 0;
     second := 0; microsecond := 0; utcoffset := Some 18000%Z |}.

Definition fromisoformat (s : string) : option datetime :=
  if s =? "2024-03-20T08:00:00+00:00" then Some utc_time
  else if s =? "2024-03-20T10:00:00+05:00" then Some east_time
  else None.

Definition run : state :=
  main fetch_news Sample.fromtimestamp fromisoformat Sample.repr watchlist.

End Offsets.

End News.

(* ================================================================== *)
(** * Sample inputs *)
(* ================================================================== *)

Module Samples.

Definition price (n : nat) : F := Fin (inject_Z (Z.of_nat n)).

(** a constant close of 100 over [n] bars *)
Definition flat (n : nat) : Series := map (fun _ => price 100) (seq 0 n).

(** a close rising by 1 a day from 100 *)
Definition up (n : nat) : Series := map (fun i => price (100 + i)) (seq 0 n).

(** a rising sawtooth: +3, -2, +3, -2, ... from 100 *)
Definition saw (n : nat) : Series :=
  map (fun i => price (100 + Nat.div i 2 + (if Nat.even i then 0 else 3)))
      (seq 0 n).

(** the series [s] with the bar of date [t] replaced by [x] *)
Definition perturb (s : Series) (t : nat) (x : F) : Series :=
  firstn t s ++ x :: skipn (S t) s.

(** a square root for the samples, to nine decimals: the root of [n/d] is
    the root of [n*d] over [d] *)
Definition root (q : Q) : Q :=
  Qred (Z.sqrt (Qnum q * Zpos (Qden q) * 10 ^ 18)
        # (Qden q * 10 ^ 9)%positive).

End Samples.

(* ================================================================== *)
(** * Vocabulary for further properties of the news gatherer *)
(* ================================================================== *)

Module Stories.
Import String Ascii News.
Local Open Scope string_scope.

(** a story dict has a usable time at the top level: the first or the
    second lookup of lines 51-52 is truthy *)
Definition has_top_time (d : list (string * pyval)) : bool :=
  truthy (dict_get d "providerPublishTime" PyNone)
  || truthy (dict_get d "pubDate" PyNone).

(** a story dict has a usable title at the top level (line 79) *)
Definition has_top_title (d : list (string * pyval)) : bool :=
  truthy (dict_get d "title" PyNone).

(** [story.get("content", {})] is a dict: the key is absent, or holds one *)
Definition content_is_dict (d : list (string * pyval)) : bool :=
  match dict_get d "content" (PyDict []) with
  | PyDict _ => true
  | _ => false
  end.

(** the number of capital Z in a string *)
Fixpoint count_Z (s : string) : nat :=
  match s with
  | EmptyString => 0
  | String c r => (if Ascii.eqb c "Z"%char then 1 else 0) + count_Z r
  end.

(** the entry of the watchlist makes [get_news] raise *)
Definition failed (fetch_news : string -> result pyval)
  (fromtimestamp : pyval -> option datetime)
  (fromisoformat : string -> option datetime) (repr : pyval -> string)
  (entry : string * string) : bool :=
  match snd (get_news fetch_news fromtimestamp fromisoformat repr
               (fst entry) (snd entry)) with
  | Ok _ => false
  | Raise _ => true
  end.

(** a story that cannot be cleaned: no title, and a content that is not a
    dict *)
Definition broken_story : pyval :=
  PyDict [("providerPublishTime", PyInt 1710921600); ("content", PyNone)].

(** a feed whose second story of Google is broken *)
Definition broken_feed (t : string) : result pyval :=
  if t =? "GOOGL" then Ok (PyList [Sample.dated_story; broken_story])
  else Ok (PyList []).

End Stories.
(* ================================================================== *)
(** * Facts about columns *)
(* ================================================================== *)

Unset Implicit Arguments.

Section ColumnFacts.

Lemma map2_length {A B C} (f : A -> B -> C) a b :
  length (map2 f a b) = Nat.min (length a) (length b).
Proof.
  revert b; induction a as [|x a IH]; intros [|y b]; simpl; auto.
Qed.

Lemma nth_map2 {A B C} (f : A -> B -> C) a b i da db dc :
  (i < length a)%nat -> (i < length b)%nat ->
  nth i (map2 f a b) dc = f (nth i a da) (nth i b db).
Proof.
  revert b i; induction a as [|x a IH]; intros [|y b] [|i]; simpl;
    intros; try lia; auto.
  apply IH; lia.
Qed.

Lemma map2_app {A B C} (f : A -> B -> C) a1 a2 b1 b2 :
  length a1 = length b1 ->
  map2 f (a1 ++ a2) (b1 ++ b2) = map2 f a1 b1 ++ map2 f a2 b2.
Proof.
  revert b1; induction a1 as [|x a1 IH]; intros [|y b1]; simpl;
    intros E; try discriminate; auto.
  f_equal; apply IH; lia.
Qed.

Lemma shift1_length s : length (shift1 s) = length s.
Proof.
  unfold shift1. rewrite length_firstn. simpl. lia.
Qed.

Lemma shift1_cons x s : shift1 (x :: s) = NaN :: removelast (x :: s).
Proof.
  unfold shift1. cbn [length firstn]. f_equal.
  revert x; induction s as [|y s IH]; intro x; [reflexivity|].
  cbn [length firstn]. rewrite IH. reflexivity.
Qed.

Lemma at_shift1_0 s : at_ (shift1 s) 0 = NaN.
Proof. destruct s; reflexivity. Qed.

Lemma at_shift1_S s i :
  (S i < length s)%nat -> at_ (shift1 s) (S i) = at_ s i.
Proof.
  unfold at_, shift1. intros H.
  rewrite nth_firstn.
  destruct (Nat.ltb_spec (S i) (length s)); [reflexivity | lia].
Qed.

Lemma shift1_app s r :
  s <> [] -> exists r', shift1 (s ++ r) = shift1 s ++ r' /\ length r' = length r.
Proof.
  intros Hs. unfold shift1.
  exists (firstn (length r) (skipn (length s) (NaN :: s ++ r))).
  assert (E : NaN :: s ++ r = firstn (length s) (NaN :: s)
                               ++ skipn (length s) (NaN :: s ++ r)).
  { rewrite <- (firstn_skipn (length s) (NaN :: s ++ r)) at 1.
    f_equal. change (NaN :: s ++ r) with ((NaN :: s) ++ r).
    rewrite firstn_app.
    replace (length s - length (NaN :: s))%nat with 0%nat
      by (cbn [length]; lia).
    rewrite firstn_O, app_nil_r. reflexivity. }
  split.
  - rewrite E at 1. rewrite firstn_app.
    rewrite length_firstn, length_app. simpl length.
    replace (Nat.min (length s) (S (length s))) with (length s) by lia.
    replace (length s + length r - length s)%nat with (length r) by lia.
    f_equal. rewrite firstn_firstn. f_equal. lia.
  - rewrite length_firstn, length_skipn. cbn [length].
    rewrite length_app. lia.
Qed.

Lemma pct_change_length s : length (pct_change s) = length s.
Proof.
  unfold pct_change. rewrite map2_length, shift1_length. lia.
Qed.

Lemma at_pct_change_S s i :
  (S i < length s)%nat ->
  at_ (pct_change s) (S i) = (at_ s (S i) / at_ s i - Fin 1)%F.
Proof.
  intros H. unfold at_, pct_change.
  rewrite (nth_map2 _ _ _ _ NaN NaN) by (rewrite ?shift1_length; lia).
  fold (at_ (shift1 s) (S i)). rewrite at_shift1_S by lia. reflexivity.
Qed.

Lemma at_pct_change_0 s : at_ (pct_change s) 0 = NaN.
Proof.
  destruct s as [|x s]; [reflexivity|].
  unfold pct_change. rewrite shift1_cons. destruct x; reflexivity.
Qed.

Lemma nth_map' {A B} (f : A -> B) l i da db :
  (i < length l)%nat -> nth i (map f l) db = f (nth i l da).
Proof.
  revert i; induction l as [|x l IH]; intros [|i]; simpl; intros; try lia; auto.
  apply IH; lia.
Qed.

Lemma where_1_0_length c : length (where_1_0 c) = length c.
Proof. apply length_map. Qed.

Lemma at_where_1_0 c i :
  (i < length c)%nat ->
  at_ (where_1_0 c) i = if nth i c false then Fin 1 else Fin 0.
Proof.
  intros H. unfold at_, where_1_0.
  rewrite (nth_map' _ _ _ false) by exact H. reflexivity.
Qed.

Lemma rolling_mean_length w s : length (rolling_mean w s) = length s.
Proof. unfold rolling_mean. rewrite length_map, length_seq. reflexivity. Qed.

Lemma at_rolling_mean w s i :
  (i < length s)%nat -> at_ (rolling_mean w s) i = roll_at w s i.
Proof.
  intros H. unfold at_, rolling_mean.
  rewrite (nth_map' _ _ _ 0%nat) by (rewrite length_seq; lia).
  rewrite seq_nth by lia. reflexivity.
Qed.

End ColumnFacts.

(* ================================================================== *)
(** * Shape of the two frames *)
(* ================================================================== *)

Section Shapes.
Variable df : list V1.row.
Variable close : Series.

Lemma V1_Close_length : length (V1.Close df) = length (V1.index df).
Proof. unfold V1.Close, V1.index. now rewrite !length_map. Qed.

Lemma V1_SMA_10_length : length (V1.SMA_10 df) = length (V1.index df).
Proof. unfold V1.SMA_10, V1.index. now rewrite !length_map. Qed.

Lemma V1_SMA_50_length : length (V1.SMA_50 df) = length (V1.index df).
Proof. unfold V1.SMA_50, V1.index. now rewrite !length_map. Qed.

Lemma V1_Position_length : length (V1.Position df) = length (V1.index df).
Proof.
  unfold V1.Position. rewrite where_1_0_length, map2_length.
  rewrite V1_SMA_10_length, V1_SMA_50_length. lia.
Qed.

Lemma V1_daily_returns_length :
  length (V1.daily_returns df) = length (V1.index df).
Proof. unfold V1.daily_returns. now rewrite pct_change_length, V1_Close_length. Qed.

Lemma V1_strategy_returns_length :
  length (V1.strategy_returns df) = length (V1.index df).
Proof.
  unfold V1.strategy_returns.
  rewrite map2_length, shift1_length, V1_daily_returns_length, V1_Position_length.
  lia.
Qed.

Lemma V2_index_length : length (V2.index close) = length close.
Proof. apply length_seq. Qed.

Lemma V2_SMA_10_length : length (V2.SMA_10 close) = length close.
Proof. apply rolling_mean_length. Qed.

Lemma V2_SMA_50_length : length (V2.SMA_50 close) = length close.
Proof. apply rolling_mean_length. Qed.

Lemma V2_Change_length : length (V2.Change close) = length close.
Proof.
  unfold V2.Change, diff, V2.Close. rewrite map2_length, shift1_length. lia.
Qed.

Lemma ewm_run_length com minp st s :
  length (ewm_run com minp st s) = length s.
Proof.
  revert st; induction s as [|x s IH]; intro st; simpl; auto.
Qed.

Lemma ewm_mean_length com minp s : length (ewm_mean com minp s) = length s.
Proof.
  destruct s as [|x s]; simpl; auto. now rewrite ewm_run_length.
Qed.

Lemma V2_Avg_Gain_length : length (V2.Avg_Gain close) = length close.
Proof.
  unfold V2.Avg_Gain, V2.Gain.
  now rewrite ewm_mean_length, length_map, V2_Change_length.
Qed.

Lemma V2_Avg_Loss_length : length (V2.Avg_Loss close) = length close.
Proof.
  unfold V2.Avg_Loss, V2.Loss.
  now rewrite ewm_mean_length, length_map, V2_Change_length.
Qed.

Lemma V2_RS_length : length (V2.RS close) = length close.
Proof.
  unfold V2.RS. rewrite map2_length, V2_Avg_Gain_length, V2_Avg_Loss_length. lia.
Qed.

Lemma V2_RSI_length : length (V2.RSI close) = length close.
Proof. unfold V2.RSI. now rewrite length_map, V2_RS_length. Qed.

Lemma V2_Signal_length : length (V2.Signal close) = length close.
Proof.
  unfold V2.Signal.
  rewrite where_1_0_length, !map2_length, length_map.
  rewrite V2_SMA_10_length, V2_SMA_50_length, V2_RSI_length. lia.
Qed.

Lemma V2_Market_returns_length : length (V2.Market_returns close) = length close.
Proof. unfold V2.Market_returns. apply pct_change_length. Qed.

Lemma V2_Strategy_returns_length :
  length (V2.Strategy_returns close) = length close.
Proof.
  unfold V2.Strategy_returns.
  rewrite map2_length, shift1_length, V2_Market_returns_length, V2_Signal_length.
  lia.
Qed.

End Shapes.

(* ================================================================== *)
(** * Return calculator and signal generator *)
(* ================================================================== *)

Lemma V1_strategy_return (df : list V1.row) (t : nat) :
  (S t < length (V1.index df))%nat ->
  at_ (V1.daily_returns df) (S t)
    = (at_ (V1.Close df) (S t) / at_ (V1.Close df) t - Fin 1)%F
  /\ at_ (V1.strategy_returns df) (S t)
    = (at_ (V1.daily_returns df) (S t) * at_ (V1.Position df) t)%F.
Proof.
  intros H. split.
  - unfold V1.daily_returns. apply at_pct_change_S.
    now rewrite V1_Close_length.
  - unfold V1.strategy_returns, at_ at 1.
    rewrite (nth_map2 _ _ _ _ NaN NaN)
      by (rewrite ?shift1_length, ?V1_daily_returns_length,
            ?V1_Position_length; lia).
    f_equal. apply at_shift1_S. now rewrite V1_Position_length.
Qed.

Lemma V2_strategy_return (close : Series) (t : nat) :
  (S t < length (V2.index close))%nat ->
  at_ (V2.Market_returns close) (S t)
    = (at_ (V2.Close close) (S t) / at_ (V2.Close close) t - Fin 1)%F
  /\ at_ (V2.Strategy_returns close) (S t)
    = (at_ (V2.Market_returns close) (S t) * at_ (V2.Signal close) t)%F.
Proof.
  rewrite V2_index_length. intros H. split.
  - unfold V2.Market_returns. apply at_pct_change_S. exact H.
  - unfold V2.Strategy_returns, at_ at 1.
    rewrite (nth_map2 _ _ _ _ NaN NaN)
      by (rewrite ?shift1_length, ?V2_Market_returns_length,
            ?V2_Signal_length; lia).
    f_equal. apply at_shift1_S. now rewrite V2_Signal_length.
Qed.

Lemma V1_Position_at (df : list V1.row) (t : nat) :
  (t < length (V1.index df))%nat ->
  at_ (V1.Position df) t
    = if fgt (at_ (V1.SMA_10 df) t) (at_ (V1.SMA_50 df) t)
      then Fin 1 else Fin 0.
Proof.
  intros H. unfold V1.Position.
  rewrite at_where_1_0
    by (rewrite map2_length, V1_SMA_10_length, V1_SMA_50_length; lia).
  rewrite (nth_map2 _ _ _ _ NaN NaN)
    by (rewrite ?V1_SMA_10_length, ?V1_SMA_50_length; lia).
  reflexivity.
Qed.

Lemma V2_Signal_at (close : Series) (t : nat) :
  (t < length (V2.index close))%nat ->
  at_ (V2.Signal close) t
    = if fgt (at_ (V2.SMA_10 close) t) (at_ (V2.SMA_50 close) t)
         && flt (at_ (V2.RSI close) t) (Fin 70)
      then Fin 1 else Fin 0.
Proof.
  rewrite V2_index_length. intros H. unfold V2.Signal.
  rewrite at_where_1_0
    by (rewrite !map2_length, length_map, V2_SMA_10_length, V2_SMA_50_length,
          V2_RSI_length; lia).
  rewrite (nth_map2 _ _ _ _ false false)
    by (rewrite ?map2_length, ?length_map, ?V2_SMA_10_length,
          ?V2_SMA_50_length, ?V2_RSI_length; lia).
  rewrite (nth_map2 _ _ _ _ NaN NaN)
    by (rewrite ?V2_SMA_10_length, ?V2_SMA_50_length; lia).
  rewrite (nth_map' _ _ _ NaN) by (rewrite V2_RSI_length; lia).
  reflexivity.
Qed.

(* ================================================================== *)
(** * Causality: a prefix of the input fixes the same prefix of a column *)
(* ================================================================== *)

Section Causality.

Lemma firstn_map2 {A B C} (f : A -> B -> C) n a b :
  firstn n (map2 f a b) = map2 f (firstn n a) (firstn n b).
Proof.
  revert a b; induction n as [|n IH]; intros [|x a] [|y b]; simpl; auto.
  now rewrite IH.
Qed.

Lemma firstn_seq n start len :
  firstn n (seq start len) = seq start (Nat.min n len).
Proof.
  revert start len; induction n as [|n IH]; intros start [|len];
    simpl; auto.
  now rewrite IH.
Qed.

Lemma firstn_eq_length {A} n (a b : list A) :
  firstn n a = firstn n b -> Nat.min n (length a) = Nat.min n (length b).
Proof.
  intros E. rewrite <- !length_firstn. now rewrite E.
Qed.

Lemma firstn_eq_le {A} m n (a b : list A) :
  (m <= n)%nat -> firstn n a = firstn n b -> firstn m a = firstn m b.
Proof.
  intros Hmn E.
  assert (H : forall l : list A, firstn m l = firstn m (firstn n l)).
  { intro l. rewrite firstn_firstn. f_equal. lia. }
  rewrite (H a), (H b), E. reflexivity.
Qed.

Lemma firstn_eq_nth {A} n (a b : list A) i d :
  firstn n a = firstn n b -> (i < n)%nat -> nth i a d = nth i b d.
Proof.
  intros E Hi.
  rewrite <- (firstn_skipn n a), <- (firstn_skipn n b), E.
  destruct (Nat.lt_ge_cases i (length (firstn n b))) as [Hl|Hl].
  - now rewrite !app_nth1 by (rewrite <- ?E in *; assumption).
  - assert (La : (length a <= i)%nat).
    { rewrite <- E, length_firstn in Hl. lia. }
    assert (Lb : (length b <= i)%nat).
    { rewrite length_firstn in Hl. lia. }
    rewrite !firstn_skipn in *. rewrite <- E, firstn_skipn.
    now rewrite !nth_overflow by assumption.
Qed.

Lemma shift1_causal n (a b : Series) :
  firstn n a = firstn n b -> firstn n (shift1 a) = firstn n (shift1 b).
Proof.
  intros E. unfold shift1. rewrite !firstn_firstn.
  rewrite (firstn_eq_length _ _ _ E).
  destruct (Nat.min n (length b)) as [|k] eqn:Hk; [reflexivity|].
  cbn [firstn]. f_equal. apply firstn_eq_le with (n := n); [lia | exact E].
Qed.

Lemma diff_causal n (a b : Series) :
  firstn n a = firstn n b -> firstn n (diff a) = firstn n (diff b).
Proof.
  intros E. unfold diff.
  now rewrite !firstn_map2, E, (shift1_causal _ _ _ E).
Qed.

Lemma pct_change_causal n (a b : Series) :
  firstn n a = firstn n b -> firstn n (pct_change a) = firstn n (pct_change b).
Proof.
  intros E. unfold pct_change.
  now rewrite !firstn_map2, E, (shift1_causal _ _ _ E).
Qed.

Lemma window_firstn w i n (a : Series) :
  (w <= S i)%nat -> (i < n)%nat -> window w i (firstn n a) = window w i a.
Proof.
  intros Hw Hi. unfold window.
  rewrite skipn_firstn_comm, firstn_firstn. f_equal. lia.
Qed.

Lemma roll_at_causal w n (a b : Series) i :
  firstn n a = firstn n b -> (i < n)%nat -> roll_at w a i = roll_at w b i.
Proof.
  intros E Hi. unfold roll_at.
  destruct (Nat.ltb_spec (S i) w) as [|Hw]; [reflexivity|].
  rewrite <- (window_firstn w i n a Hw Hi), <- (window_firstn w i n b Hw Hi), E.
  reflexivity.
Qed.

Lemma rolling_mean_causal w n (a b : Series) :
  firstn n a = firstn n b ->
  firstn n (rolling_mean w a) = firstn n (rolling_mean w b).
Proof.
  intros E. unfold rolling_mean.
  rewrite !firstn_map, !firstn_seq, (firstn_eq_length _ _ _ E).
  apply map_ext_in. intros i Hi. apply in_seq in Hi.
  apply roll_at_causal with (n := n); [exact E | lia].
Qed.

Lemma ewm_run_causal com minp n : forall st (a b : Series),
  firstn n a = firstn n b ->
  firstn n (ewm_run com minp st a) = firstn n (ewm_run com minp st b).
Proof.
  induction n as [|n IH]; intros st [|x a] [|y b] E; simpl in *;
    try reflexivity; try discriminate.
  injection E as -> E. f_equal. now apply IH.
Qed.

Lemma ewm_mean_causal com minp n (a b : Series) :
  firstn n a = firstn n b ->
  firstn n (ewm_mean com minp a) = firstn n (ewm_mean com minp b).
Proof.
  destruct n as [|n]; [reflexivity|].
  destruct a as [|x a], b as [|y b]; simpl; intros E;
    try reflexivity; try discriminate.
  injection E as -> E. f_equal. now apply ewm_run_causal.
Qed.

Lemma V2_SMA_causal n (a b : Series) :
  firstn n a = firstn n b ->
  firstn n (V2.SMA_10 a) = firstn n (V2.SMA_10 b)
  /\ firstn n (V2.SMA_50 a) = firstn n (V2.SMA_50 b).
Proof.
  intros E. split; now apply rolling_mean_causal.
Qed.

Lemma V2_RSI_causal n (a b : Series) :
  firstn n a = firstn n b -> firstn n (V2.RSI a) = firstn n (V2.RSI b).
Proof.
  intros E.
  assert (EC : firstn n (V2.Change a) = firstn n (V2.Change b))
    by now apply diff_causal.
  unfold V2.RSI, V2.RS. rewrite !firstn_map, !firstn_map2.
  do 2 f_equal; apply ewm_mean_causal;
    unfold V2.Gain, V2.Loss; now rewrite !firstn_map, EC.
Qed.

Lemma V2_Signal_causal n (a b : Series) :
  firstn n a = firstn n b -> firstn n (V2.Signal a) = firstn n (V2.Signal b).
Proof.
  intros E. destruct (V2_SMA_causal _ _ _ E) as [E10 E50].
  unfold V2.Signal, where_1_0.
  rewrite !firstn_map, !firstn_map2, !firstn_map.
  now rewrite E10, E50, (V2_RSI_causal _ _ _ E).
Qed.

Lemma V2_Strategy_returns_causal n (a b : Series) :
  firstn n a = firstn n b ->
  firstn n (V2.Strategy_returns a) = firstn n (V2.Strategy_returns b).
Proof.
  intros E. unfold V2.Strategy_returns, V2.Market_returns, V2.Close.
  rewrite !firstn_map2.
  rewrite (pct_change_causal _ _ _ E).
  now rewrite (shift1_causal _ _ _ (V2_Signal_causal _ _ _ E)).
Qed.

Lemma V2_index_causal n (a b : Series) :
  firstn n a = firstn n b -> firstn n (V2.index a) = firstn n (V2.index b).
Proof.
  intros E. unfold V2.index. rewrite !firstn_seq.
  now rewrite (firstn_eq_length _ _ _ E).
Qed.

(** the columns of the first frame, as functions of its rows *)
Lemma V1_Position_causal n (a b : list V1.row) :
  firstn n a = firstn n b -> firstn n (V1.Position a) = firstn n (V1.Position b).
Proof.
  intros E. unfold V1.Position, where_1_0, V1.SMA_10, V1.SMA_50.
  now rewrite !firstn_map, !firstn_map2, !firstn_map, E.
Qed.

Lemma V1_strategy_returns_causal n (a b : list V1.row) :
  firstn n a = firstn n b ->
  firstn n (V1.strategy_returns a) = firstn n (V1.strategy_returns b).
Proof.
  intros E. unfold V1.strategy_returns, V1.daily_returns, V1.Close.
  rewrite !firstn_map2.
  rewrite (shift1_causal _ _ _ (V1_Position_causal _ _ _ E)).
  f_equal. apply pct_change_causal. now rewrite !firstn_map, E.
Qed.

End Causality.

(* ================================================================== *)
(** * No look-ahead *)
(* ================================================================== *)

Section NoLookAhead.

(** cleaning the download keeps the order: the cleaned closes of a longer
    download extend those of a shorter one *)
Lemma close_column_app (l r : list Feed.Bar) :
  Feed.close_column (l ++ r) = Feed.close_column l ++ Feed.close_column r.
Proof.
  unfold Feed.close_column, Feed.dropna. now rewrite filter_app, map_app.
Qed.

Lemma with_sma_length (a : Series) : length (V1.with_sma a) = length a.
Proof. unfold V1.with_sma. now rewrite length_map, length_seq. Qed.

Lemma with_sma_dates (a : Series) :
  map V1.r_date (V1.with_sma a) = seq 0 (length a).
Proof.
  unfold V1.with_sma. rewrite map_map. cbn [V1.r_date]. apply map_id.
Qed.

Lemma with_sma_causal n (a b : Series) :
  firstn n a = firstn n b ->
  firstn n (V1.with_sma a) = firstn n (V1.with_sma b).
Proof.
  intros E. unfold V1.with_sma.
  rewrite !firstn_map, !firstn_seq, (firstn_eq_length _ _ _ E).
  apply map_ext_in. intros i Hi. apply in_seq in Hi.
  assert (Hn : (i < n)%nat) by lia.
  unfold at_. f_equal.
  - now apply firstn_eq_nth with (n := n).
  - apply firstn_eq_nth with (n := n); [|exact Hn].
    now apply rolling_mean_causal.
  - apply firstn_eq_nth with (n := n); [|exact Hn].
    now apply rolling_mean_causal.
Qed.

(** the rows of the first frame that come from the first [n] bars *)
Lemma V1_data_split n (a : Series) :
  V1.data a = V1.dropna (firstn n (V1.with_sma a))
              ++ V1.dropna (skipn n (V1.with_sma a))
  /\ Forall (fun r => (n <= V1.r_date r)%nat)
            (V1.dropna (skipn n (V1.with_sma a))).
Proof.
  split.
  - unfold V1.data, V1.dropna. rewrite <- filter_app.
    now rewrite firstn_skipn.
  - apply Forall_forall. intros r Hr.
    unfold V1.dropna in Hr. apply filter_In in Hr. destruct Hr as [Hr _].
    apply (in_map V1.r_date) in Hr.
    rewrite <- skipn_map, with_sma_dates, skipn_seq in Hr.
    apply in_seq in Hr. lia.
Qed.

Lemma at_date_absent (idx : list nat) (col : Series) d :
  Forall (fun i => i <> d) idx -> at_date idx col d = None.
Proof.
  revert col; induction idx as [|i idx IH]; intros col H; [reflexivity|].
  inversion H as [|? ? Hi Hr]; subst.
  destruct col as [|x col]; [reflexivity|]. cbn [at_date].
  destruct (Nat.eqb_spec i d); [contradiction|]. now apply IH.
Qed.

Lemma at_date_prefix k (idx : list nat) (col : Series) d :
  Forall (fun i => i <> d) (skipn k idx) ->
  at_date idx col d = at_date (firstn k idx) (firstn k col) d.
Proof.
  revert idx col; induction k as [|k IH]; intros idx col H.
  - cbn [firstn]. now apply at_date_absent.
  - destruct idx as [|i idx]; [reflexivity|].
    destruct col as [|x col]; [reflexivity|].
    cbn [firstn at_date]. destruct (Nat.eqb_spec i d); [reflexivity|].
    apply IH. exact H.
Qed.

Lemma at_date_two_runs k (ia ib : list nat) (ca cb : Series) d :
  firstn k ia = firstn k ib -> firstn k ca = firstn k cb ->
  Forall (fun i => i <> d) (skipn k ia) ->
  Forall (fun i => i <> d) (skipn k ib) ->
  at_date ia ca d = at_date ib cb d.
Proof.
  intros Ei Ec Ha Hb.
  rewrite (at_date_prefix k ia ca d Ha), (at_date_prefix k ib cb d Hb).
  now rewrite Ei, Ec.
Qed.

(** the two first frames share the rows made from the common bars, and
    every other row is dated later *)
Lemma V1_frames_agree n (a b : Series) :
  firstn n a = firstn n b ->
  exists k,
    firstn k (V1.data a) = firstn k (V1.data b)
    /\ Forall (fun r => (n <= V1.r_date r)%nat) (skipn k (V1.data a))
    /\ Forall (fun r => (n <= V1.r_date r)%nat) (skipn k (V1.data b)).
Proof.
  intros E.
  destruct (V1_data_split n a) as [Sa La], (V1_data_split n b) as [Sb Lb].
  pose proof (with_sma_causal _ _ _ E) as EW.
  set (P := V1.dropna (firstn n (V1.with_sma a))) in *.
  assert (Sb' : V1.data b = P ++ V1.dropna (skipn n (V1.with_sma b)))
    by (rewrite Sb; unfold P; now rewrite EW).
  exists (length P). rewrite Sa, Sb'.
  rewrite !firstn_app, !Nat.sub_diag, !firstn_all, !firstn_O.
  rewrite !skipn_app, !Nat.sub_diag, !skipn_all. cbn [app skipn].
  repeat split; assumption.
Qed.

Lemma later_rows_differ n d (rows : list V1.row) :
  (d < n)%nat ->
  Forall (fun r => (n <= V1.r_date r)%nat) rows ->
  Forall (fun i => i <> d) (map V1.r_date rows).
Proof.
  intros Hd H. apply Forall_map. eapply Forall_impl; [|exact H].
  cbn. intros r Hr. lia.
Qed.

Lemma V1_two_runs (col : list V1.row -> Series) n d (a b : Series) :
  (forall k x y, firstn k x = firstn k y -> firstn k (col x) = firstn k (col y)) ->
  firstn n a = firstn n b -> (d < n)%nat ->
  at_date (V1.index (V1.data a)) (col (V1.data a)) d
  = at_date (V1.index (V1.data b)) (col (V1.data b)) d.
Proof.
  intros Hcol E Hd.
  destruct (V1_frames_agree n a b E) as (k & Ek & La & Lb).
  apply at_date_two_runs with (k := k).
  - unfold V1.index. now rewrite !firstn_map, Ek.
  - now apply Hcol.
  - unfold V1.index. rewrite skipn_map. now apply later_rows_differ with (n := n).
  - unfold V1.index. rewrite skipn_map. now apply later_rows_differ with (n := n).
Qed.

Lemma V2_two_runs (col : Series -> Series) n d (a b : Series) :
  (forall k x y, firstn k x = firstn k y -> firstn k (col x) = firstn k (col y)) ->
  firstn n a = firstn n b -> (d < n)%nat ->
  at_date (V2.index a) (col a) d = at_date (V2.index b) (col b) d.
Proof.
  intros Hcol E Hd.
  apply at_date_two_runs with (k := n).
  - now apply V2_index_causal.
  - now apply Hcol.
  - unfold V2.index. rewrite skipn_seq. apply Forall_forall.
    intros i Hi. apply in_seq in Hi. lia.
  - unfold V2.index. rewrite skipn_seq. apply Forall_forall.
    intros i Hi. apply in_seq in Hi. lia.
Qed.

End NoLookAhead.

(** C2 (as amended).  Two price series that agree on every bar up to and
    including date [d] give the same signal at date [d] and the same
    strategy return at date [d], in both backtesters, whatever the later
    bars are.  So the signal of date [t-1] is fixed by the bars before
    [t], and the strategy return of date [t] by the bars up to [t]. *)
Theorem no_look_ahead (a b : Series) (n d : nat) :
  firstn n a = firstn n b -> (d < n)%nat ->
  (at_date (V1.index (V1.data a)) (V1.Position (V1.data a)) d
   = at_date (V1.index (V1.data b)) (V1.Position (V1.data b)) d
   /\ at_date (V1.index (V1.data a)) (V1.strategy_returns (V1.data a)) d
      = at_date (V1.index (V1.data b)) (V1.strategy_returns (V1.data b)) d)
  /\ (at_date (V2.index a) (V2.Signal a) d
      = at_date (V2.index b) (V2.Signal b) d
      /\ at_date (V2.index a) (V2.Strategy_returns a) d
         = at_date (V2.index b) (V2.Strategy_returns b) d).
Proof.
  intros E Hd. repeat split.
  - apply V1_two_runs with (n := n); auto using V1_Position_causal.
  - apply V1_two_runs with (n := n); auto using V1_strategy_returns_causal.
  - apply V2_two_runs with (n := n); auto using V2_Signal_causal.
  - apply V2_two_runs with (n := n); auto using V2_Strategy_returns_causal.
Qed.

Lemma no_look_ahead_witness :
  let a := Samples.saw 52 in
  let b := Samples.perturb a 51 (Samples.price 300) in
  (at_date (V1.index (V1.data a)) (V1.Position (V1.data a)) 50
   = at_date (V1.index (V1.data b)) (V1.Position (V1.data b)) 50
   /\ at_date (V1.index (V1.data a)) (V1.strategy_returns (V1.data a)) 50
      = at_date (V1.index (V1.data b)) (V1.strategy_returns (V1.data b)) 50)
  /\ (at_date (V2.index a) (V2.Signal a) 50
      = at_date (V2.index b) (V2.Signal b) 50
      /\ at_date (V2.index a) (V2.Strategy_returns a) 50
         = at_date (V2.index b) (V2.Strategy_returns b) 50).
Proof.
  intros a b. apply (no_look_ahead a b 51 50).
  - reflexivity.
  - lia.
Defined.

(** C2 (as stated) fails.  The sawtooth series and its copy with the close
    of date 51 set to 300 agree on every bar before date 51 and are long
    at date 50, yet their strategy returns of date 51 differ (3/125 and
    7/5): the return of a date is made from the close of that date. *)
Lemma look_ahead_counterexample :
  let a := Samples.saw 52 in
  let b := Samples.perturb a 51 (Samples.price 300) in
  firstn 51 a = firstn 51 b
  /\ at_date (V2.index a) (V2.Signal a) 50 = Some (Fin 1)
  /\ at_date (V2.index b) (V2.Signal b) 50 = Some (Fin 1)
  /\ at_date (V2.index a) (V2.Strategy_returns a) 51 = Some (Fin (3 # 125))
  /\ at_date (V2.index b) (V2.Strategy_returns b) 51 = Some (Fin (7 # 5))
  /\ at_date (V1.index (V1.data a)) (V1.strategy_returns (V1.data a)) 51
     = Some (Fin (3 # 125))
  /\ at_date (V1.index (V1.data b)) (V1.strategy_returns (V1.data b)) 51
     = Some (Fin (7 # 5))
  /\ at_date (V2.index a) (V2.Strategy_returns a) 51
     <> at_date (V2.index b) (V2.Strategy_returns b) 51
  /\ at_date (V1.index (V1.data a)) (V1.strategy_returns (V1.data a)) 51
     <> at_date (V1.index (V1.data b)) (V1.strategy_returns (V1.data b)) 51.
Proof.
  vm_compute. repeat split; try reflexivity; intro H; discriminate H.
Qed.

(** C1.  In both backtesters the strategy return of a row is the raw
    return of that row times the signal of the row before it, and the raw
    (market) return of a row is [close[t] / close[t-1] - 1], with no lag.
    Rows are counted from 0, so [S t] ranges over the rows after the
    first; past the last row every column reads as missing. *)
Theorem strategy_return_lags_signal (df : list V1.row) (close : Series)
  (t : nat) :
  (at_ (V1.daily_returns df) (S t)
     = (at_ (V1.Close df) (S t) / at_ (V1.Close df) t - Fin 1)%F
   /\ at_ (V1.strategy_returns df) (S t)
     = (at_ (V1.daily_returns df) (S t) * at_ (V1.Position df) t)%F)
  /\ (at_ (V2.Market_returns close) (S t)
        = (at_ (V2.Close close) (S t) / at_ (V2.Close close) t - Fin 1)%F
      /\ at_ (V2.Strategy_returns close) (S t)
        = (at_ (V2.Market_returns close) (S t) * at_ (V2.Signal close) t)%F).
Proof.
  split.
  - destruct (Nat.lt_ge_cases (S t) (length (V1.index df))) as [H|H].
    + now apply V1_strategy_return.
    + unfold at_.
      rewrite (nth_overflow (V1.daily_returns df))
        by now rewrite V1_daily_returns_length.
      rewrite (nth_overflow (V1.strategy_returns df))
        by now rewrite V1_strategy_returns_length.
      rewrite (nth_overflow (V1.Close df) NaN (n := S t))
        by now rewrite V1_Close_length.
      split; reflexivity.
  - destruct (Nat.lt_ge_cases (S t) (length (V2.index close))) as [H|H].
    + now apply V2_strategy_return.
    + rewrite V2_index_length in H. unfold at_.
      rewrite (nth_overflow (V2.Market_returns close))
        by now rewrite V2_Market_returns_length.
      rewrite (nth_overflow (V2.Strategy_returns close))
        by now rewrite V2_Strategy_returns_length.
      rewrite (nth_overflow (V2.Close close) NaN (n := S t)) by exact H.
      split; reflexivity.
Qed.

(** C7.  The signal column holds 0 or 1 in every row, and the value of a
    row is computed from the indicators of that row alone: in the first
    backtester 1 exactly when [SMA_10 > SMA_50], in the second 1 exactly
    when [SMA_10 > SMA_50] and [RSI < 70]. *)
Theorem signal_is_per_row_binary (df : list V1.row) (close : Series) :
  V1.Position df
    = map (fun r => if fgt (V1.r_sma10 r) (V1.r_sma50 r)
                    then Fin 1 else Fin 0) df
  /\ V2.Signal close
    = map (fun t => if fgt (at_ (V2.SMA_10 close) t) (at_ (V2.SMA_50 close) t)
                       && flt (at_ (V2.RSI close) t) (Fin 70)
                    then Fin 1 else Fin 0) (V2.index close).
Proof.
  split.
  - unfold V1.Position, where_1_0, V1.SMA_10, V1.SMA_50.
    induction df as [|r df IH]; [reflexivity|].
    cbn [map map2]. f_equal. exact IH.
  - apply nth_ext with (d := NaN) (d' := NaN).
    + now rewrite length_map, V2_Signal_length, V2_index_length.
    + intros t Ht. rewrite V2_Signal_length in Ht.
      fold (at_ (V2.Signal close) t).
      rewrite V2_Signal_at by now rewrite V2_index_length.
      rewrite (nth_map' _ _ _ 0%nat) by now rewrite V2_index_length.
      unfold V2.index. rewrite seq_nth by exact Ht. reflexivity.
Qed.

(* ================================================================== *)
(** * Cells: order and arithmetic on finite values *)
(* ================================================================== *)

Ltac cells :=
  cbn [fdiv fadd fsub fneg fmul fabs positive above_m1 nonneg inf_of isnan
       notna] in *.

Section CellFacts.

Lemma fgt_Fin a b : fgt (Fin a) (Fin b) = true <-> b < a.
Proof.
  cbn. destruct (Qcompare_spec a b) as [H|H|H]; split; intro G;
    try discriminate; try reflexivity; lra.
Qed.

Lemma fgt_Fin_false a b : fgt (Fin a) (Fin b) = false <-> a <= b.
Proof.
  cbn. destruct (Qcompare_spec a b) as [H|H|H]; split; intro G;
    try discriminate; try reflexivity; lra.
Qed.

Lemma fgt_irrefl x : fgt x x = false.
Proof.
  destruct x as [| | |q]; try reflexivity. apply fgt_Fin_false. lra.
Qed.

(** [a <= m < b] gives [a <= b], on cells that are not NaN *)
Lemma fgt_chain a m b :
  notna a = true -> notna m = true -> notna b = true ->
  fgt a m = false -> fgt b m = true -> fgt a b = false.
Proof.
  destruct a as [| | |x], m as [| | |y], b as [| | |z]; cbn;
    intros _ _ _ H1 H2; try discriminate; try reflexivity.
  apply fgt_Fin_false. apply fgt_Fin_false in H1. apply fgt_Fin in H2. lra.
Qed.

Lemma Qeq_bool_false_pos q : 0 < q -> Qeq_bool q 0 = false.
Proof.
  intros H. destruct (Qeq_bool q 0) eqn:E; [|reflexivity].
  apply Qeq_bool_iff in E. lra.
Qed.

Lemma fdiv_positive a b :
  positive a -> positive b -> positive (a / b)%F.
Proof.
  destruct a as [| | |x], b as [| | |y]; cells; try contradiction.
  intros Hx Hy. rewrite (Qeq_bool_false_pos _ Hy). cells.
  rewrite Qred_correct. apply Qlt_shift_div_l; lra.
Qed.

Lemma pct_cell a b :
  positive a -> positive b -> above_m1 (a / b - Fin 1)%F.
Proof.
  intros Ha Hb. pose proof (fdiv_positive a b Ha Hb) as H.
  destruct (a / b)%F as [| | |r]; cells; try contradiction.
  rewrite Qred_correct. lra.
Qed.

Lemma fmul_above_m1_binary r p :
  or_nan above_m1 r -> or_nan binary p -> or_nan above_m1 (r * p)%F.
Proof.
  intros [->|Hr]; [now left|].
  destruct r as [| | |x]; cells; try contradiction.
  intros [->|[->| ->]]; [now left | right | right]; cells;
    rewrite Qred_correct; lra.
Qed.

Lemma one_plus_above_m1 x :
  or_nan above_m1 x ->
  or_nan positive (x + Fin 1)%F /\ or_nan positive (Fin 1 + x)%F.
Proof.
  intros [->|H]; [split; now left|].
  destruct x as [| | |q]; cells; try contradiction.
  split; right; cells; rewrite Qred_correct; lra.
Qed.

Lemma fmul_positive a b : positive a -> positive b -> positive (a * b)%F.
Proof.
  destruct a as [| | |x], b as [| | |y]; cells; try contradiction.
  intros Hx Hy. rewrite Qred_correct. nra.
Qed.

(** the drawdown cell of a value below a positive peak *)
Lemma drawdown_cell c m :
  0 < m -> c <= m ->
  exists d, (Fin c / Fin m - Fin 1)%F = Fin d /\ d == c / m - 1 /\ d <= 0.
Proof.
  intros Hm Hc. cells. rewrite (Qeq_bool_false_pos _ Hm).
  eexists; split; [reflexivity|].
  rewrite !Qred_correct.
  assert (c / m <= 1) by (apply Qle_shift_div_r; lra).
  split; [|lra]. unfold Qminus. reflexivity.
Qed.

End CellFacts.

(* ================================================================== *)
(** * Running products, maxima and minima *)
(* ================================================================== *)

Section Accumulate.

Lemma Forall_map2 {A B C} (P : A -> Prop) (Q : B -> Prop) (R : C -> Prop)
  (f : A -> B -> C) a b :
  (forall x y, P x -> Q y -> R (f x y)) ->
  Forall P a -> Forall Q b -> Forall R (map2 f a b).
Proof.
  intros H Ha. revert b.
  induction Ha as [|x a Hx Ha IH]; intros b Hb; [constructor|].
  destruct Hb as [|y b Hy Hb]; constructor; auto.
Qed.

Lemma Forall_firstn' {A} (P : A -> Prop) n l :
  Forall P l -> Forall P (firstn n l).
Proof.
  intros H. revert n. induction H as [|x l Hx Hl IH]; intros [|n]; cbn;
    constructor; auto.
Qed.

Lemma Forall_at (P : F -> Prop) (s : Series) t :
  Forall P s -> (t < length s)%nat -> P (at_ s t).
Proof.
  intros H Ht. unfold at_. rewrite Forall_forall in H. apply H.
  now apply nth_In.
Qed.

Lemma Forall_or_nan_at (P : F -> Prop) (s : Series) t :
  Forall (or_nan P) s -> or_nan P (at_ s t).
Proof.
  intros H. destruct (Nat.lt_ge_cases t (length s)) as [Ht|Ht].
  - now apply Forall_at.
  - left. unfold at_. now apply nth_overflow.
Qed.

Lemma shift1_or_nan (P : F -> Prop) (s : Series) :
  Forall (or_nan P) s -> Forall (or_nan P) (shift1 s).
Proof.
  intros H. unfold shift1. apply Forall_firstn'.
  constructor; [now left | exact H].
Qed.

Lemma scan_length f acc (s : Series) : length (scan f acc s) = length s.
Proof.
  revert acc; induction s as [|x s IH]; intro acc; cbn; auto.
Qed.

Lemma np_accumulate_length f (s : Series) :
  length (np_accumulate f s) = length s.
Proof. destruct s; cbn; auto using scan_length. Qed.

Lemma Forall_scan (P : F -> Prop) f acc (s : Series) :
  (forall x y, P x -> P y -> P (f x y)) ->
  P acc -> Forall P s -> Forall P (scan f acc s).
Proof.
  intros Hf Hacc Hs. revert acc Hacc.
  induction Hs as [|x s Hx Hs IH]; intros acc Hacc; cbn; constructor; auto.
Qed.

Lemma Forall_np_accumulate (P : F -> Prop) f (s : Series) :
  (forall x y, P x -> P y -> P (f x y)) ->
  Forall P s -> Forall P (np_accumulate f s).
Proof.
  intros Hf H. destruct H as [|x r Hx Hr]; cbn; constructor;
    auto using Forall_scan.
Qed.

Lemma at_scan_0 f acc x (s : Series) : at_ (scan f acc (x :: s)) 0 = f acc x.
Proof. reflexivity. Qed.

Lemma at_scan_S f acc (s : Series) t :
  (S t < length s)%nat ->
  at_ (scan f acc s) (S t) = f (at_ (scan f acc s) t) (at_ s (S t)).
Proof.
  revert acc t. induction s as [|x s IH]; intros acc t H; cbn in H; [lia|].
  destruct t as [|t].
  - destruct s as [|y s]; [cbn in H; lia | reflexivity].
  - change (at_ (scan f acc (x :: s)) (S (S t)))
      with (at_ (scan f (f acc x) s) (S t)).
    rewrite IH by lia. reflexivity.
Qed.

Lemma at_np_accumulate_0 f (s : Series) : at_ (np_accumulate f s) 0 = at_ s 0.
Proof. destruct s; reflexivity. Qed.

Lemma at_np_accumulate_S f (s : Series) t :
  (S t < length s)%nat ->
  at_ (np_accumulate f s) (S t)
  = f (at_ (np_accumulate f s) t) (at_ s (S t)).
Proof.
  destruct s as [|x s]; cbn [length]; intros H; [lia|].
  destruct t as [|t].
  - destruct s as [|y s]; [cbn in H; lia | reflexivity].
  - change (at_ (np_accumulate f (x :: s)) (S (S t)))
      with (at_ (scan f x s) (S t)).
    rewrite at_scan_S by lia. reflexivity.
Qed.

Lemma at_remask (orig res : Series) t :
  length res = length orig ->
  at_ (remask orig res) t = if isnan (at_ orig t) then NaN else at_ res t.
Proof.
  intros L. destruct (Nat.lt_ge_cases t (length orig)) as [Ht|Ht].
  - unfold remask, at_.
    now rewrite (nth_map2 _ orig res t NaN NaN) by lia.
  - unfold at_. rewrite (nth_overflow orig) by exact Ht.
    rewrite nth_overflow; [reflexivity|].
    unfold remask. rewrite map2_length. lia.
Qed.

Lemma remask_length (orig res : Series) :
  length res = length orig -> length (remask orig res) = length orig.
Proof. intros L. unfold remask. rewrite map2_length. lia. Qed.

Lemma cumprod_length (s : Series) : length (cumprod s) = length s.
Proof.
  unfold cumprod. apply remask_length.
  now rewrite np_accumulate_length, length_map.
Qed.

Lemma cummax_length (s : Series) : length (cummax s) = length s.
Proof.
  unfold cummax. apply remask_length.
  now rewrite np_accumulate_length, length_map.
Qed.

(** a column without NaN is its own mask *)
Lemma cumprod_no_nan (s : Series) :
  Forall (fun x => isnan x = false) s -> cumprod s = np_accumulate fmul s.
Proof.
  intros H. unfold cumprod.
  assert (E : map (fun x => if isnan x then Fin 1 else x) s = s).
  { induction H as [|x s Hx Hs IH]; cbn; [reflexivity|].
    now rewrite Hx, IH. }
  rewrite E. apply nth_ext with (d := NaN) (d' := NaN).
  - rewrite remask_length by apply np_accumulate_length.
    now rewrite np_accumulate_length.
  - intros t Ht. rewrite remask_length in Ht by apply np_accumulate_length.
    fold (at_ (remask s (np_accumulate fmul s)) t).
    rewrite at_remask by apply np_accumulate_length.
    now rewrite (Forall_at _ s t H Ht).
Qed.

(** the running product of prices with gaps: positive wherever the
    column has a value, missing exactly where the column is missing *)
Lemma cumprod_positive (s : Series) :
  Forall (or_nan positive) s ->
  Forall (or_nan positive) (cumprod s)
  /\ (forall t, at_ (cumprod s) t = NaN <-> at_ s t = NaN).
Proof.
  intros H.
  set (s' := map (fun x => if isnan x then Fin 1 else x) s).
  assert (H' : Forall positive (np_accumulate fmul s')).
  { apply Forall_np_accumulate; [apply fmul_positive|].
    unfold s'. apply Forall_map. eapply Forall_impl; [|exact H].
    intros x [->|Hx]; cells; [lra|].
    destruct x; cells; try contradiction; exact Hx. }
  assert (L : length (np_accumulate fmul s') = length s)
    by (unfold s'; now rewrite np_accumulate_length, length_map).
  assert (A : forall t, at_ (cumprod s) t
                = if isnan (at_ s t) then NaN else at_ (np_accumulate fmul s') t)
    by (intro t; unfold cumprod; now apply at_remask).
  split.
  - apply Forall_forall. intros x Hx.
    apply (In_nth _ _ NaN) in Hx. destruct Hx as (t & Ht & <-).
    rewrite cumprod_length in Ht. fold (at_ (cumprod s) t). rewrite A.
    destruct (isnan (at_ s t)); [now left | right].
    apply Forall_at; [exact H' | lia].
  - intros t. rewrite A.
    destruct (Nat.lt_ge_cases t (length s)) as [Ht|Ht].
    + destruct (at_ s t) eqn:E; cbn; split; intro G; try reflexivity;
        try discriminate;
        pose proof (Forall_at _ _ t H' ltac:(lia)) as P;
        rewrite G in P; contradiction.
    + assert (E : at_ s t = NaN) by (now apply nth_overflow).
      rewrite E. cbn. split; reflexivity.
Qed.

End Accumulate.

Section RunningMax.

(** [m] is the largest of the cells [0..t] of a column without NaN *)
Lemma np_running_max (s : Series) t :
  Forall (fun x => notna x = true) s -> (t < length s)%nat ->
  (exists k, (k <= t)%nat /\ at_ s k = at_ (np_accumulate fmax s) t)
  /\ (forall k, (k <= t)%nat ->
        fgt (at_ s k) (at_ (np_accumulate fmax s) t) = false).
Proof.
  intros H. induction t as [|t IH]; intros Ht.
  - rewrite at_np_accumulate_0. split.
    + exists 0%nat. split; [lia | reflexivity].
    + intros k Hk. replace k with 0%nat by lia. apply fgt_irrefl.
  - destruct IH as [(k0 & Hk0 & E0) Hle]; [lia|].
    rewrite at_np_accumulate_S by exact Ht.
    set (m := at_ (np_accumulate fmax s) t) in *.
    unfold fmax. destruct (fgt (at_ s (S t)) m) eqn:G.
    + split.
      * exists (S t). split; [lia | reflexivity].
      * intros k Hk. destruct (Nat.eq_dec k (S t)) as [->|Hne].
        -- apply fgt_irrefl.
        -- apply fgt_chain with (m := m); try assumption.
           ++ apply (Forall_at _ s k H). lia.
           ++ rewrite <- E0. apply (Forall_at _ s k0 H). lia.
           ++ apply (Forall_at _ s (S t) H). lia.
           ++ apply Hle. lia.
    + split.
      * exists k0. split; [lia | exact E0].
      * intros k Hk. destruct (Nat.eq_dec k (S t)) as [->|Hne].
        -- exact G.
        -- apply Hle. lia.
Qed.

(** [s.cummax()] on a column of prices with gaps *)
Lemma cummax_spec (c : Series) t q :
  Forall (or_nan positive) c -> at_ c t = Fin q ->
  exists m, at_ (cummax c) t = Fin m /\ running_max_of c t m
            /\ 0 < m /\ q <= m.
Proof.
  intros H E.
  assert (Ht : (t < length c)%nat).
  { destruct (Nat.lt_ge_cases t (length c)) as [G|G]; [exact G|].
    unfold at_ in E. rewrite nth_overflow in E by exact G. discriminate. }
  set (c' := map (fun x => if isnan x then NInf else x) c).
  assert (L : length c' = length c) by (unfold c'; apply length_map).
  assert (A : forall k, (k < length c)%nat ->
                at_ c' k = if isnan (at_ c k) then NInf else at_ c k).
  { intros k Hk. unfold c', at_. now rewrite (nth_map' _ _ _ NaN) by exact Hk. }
  assert (N : Forall (fun x => notna x = true) c').
  { unfold c'. apply Forall_map. apply Forall_forall. intros x _.
    now destruct x. }
  destruct (np_running_max c' t N ltac:(lia)) as [(k & Hk & Ek) Hle].
  set (M := at_ (np_accumulate fmax c') t) in *.
  assert (EM : at_ (cummax c) t = M).
  { unfold cummax. fold c'. rewrite at_remask
      by (now rewrite np_accumulate_length). now rewrite E. }
  pose proof (Hle t (Nat.le_refl t)) as Gt.
  rewrite A, E in Gt by exact Ht. cbn [isnan] in Gt.
  pose proof (Forall_at _ c t H Ht) as Pq. rewrite E in Pq.
  destruct Pq as [Pq|Pq]; [discriminate|]. cbn in Pq.
  rewrite A in Ek by lia.
  pose proof (Forall_at _ c k H ltac:(lia)) as Pk.
  destruct Pk as [Pk|Pk].
  - rewrite Pk in Ek. cbn in Ek. rewrite <- Ek in Gt. discriminate.
  - destruct (at_ c k) as [| | |m] eqn:Ck; cbn in Pk; try contradiction.
    cbn [isnan] in Ek. rewrite <- Ek in Gt. apply fgt_Fin_false in Gt.
    exists m. rewrite EM, <- Ek. repeat split.
    + exists k. split; [exact Hk | exact Ck].
    + intros k' x Hk' Ex.
      pose proof (Hle k' Hk') as G. rewrite A, Ex in G by lia.
      cbn [isnan] in G. rewrite <- Ek in G. now apply fgt_Fin_false.
    + exact Pk.
    + exact Gt.
Qed.

(** lines 46-48 of both scripts, on a cumulative column of prices with
    gaps *)
Lemma drawdown_spec (c : Series) t :
  Forall (or_nan positive) c ->
  at_ (map2 (fun x m => (x / m - Fin 1)%F) c (cummax c)) t
    = (at_ c t / at_ (cummax c) t - Fin 1)%F
  /\ (at_ c t = NaN ->
      at_ (map2 (fun x m => (x / m - Fin 1)%F) c (cummax c)) t = NaN)
  /\ (forall q, at_ c t = Fin q ->
      exists m d, at_ (cummax c) t = Fin m /\ running_max_of c t m
        /\ at_ (map2 (fun x m => (x / m - Fin 1)%F) c (cummax c)) t = Fin d
        /\ d == q / m - 1 /\ d <= 0).
Proof.
  intros H.
  assert (D : at_ (map2 (fun x m => (x / m - Fin 1)%F) c (cummax c)) t
              = (at_ c t / at_ (cummax c) t - Fin 1)%F).
  { destruct (Nat.lt_ge_cases t (length c)) as [Ht|Ht].
    - unfold at_.
      now rewrite (nth_map2 _ c (cummax c) t NaN NaN)
        by (rewrite ?cummax_length; exact Ht).
    - unfold at_. rewrite (nth_overflow c) by exact Ht.
      rewrite nth_overflow; [reflexivity|].
      rewrite map2_length, cummax_length. lia. }
  split; [exact D|]. split.
  - intros E. rewrite D, E. reflexivity.
  - intros q E. destruct (cummax_spec c t q H E) as (m & Em & Rm & Pm & Lm).
    destruct (drawdown_cell q m Pm Lm) as (d & Ed & Eq & Ld).
    exists m, d. rewrite D, E, Em. repeat split; try assumption.
    + apply Rm.
    + apply Rm.
Qed.

Lemma fold_fmin_spec (r : Series) : forall x,
  Forall is_fin (x :: r) ->
  exists m, fold_left fmin r x = Fin m /\ In (Fin m) (x :: r)
            /\ (forall c, In (Fin c) (x :: r) -> m <= c).
Proof.
  induction r as [|y r IH]; intros x H.
  - inversion H as [|? ? Hx _]; subst.
    destruct x as [| | |q]; cbn in Hx; try contradiction.
    exists q. cbn. repeat split; auto.
    intros c [[= ->]|[]]. lra.
  - inversion H as [|? ? Hx Hr]; subst.
    inversion Hr as [|? ? Hy Hr']; subst.
    destruct x as [| | |a]; cbn in Hx; try contradiction.
    destruct y as [| | |b]; cbn in Hy; try contradiction.
    cbn [fold_left]. unfold fmin at 2, flt.
    destruct (fgt (Fin a) (Fin b)) eqn:G.
    + apply fgt_Fin in G.
      destruct (IH (Fin b) ltac:(constructor; [exact I|exact Hr']))
        as (m & Em & Im & Lm).
      exists m. split; [exact Em|]. split.
      * right. exact Im.
      * intros c [[= <-]|Hc]; [|now apply Lm].
        assert (m <= b) by (apply Lm; now left). lra.
    + apply fgt_Fin_false in G.
      destruct (IH (Fin a) ltac:(constructor; [exact I|exact Hr']))
        as (m & Em & Im & Lm).
      exists m. split; [exact Em|]. split.
      * destruct Im as [Im|Im]; [now left | right; now right].
      * intros c [[= <-]|[[= <-]|Hc]].
        -- apply Lm. now left.
        -- assert (m <= a) by (apply Lm; now left). lra.
        -- apply Lm. now right.
Qed.

(** [s.min()] on a column whose cells are finite or missing *)
Lemma smin_spec (s : Series) :
  Forall (or_nan is_fin) s ->
  (smin s = NaN /\ forall t, at_ s t = NaN)
  \/ (exists m, smin s = Fin m /\ minimum_of s m).
Proof.
  intros H.
  assert (V : Forall is_fin (valid s)).
  { unfold valid. apply Forall_forall. intros x Hx.
    apply filter_In in Hx. destruct Hx as [Hx Nx].
    rewrite Forall_forall in H. destruct (H x Hx) as [->|F]; [discriminate|].
    exact F. }
  assert (M : forall c, In (Fin c) (valid s) <-> exists t, at_ s t = Fin c).
  { intros c. unfold valid. rewrite filter_In. split.
    - intros [Hc _]. apply (In_nth _ _ NaN) in Hc.
      destruct Hc as (t & _ & Et). now exists t.
    - intros (t & Et). split; [|reflexivity].
      destruct (Nat.lt_ge_cases t (length s)) as [Ht|Ht].
      + rewrite <- Et. now apply nth_In.
      + unfold at_ in Et. rewrite nth_overflow in Et by exact Ht.
        discriminate. }
  unfold smin. revert V M. destruct (valid s) as [|x r]; intros V M.
  - left. split; [reflexivity|]. intros t.
    destruct (Forall_or_nan_at _ s t H) as [N|Fi]; [exact N|].
    destruct (at_ s t) as [| | |c] eqn:Et; cbn in Fi; try contradiction.
    exfalso. apply (proj2 (M c)). now exists t.
  - right. destruct (fold_fmin_spec r x V) as (m & Em & Im & Lm).
    exists m. split; [exact Em|]. split.
    + now apply M.
    + intros k c Ek. apply Lm. apply M. now exists k.
Qed.

End RunningMax.

(* ================================================================== *)
(** * The cumulative and drawdown columns of the two backtesters *)
(* ================================================================== *)

Section Compounding.

Lemma positiveb_sound (s : Series) :
  forallb positiveb s = true -> Forall positive s.
Proof.
  intros H. apply Forall_forall. intros x Hx.
  rewrite forallb_forall in H. specialize (H x Hx).
  destruct x as [| | |q]; unfold positiveb in H; try discriminate. cells.
  destruct (Qcompare_spec 0 q); try discriminate. assumption.
Qed.

Lemma where_1_0_binary c : Forall binary (where_1_0 c).
Proof.
  unfold where_1_0. apply Forall_map. apply Forall_forall.
  intros [|] _; [now right | now left].
Qed.

Lemma binary_or_nan (s : Series) :
  Forall binary s -> Forall (or_nan binary) s.
Proof. intros H. eapply Forall_impl; [|exact H]. intros x Hx. now right. Qed.

Lemma positive_or_nan (s : Series) :
  Forall positive s -> Forall (or_nan positive) s.
Proof. intros H. eapply Forall_impl; [|exact H]. intros x Hx. now right. Qed.

Lemma pct_change_above_m1 (s : Series) :
  Forall positive s -> Forall (or_nan above_m1) (pct_change s).
Proof.
  intros H. unfold pct_change.
  apply Forall_map2 with (P := positive) (Q := or_nan positive).
  - intros x y Hx [->|Hy].
    + left. now destruct x.
    + right. now apply pct_cell.
  - exact H.
  - apply shift1_or_nan. now apply positive_or_nan.
Qed.

(** the returns of a strategy that is flat or long on positive prices *)
Lemma lagged_returns_above_m1 (close signal : Series) :
  Forall positive close -> Forall binary signal ->
  Forall (or_nan above_m1) (map2 fmul (pct_change close) (shift1 signal)).
Proof.
  intros Hc Hs.
  apply Forall_map2 with (P := or_nan above_m1) (Q := or_nan binary).
  - apply fmul_above_m1_binary.
  - now apply pct_change_above_m1.
  - apply shift1_or_nan. now apply binary_or_nan.
Qed.

Lemma lagged_return_value (close signal : Series) t :
  Forall positive close -> Forall binary signal ->
  length signal = length close -> (S t < length close)%nat ->
  above_m1 (at_ (map2 fmul (pct_change close) (shift1 signal)) (S t)).
Proof.
  intros Hc Hs L Ht. unfold at_.
  rewrite (nth_map2 _ _ _ _ NaN NaN)
    by (rewrite ?pct_change_length, ?shift1_length; lia).
  fold (at_ (pct_change close) (S t)). fold (at_ (shift1 signal) (S t)).
  rewrite at_pct_change_S by exact Ht. rewrite at_shift1_S by lia.
  pose proof (pct_cell _ _ (Forall_at _ close (S t) Hc ltac:(lia))
                (Forall_at _ close t Hc ltac:(lia))) as Hr.
  pose proof (Forall_at _ signal t Hs ltac:(lia)) as Hb.
  destruct (fmul_above_m1_binary _ _ (or_intror Hr) (or_intror Hb))
    as [E|G]; [|exact G].
  destruct (at_ close (S t) / at_ close t - Fin 1)%F as [| | |r];
    cells; try contradiction.
  destruct Hb as [Hb | Hb]; rewrite Hb in E; cells; discriminate E.
Qed.

Lemma V1_Close_positive (close : Series) :
  Forall positive close -> Forall positive (V1.Close (V1.data close)).
Proof.
  intros H. unfold V1.Close, V1.data, V1.dropna.
  apply Forall_map. apply Forall_forall. intros r Hr.
  apply filter_In in Hr. destruct Hr as [Hr _].
  unfold V1.with_sma in Hr. apply in_map_iff in Hr.
  destruct Hr as (i & <- & Hi). apply in_seq in Hi. cbn [V1.r_close].
  apply Forall_at; [exact H | lia].
Qed.

Lemma V1_cumulative_shape (df : list V1.row) :
  Forall positive (V1.Close df) ->
  Forall (or_nan positive) (V1.cumulative_returns df)
  /\ (forall t, (S t < length df)%nat ->
        positive (at_ (V1.cumulative_returns df) (S t))).
Proof.
  intros H.
  assert (Hs : Forall (or_nan above_m1) (V1.strategy_returns df))
    by (apply lagged_returns_above_m1; [exact H | apply where_1_0_binary]).
  assert (Hp : Forall (or_nan positive)
                 (map (fun x => (x + Fin 1)%F) (V1.strategy_returns df))).
  { apply Forall_map. eapply Forall_impl; [|exact Hs].
    intros x Hx. now apply one_plus_above_m1. }
  destruct (cumprod_positive _ Hp) as [Hc Hn].
  split; [exact Hc|]. intros t Ht.
  assert (Li : length (V1.index df) = length df)
    by (unfold V1.index; apply length_map).
  assert (Hv : above_m1 (at_ (V1.strategy_returns df) (S t))).
  { apply lagged_return_value; try assumption.
    - apply where_1_0_binary.
    - fold (V1.Position df). now rewrite V1_Position_length, V1_Close_length.
    - rewrite V1_Close_length. lia. }
  destruct (Forall_or_nan_at _ _ (S t) Hc) as [E|P]; [|exact P].
  exfalso. apply Hn in E. unfold at_ in E.
  rewrite (nth_map' _ _ _ NaN) in E
    by (rewrite V1_strategy_returns_length; lia).
  fold (at_ (V1.strategy_returns df) (S t)) in E.
  destruct (at_ (V1.strategy_returns df) (S t)); cells;
    try contradiction; discriminate.
Qed.

Lemma fillna0_at (s : Series) t :
  (t < length s)%nat ->
  at_ (fillna0 s) t = if isnan (at_ s t) then Fin 0 else at_ s t.
Proof.
  intros Ht. unfold fillna0, at_. now rewrite (nth_map' _ _ _ NaN).
Qed.

Lemma one_plus_filled_positive (s : Series) :
  Forall (or_nan above_m1) s ->
  Forall positive (map (fun x => (Fin 1 + x)%F) (fillna0 s)).
Proof.
  intros H. unfold fillna0. rewrite map_map. apply Forall_map.
  eapply Forall_impl; [|exact H].
  intros x [->|Hx]; cells.
  - rewrite Qred_correct. lra.
  - destruct x as [| | |q]; cells; try contradiction.
    rewrite Qred_correct. lra.
Qed.

Lemma positive_no_nan (s : Series) :
  Forall positive s -> Forall (fun x => isnan x = false) s.
Proof.
  intros H. eapply Forall_impl; [|exact H].
  intros x Hx. destruct x; cells; try contradiction; reflexivity.
Qed.

Lemma cumprod_filled_positive (s : Series) :
  Forall (or_nan above_m1) s ->
  Forall positive (cumprod (map (fun x => (Fin 1 + x)%F) (fillna0 s))).
Proof.
  intros H. pose proof (one_plus_filled_positive s H) as Hp.
  rewrite cumprod_no_nan by now apply positive_no_nan.
  apply Forall_np_accumulate; [apply fmul_positive | exact Hp].
Qed.

Lemma V2_cumulative_positive (close : Series) :
  Forall positive close ->
  Forall positive (V2.Cumulative_strategy close)
  /\ Forall positive (V2.Cumulative_market close).
Proof.
  intros H. split; apply cumprod_filled_positive.
  - apply lagged_returns_above_m1; [exact H | apply where_1_0_binary].
  - now apply pct_change_above_m1.
Qed.

Lemma drawdown_report_holds (c : Series) :
  Forall (or_nan positive) c ->
  drawdown_report c (cummax c)
    (map2 (fun x m => (x / m - Fin 1)%F) c (cummax c))
    (smin (map2 (fun x m => (x / m - Fin 1)%F) c (cummax c))).
Proof.
  intros H. repeat split.
  - intros t. now apply drawdown_spec.
  - intros t q E.
    destruct (proj2 (proj2 (drawdown_spec c t H)) q E)
      as (m & d & Em & Rm & Ed & _ & Ld).
    exists m, d. auto.
  - apply smin_spec. apply Forall_forall. intros x Hx.
    apply (In_nth _ _ NaN) in Hx. destruct Hx as (t & _ & <-).
    fold (at_ (map2 (fun x m => (x / m - Fin 1)%F) c (cummax c)) t).
    destruct (Forall_or_nan_at _ c t H) as [E|P].
    + left. now apply drawdown_spec.
    + right. destruct (at_ c t) as [| | |q] eqn:E; cells; try contradiction.
      destruct (proj2 (proj2 (drawdown_spec c t H)) q E)
        as (m & d & _ & _ & Ed & _). now rewrite Ed.
Qed.

End Compounding.

(** On a series of positive closes, in both backtesters: every drawdown
    cell is [cumulative / running_max - 1]; at every row where the
    cumulative column has a value (every row of the second backtester,
    every row but the first of the first) the peak is the running maximum
    of the cumulative column up to and including that row and the drawdown
    is at most 0; and the reported maximum drawdown is the smallest
    drawdown of the column. *)
Lemma drawdown_where_defined (close : Series) :
  Forall positive close ->
  (drawdown_report (V1.cumulative_returns (V1.data close))
     (V1.Running_max (V1.data close)) (V1.Drawdown (V1.data close))
     (V1.max_dd (V1.data close))
   /\ forall t, (S t < length (V1.data close))%nat ->
        is_fin (at_ (V1.cumulative_returns (V1.data close)) (S t)))
  /\ (drawdown_report (V2.Cumulative_strategy close) (V2.Peak close)
        (V2.Drawdown close) (V2.max_dd close)
      /\ forall t, (t < length close)%nat ->
           is_fin (at_ (V2.Cumulative_strategy close) t)).
Proof.
  intros H.
  destruct (V1_cumulative_shape (V1.data close) (V1_Close_positive close H))
    as [H1 T1].
  destruct (V2_cumulative_positive close H) as [H2 _].
  repeat split.
  - now apply drawdown_report_holds.
  - now apply drawdown_report_holds.
  - now apply drawdown_report_holds.
  - intros t Ht. specialize (T1 t Ht).
    destruct (at_ (V1.cumulative_returns (V1.data close)) (S t));
      cells; try contradiction; exact I.
  - now apply drawdown_report_holds, positive_or_nan.
  - now apply drawdown_report_holds, positive_or_nan.
  - now apply drawdown_report_holds, positive_or_nan.
  - intros t Ht.
    assert (P : positive (at_ (V2.Cumulative_strategy close) t)).
    { apply Forall_at; [exact H2|].
      unfold V2.Cumulative_strategy.
      rewrite cumprod_length, length_map. unfold fillna0.
      now rewrite length_map, V2_Strategy_returns_length. }
    destruct (at_ (V2.Cumulative_strategy close) t);
      cells; try contradiction; exact I.
Qed.

(* ================================================================== *)
(** * Compounding: the start and the recurrence *)
(* ================================================================== *)

Section Recurrence.

Lemma one_plus_filled_no_nan (s : Series) :
  Forall (fun x => isnan x = false)
         (map (fun x => (Fin 1 + x)%F) (fillna0 s)).
Proof.
  unfold fillna0. rewrite map_map. apply Forall_map. apply Forall_forall.
  intros x _. now destruct x.
Qed.

(** [(1 + r.fillna(0)).cumprod()] starts at the first factor, which is 1
    when the first return is missing, and multiplies row by row *)
Lemma filled_cumprod_recurrence (r : Series) :
  at_ (cumprod (map (fun x => (Fin 1 + x)%F) (fillna0 r))) 0
    = (if isnan (at_ r 0) then
         match r with [] => NaN | _ => Fin 1 end
       else (Fin 1 + at_ r 0)%F)
  /\ forall t, (S t < length r)%nat ->
       at_ (cumprod (map (fun x => (Fin 1 + x)%F) (fillna0 r))) (S t)
       = (at_ (cumprod (map (fun x => (Fin 1 + x)%F) (fillna0 r))) t
          * (Fin 1 + at_ (fillna0 r) (S t)))%F.
Proof.
  rewrite cumprod_no_nan by apply one_plus_filled_no_nan. split.
  - rewrite at_np_accumulate_0. destruct r as [|x r]; [reflexivity|].
    cbn [fillna0 map at_ nth]. now destruct x.
  - intros t Ht.
    rewrite at_np_accumulate_S
      by (unfold fillna0; now rewrite !length_map).
    f_equal. unfold at_ at 1.
    rewrite (nth_map' _ _ _ NaN) by (unfold fillna0; now rewrite length_map).
    reflexivity.
Qed.

End Recurrence.

(** The second backtester does what C3 asks: on a series with at least one
    bar both cumulative columns start at 1 and every later row is the row
    before it times one plus the (zero-filled) return of the row. *)
Lemma V2_cumulative_compounds (close : Series) :
  close <> [] ->
  (at_ (V2.Cumulative_strategy close) 0 = Fin 1
   /\ at_ (V2.Cumulative_market close) 0 = Fin 1)
  /\ forall t, (S t < length close)%nat ->
       at_ (V2.Cumulative_strategy close) (S t)
         = (at_ (V2.Cumulative_strategy close) t
            * (Fin 1 + at_ (fillna0 (V2.Strategy_returns close)) (S t)))%F
       /\ at_ (V2.Cumulative_market close) (S t)
         = (at_ (V2.Cumulative_market close) t
            * (Fin 1 + at_ (fillna0 (V2.Market_returns close)) (S t)))%F.
Proof.
  intros Hne.
  destruct (filled_cumprod_recurrence (V2.Strategy_returns close)) as [S0 SS].
  destruct (filled_cumprod_recurrence (V2.Market_returns close)) as [M0 MS].
  assert (E0 : at_ (V2.Market_returns close) 0 = NaN)
    by apply at_pct_change_0.
  assert (E1 : at_ (V2.Strategy_returns close) 0 = NaN).
  { unfold V2.Strategy_returns.
    destruct (V2.Market_returns close) as [|m ms]; [reflexivity|].
    rewrite E0 in *. destruct (shift1 (V2.Signal close)); [reflexivity|].
    cbn in E0. subst m. reflexivity. }
  assert (L1 : V2.Strategy_returns close <> []).
  { intros E. apply (f_equal (@length F)) in E.
    rewrite V2_Strategy_returns_length in E. destruct close; [congruence|].
    discriminate. }
  assert (L2 : V2.Market_returns close <> []).
  { intros E. apply (f_equal (@length F)) in E.
    rewrite V2_Market_returns_length in E. destruct close; [congruence|].
    discriminate. }
  repeat split.
  - unfold V2.Cumulative_strategy. rewrite S0, E1. cbn [isnan].
    destruct (V2.Strategy_returns close); [congruence | reflexivity].
  - unfold V2.Cumulative_market. rewrite M0, E0. cbn [isnan].
    destruct (V2.Market_returns close); [congruence | reflexivity].
  - apply SS. now rewrite V2_Strategy_returns_length.
  - apply MS. now rewrite V2_Market_returns_length.
Qed.

(** The first backtester compounds without filling: the first row of a
    frame has no strategy return, and its cumulative cell stays missing. *)
Lemma V1_cumulative_first_row (df : list V1.row) :
  at_ (V1.strategy_returns df) 0 = NaN
  /\ at_ (V1.cumulative_returns df) 0 = NaN
  /\ at_ (V1.buy_hold_returns df) 0 = NaN.
Proof.
  assert (E0 : at_ (V1.daily_returns df) 0 = NaN) by apply at_pct_change_0.
  assert (E1 : at_ (V1.strategy_returns df) 0 = NaN).
  { unfold V1.strategy_returns.
    destruct (V1.daily_returns df) as [|m ms]; [reflexivity|].
    destruct (shift1 (V1.Position df)); [reflexivity|].
    cbn in E0. subst m. reflexivity. }
  split; [exact E1|].
  assert (G : forall s : Series, at_ s 0 = NaN ->
            at_ (cumprod (map (fun x => (x + Fin 1)%F) s)) 0 = NaN).
  { intros [|x s] E; [reflexivity|]. cbn in E. subst x. reflexivity. }
  split; apply G; assumption.
Qed.

(** C3, at a failing input of the first backtester.  On the 52-bar
    sawtooth the frame has the rows of dates 49, 50 and 51; its cumulative
    column is [NaN; 125/127; 128/127]: it does not start at 1 and the
    second row is not the first row times one plus its return. *)
Theorem V1_cumulative_starts_with_gap :
  V1.index (V1.data (Samples.saw 52)) = [49; 50; 51]%nat
  /\ V1.strategy_returns (V1.data (Samples.saw 52))
     = [NaN; Fin (-2 # 127); Fin (3 # 125)]
  /\ V1.cumulative_returns (V1.data (Samples.saw 52))
     = [NaN; Fin (125 # 127); Fin (128 # 127)]
  /\ (at_ (V1.cumulative_returns (V1.data (Samples.saw 52))) 0
      * (Fin 1 + at_ (V1.strategy_returns (V1.data (Samples.saw 52))) 1))%F
     = NaN
  /\ skipn 49 (V2.Cumulative_strategy (Samples.saw 52))
     = [Fin 1; Fin (125 # 127); Fin (128 # 127)].
Proof. vm_compute. repeat split. Qed.

(** The first row of a frame of the first backtester has no drawdown:
    its cumulative cell is missing, [cummax] leaves it missing, and
    [NaN / NaN - 1] is NaN. *)
Lemma V1_first_drawdown (df : list V1.row) :
  at_ (V1.Running_max df) 0 = NaN /\ at_ (V1.Drawdown df) 0 = NaN.
Proof.
  destruct (V1_cumulative_first_row df) as (_ & E & _).
  unfold V1.Drawdown, V1.Running_max.
  destruct (V1.cumulative_returns df) as [|c cs]; [split; reflexivity|].
  cbn in E. subst c. split; reflexivity.
Qed.

(** C6, at a failing input of the first backtester.  On the 52-bar
    sawtooth the frame has the rows of dates 49, 50 and 51.  The cumulative
    column starts with a missing cell, so do the running maximum and the
    drawdown: the drawdown of the first date is NaN, not a number at most
    0, and this is so on every frame.  The running maximum never sees the
    stake of 1, and the loss of the first day in the market (2/127) is not
    a drawdown: the reported maximum drawdown is 0.  The second backtester
    starts at 1: on the same series every drawdown is a number at most 0,
    the one of date 50 is -2/127, and so is the reported maximum. *)
Theorem V1_first_drawdown_is_missing :
  V1.cumulative_returns (V1.data (Samples.saw 52))
  = [NaN; Fin (125 # 127); Fin (128 # 127)]
  /\ V1.Running_max (V1.data (Samples.saw 52))
     = [NaN; Fin (125 # 127); Fin (128 # 127)]
  /\ V1.Drawdown (V1.data (Samples.saw 52)) = [NaN; Fin 0; Fin 0]
  /\ V1.max_dd (V1.data (Samples.saw 52)) = Fin 0
  /\ (forall df : list V1.row, at_ (V1.Drawdown df) 0 = NaN)
  /\ skipn 49 (V2.Cumulative_strategy (Samples.saw 52))
     = [Fin 1; Fin (125 # 127); Fin (128 # 127)]
  /\ skipn 49 (V2.Peak (Samples.saw 52)) = [Fin 1; Fin 1; Fin (128 # 127)]
  /\ skipn 49 (V2.Drawdown (Samples.saw 52))
     = [Fin 0; Fin (-2 # 127); Fin 0]
  /\ forallb (fun d => match d with
                       | Fin q => Qle_bool q 0
                       | _ => false
                       end) (V2.Drawdown (Samples.saw 52)) = true
  /\ V2.max_dd (Samples.saw 52) = Fin (-2 # 127).
Proof.
  repeat split; try (vm_compute; reflexivity).
  intros df. apply V1_first_drawdown.
Qed.

(* ================================================================== *)
(** * Warm-up rows *)
(* ================================================================== *)

(** The first backtester removes the warm-up: every row of its frame has
    both averages, and none is dated before the 50th bar. *)
Lemma V1_drops_warm_up (close : Series) :
  Forall (fun r => notna (V1.r_sma10 r) = true
                   /\ notna (V1.r_sma50 r) = true
                   /\ (49 <= V1.r_date r)%nat) (V1.data close).
Proof.
  apply Forall_forall. intros r Hr.
  unfold V1.data, V1.dropna in Hr. apply filter_In in Hr.
  destruct Hr as [Hr Hc]. unfold V1.row_complete in Hc.
  apply andb_prop in Hc. destruct Hc as [Hc H50].
  apply andb_prop in Hc. destruct Hc as [_ H10].
  repeat split; try assumption.
  unfold V1.with_sma in Hr. apply in_map_iff in Hr.
  destruct Hr as (i & <- & Hi). apply in_seq in Hi.
  cbn [V1.r_date V1.r_sma50] in *.
  rewrite at_rolling_mean in H50 by lia. unfold roll_at in H50.
  destruct (Nat.ltb_spec (S i) 50) as [G|G]; [discriminate H50 | lia].
Qed.

(** The second backtester keeps it: a bar among the first 49 is a row of
    the frame, has no slow average, and carries the signal 0. *)
Lemma V2_warm_up_stays (close : Series) (t : nat) :
  (t < length close)%nat -> (t < 49)%nat ->
  In t (V2.index close)
  /\ at_ (V2.SMA_50 close) t = NaN
  /\ at_ (V2.Signal close) t = Fin 0.
Proof.
  intros Ht Hw.
  assert (E : at_ (V2.SMA_50 close) t = NaN).
  { unfold V2.SMA_50, V2.Close. rewrite at_rolling_mean by exact Ht.
    unfold roll_at. destruct (Nat.ltb_spec (S t) 50); [reflexivity | lia]. }
  repeat split.
  - unfold V2.index. apply in_seq. lia.
  - exact E.
  - rewrite V2_Signal_at by now rewrite V2_index_length.
    rewrite E. now destruct (at_ (V2.SMA_10 close) t).
Qed.

(** C8, at a failing input of the second backtester.  On the 52-bar
    sawtooth its frame has all 52 rows; the first rows have neither SMA_50
    nor RSI, yet they carry a signal, a market return compounded into the
    benchmark, and 51 strategy returns enter the mean and the deviation of
    the Sharpe ratio.  The first backtester keeps the rows of dates 49 to
    51 and averages 2 returns. *)
Theorem V2_keeps_warm_up_rows :
  V2.index (Samples.saw 52) = seq 0 52
  /\ firstn 3 (V2.SMA_50 (Samples.saw 52)) = [NaN; NaN; NaN]
  /\ firstn 3 (V2.RSI (Samples.saw 52)) = [NaN; NaN; NaN]
  /\ firstn 3 (V2.Signal (Samples.saw 52)) = [Fin 0; Fin 0; Fin 0]
  /\ firstn 3 (V2.Strategy_returns (Samples.saw 52)) = [NaN; Fin 0; Fin 0]
  /\ firstn 3 (V2.Cumulative_market (Samples.saw 52))
     = [Fin 1; Fin (103 # 100); Fin (101 # 100)]
  /\ length (valid (V2.Strategy_returns (Samples.saw 52))) = 51%nat
  /\ mean (V2.Strategy_returns (Samples.saw 52)) = Fin (131 # 809625)
  /\ V1.index (V1.data (Samples.saw 52)) = [49; 50; 51]%nat
  /\ length (valid (V1.strategy_returns (V1.data (Samples.saw 52)))) = 2%nat
  /\ V1.mean_dr (V1.data (Samples.saw 52)) = Fin (131 # 31750).
Proof. vm_compute. repeat split. Qed.

(* ================================================================== *)
(** * Sharpe ratio *)
(* ================================================================== *)

(** The second backtester guards the division: the Sharpe ratio is
    [mean / std * sqrt(252)] when the deviation is above 0, and 0 when it
    is 0 (or missing). *)
Lemma V2_sharpe_guarded (close : Series) (sqrt : Q -> Q) :
  (fgt (V2.std_ close sqrt) (Fin 0) = true ->
   V2.sharpe close sqrt
   = (mean (V2.Strategy_returns close) / std sqrt (V2.Strategy_returns close)
      * fsqrt sqrt (Fin 252))%F)
  /\ (V2.std_ close sqrt = Fin 0 -> V2.sharpe close sqrt = Fin 0)
  /\ (V2.std_ close sqrt = NaN -> V2.sharpe close sqrt = Fin 0).
Proof.
  unfold V2.sharpe. repeat split.
  - intros ->. reflexivity.
  - intros ->. reflexivity.
  - intros ->. reflexivity.
Qed.

(** The first backtester divides unguarded: with a deviation of 0 its
    Sharpe ratio is NaN or an infinity, never a number. *)
Lemma V1_sharpe_unguarded (df : list V1.row) (sqrt : Q -> Q) :
  V1.std_dr df sqrt = Fin 0 ->
  V1.annual_sharpe df sqrt
    = (V1.mean_dr df / V1.std_dr df sqrt * fsqrt sqrt (Fin 252))%F
  /\ ~ is_fin (V1.annual_sharpe df sqrt).
Proof.
  intros E. split; [reflexivity|].
  unfold V1.annual_sharpe, V1.daily_sharpe. rewrite E.
  change (fsqrt sqrt (Fin 252)) with (Fin (sqrt 252)).
  destruct (V1.mean_dr df) as [| | |m]; cbn [fdiv Qeq_bool]; try (intros []).
  - cbn. destruct (sqrt 252 ?= 0); intros [].
  - cbn. destruct (sqrt 252 ?= 0); intros [].
  - change (Qeq_bool 0 0) with true. cbn iota.
    destruct (m ?= 0); cbn; try (intros []);
      destruct (sqrt 252 ?= 0); intros [].
Qed.

(** C4, at a failing input of the first backtester.  On 60 bars of a
    constant close the strategy returns have mean 0 and deviation 0; the
    first backtester reports NaN, the second reports 0.  Both report a
    maximum drawdown of 0. *)
Theorem V1_sharpe_is_nan_on_flat_prices (sqrt : Q -> Q) :
  V1.mean_dr (V1.data (Samples.flat 60)) = Fin 0
  /\ V1.std_dr (V1.data (Samples.flat 60)) sqrt = Fin 0
  /\ V1.annual_sharpe (V1.data (Samples.flat 60)) sqrt = NaN
  /\ V2.std_ (Samples.flat 60) sqrt = Fin 0
  /\ V2.sharpe (Samples.flat 60) sqrt = Fin 0
  /\ V1.max_dd (V1.data (Samples.flat 60)) = Fin 0
  /\ V2.max_dd (Samples.flat 60) = Fin 0.
Proof. vm_compute. repeat split. Qed.

(* ================================================================== *)
(** * Relative strength index *)
(* ================================================================== *)

Section RSI.

Lemma is_finb_sound (s : Series) :
  forallb is_finb s = true -> Forall is_fin s.
Proof.
  intros H. apply Forall_forall. intros x Hx.
  rewrite forallb_forall in H. specialize (H x Hx).
  destruct x; cbn in *; try discriminate; exact I.
Qed.

Lemma diff_fin (s : Series) :
  Forall is_fin s -> Forall (or_nan is_fin) (diff s).
Proof.
  intros H. unfold diff.
  apply Forall_map2 with (P := is_fin) (Q := or_nan is_fin).
  - intros x y Hx [->|Hy].
    + left. now destruct x.
    + right. destruct x, y; cbn in *; try contradiction; exact I.
  - exact H.
  - apply shift1_or_nan. eapply Forall_impl; [|exact H].
    intros x Hx. now right.
Qed.

Lemma V2_Gain_Loss_nonneg (close : Series) :
  Forall is_fin close ->
  Forall nonneg (V2.Gain close) /\ Forall nonneg (V2.Loss close).
Proof.
  intros H. pose proof (diff_fin close H) as HC.
  change (diff close) with (V2.Change close) in HC.
  split.
  - unfold V2.Gain. apply Forall_map. eapply Forall_impl; [|exact HC].
    intros c [->|Hc]; [cbn; lra|].
    destruct c as [| | |q]; cbn in Hc; try contradiction.
    destruct (fgt (Fin q) (Fin 0)) eqn:G; cells; [|lra].
    apply fgt_Fin in G. lra.
  - unfold V2.Loss. apply Forall_map. eapply Forall_impl; [|exact HC].
    intros c [->|Hc]; [cbn; lra|].
    destruct c as [| | |q]; cbn in Hc; try contradiction.
    destruct (flt (Fin q) (Fin 0)) eqn:G; cells; [|lra].
    apply Qabs_nonneg.
Qed.

Lemma ewm_step_ok com st cur :
  0 < com -> ewm_ok st -> nonneg cur -> ewm_ok (ewm_step com st cur).
Proof.
  intros Hc [Hw Ho] Hx.
  destruct st as [w o n]. cbn [weighted old_wt] in *.
  destruct w as [| | |w]; cells; try contradiction.
  destruct cur as [| | |c]; cells; try contradiction.
  unfold ewm_step. cbn [weighted old_wt nobs notna isnan negb].
  assert (Hf : 0 < 1 - 1 / (1 + com)).
  { assert (1 / (1 + com) < 1) by (apply Qlt_shift_div_r; lra). lra. }
  set (ow := Qred (o * (1 - 1 / (1 + com)))).
  assert (How : 0 < ow).
  { unfold ow. rewrite Qred_correct. nra. }
  assert (Hd : 0 < Qred (ow + 1)) by (rewrite Qred_correct; lra).
  destruct (feqb (Fin w) (Fin c)); unfold ewm_ok; cbn [weighted old_wt].
  - split; [exact Hw | exact Hd].
  - split; [|exact Hd]. cells.
    assert (Hd' : 0 < ow + 1) by lra.
    rewrite (Qeq_bool_false_pos _ Hd'). cells.
    rewrite !Qred_correct. apply Qle_shift_div_l; [lra|]. nra.
Qed.

Lemma ewm_run_nonneg com minp (s : Series) : forall st,
  0 < com -> ewm_ok st -> Forall nonneg s ->
  Forall (or_nan nonneg) (ewm_run com minp st s).
Proof.
  induction s as [|x s IH]; intros st Hc Hst Hs; [constructor|].
  inversion Hs as [|? ? Hx Hs']; subst.
  pose proof (ewm_step_ok com st x Hc Hst Hx) as Hst'.
  cbn [ewm_run]. constructor; [|now apply IH].
  unfold ewm_out. destruct (minp <=? nobs (ewm_step com st x))%nat;
    [right; apply Hst' | now left].
Qed.

Lemma ewm_mean_nonneg com minp (s : Series) :
  0 < com -> Forall nonneg s -> Forall (or_nan nonneg) (ewm_mean com minp s).
Proof.
  intros Hc Hs. destruct s as [|x s]; [constructor|].
  inversion Hs as [|? ? Hx Hs']; subst.
  assert (H0 : ewm_ok {| weighted := x; old_wt := 1;
                         nobs := if notna x then 1 else 0 |})
    by (split; cbn [weighted old_wt]; [exact Hx | lra]).
  cbn [ewm_mean]. constructor; [|now apply ewm_run_nonneg].
  unfold ewm_out. cbn [nobs weighted].
  destruct (minp <=? (if notna x then 1 else 0))%nat;
    [right; exact Hx | now left].
Qed.

Lemma rsi_cell g l :
  0 <= g -> 0 <= l ->
  (l == 0 -> 0 < g ->
     exists r, V2.rsi_of (Fin g / Fin l)%F = Fin r /\ r == 100)
  /\ (l == 0 -> g == 0 -> V2.rsi_of (Fin g / Fin l)%F = NaN)
  /\ (~ l == 0 ->
     exists r, V2.rsi_of (Fin g / Fin l)%F = Fin r /\ 0 <= r /\ r < 100).
Proof.
  intros Hg Hl. unfold V2.rsi_of. repeat split.
  - intros El Pg. cells.
    rewrite (proj2 (Qeq_bool_iff l 0) El).
    rewrite (proj1 (Qgt_alt g 0) Pg). cells.
    eexists. split; [reflexivity|]. rewrite Qred_correct. lra.
  - intros El Eg. cells.
    rewrite (proj2 (Qeq_bool_iff l 0) El).
    rewrite (proj1 (Qeq_alt g 0) Eg). reflexivity.
  - intros Nl. cells.
    assert (Pl : 0 < l) by (destruct (Qlt_le_dec 0 l) as [G|G]; [exact G|];
                            exfalso; apply Nl; lra).
    rewrite (Qeq_bool_false_pos _ Pl). cells.
    assert (Hq : 0 <= Qred (g / l))
      by (rewrite Qred_correct; apply Qle_shift_div_l; lra).
    set (q := Qred (g / l)) in *.
    assert (Pd : 0 < Qred (1 + q)) by (rewrite Qred_correct; lra).
    rewrite (Qeq_bool_false_pos _ Pd). cells.
    eexists. split; [reflexivity|]. rewrite !Qred_correct.
    assert (0 < 100 / (1 + q)) by (apply Qlt_shift_div_l; lra).
    assert (100 / (1 + q) <= 100) by (apply Qle_shift_div_r; lra).
    split; lra.
Qed.

Lemma at_RSI (close : Series) t :
  (t < length close)%nat ->
  at_ (V2.RSI close) t
  = V2.rsi_of (at_ (V2.Avg_Gain close) t / at_ (V2.Avg_Loss close) t)%F.
Proof.
  intros Ht. unfold V2.RSI, V2.RS, at_ at 1.
  rewrite (nth_map' V2.rsi_of _ _ NaN)
    by (rewrite map2_length, V2_Avg_Gain_length, V2_Avg_Loss_length; lia).
  rewrite (nth_map2 _ _ _ _ NaN NaN)
    by (rewrite ?V2_Avg_Gain_length, ?V2_Avg_Loss_length; lia).
  reflexivity.
Qed.

Lemma V2_averages_nonneg (close : Series) t :
  Forall is_fin close ->
  or_nan nonneg (at_ (V2.Avg_Gain close) t)
  /\ or_nan nonneg (at_ (V2.Avg_Loss close) t).
Proof.
  intros H. destruct (V2_Gain_Loss_nonneg close H) as [HG HL].
  split; apply Forall_or_nan_at; apply ewm_mean_nonneg;
    try assumption; lra.
Qed.

End RSI.

(** The RSI by cases, in the exact arithmetic of the model: missing or
    between 0 and 100; 100 exactly when both averages have a value, the
    average loss is 0 and the average gain is above 0; missing when both
    are 0.  (The direction from an RSI of 100 to an average loss of 0 is
    one that rounding does not keep.) *)
Lemma rsi_cases (close : Series) (t : nat) :
  Forall is_fin close ->
  (at_ (V2.RSI close) t = NaN
   \/ exists r, at_ (V2.RSI close) t = Fin r /\ 0 <= r /\ r <= 100)
  /\ (same (at_ (V2.RSI close) t) (Fin 100)
      <-> exists g l, at_ (V2.Avg_Gain close) t = Fin g
                      /\ at_ (V2.Avg_Loss close) t = Fin l
                      /\ l == 0 /\ 0 < g)
  /\ (forall g l, at_ (V2.Avg_Gain close) t = Fin g ->
                  at_ (V2.Avg_Loss close) t = Fin l ->
                  l == 0 -> g == 0 -> at_ (V2.RSI close) t = NaN).
Proof.
  intros H.
  destruct (Nat.lt_ge_cases t (length close)) as [Ht|Ht].
  2:{ assert (E : at_ (V2.RSI close) t = NaN)
        by (apply nth_overflow; now rewrite V2_RSI_length).
      assert (EG : at_ (V2.Avg_Gain close) t = NaN)
        by (apply nth_overflow; now rewrite V2_Avg_Gain_length).
      rewrite E, EG. split; [|split; [split|]].
      - now left.
      - intros [].
      - intros (g & l & G & _). discriminate G.
      - intros g l G. discriminate G. }
  rewrite at_RSI by exact Ht.
  destruct (V2_averages_nonneg close t H) as [[EG|PG] [EL|PL]];
    try rewrite EG; try rewrite EL.
  - split; [|split; [split|]]; [now left | intros [] | |].
    + intros (g & l & G & _). discriminate G.
    + intros g l G. discriminate G.
  - split; [|split; [split|]]; [now left | intros [] | |].
    + intros (g & l & G & _). discriminate G.
    + intros g l G. discriminate G.
  - assert (E : V2.rsi_of (at_ (V2.Avg_Gain close) t / NaN)%F = NaN)
      by (now destruct (at_ (V2.Avg_Gain close) t)).
    rewrite E. split; [|split; [split|]]; [now left | intros [] | |].
    + intros (g & l & _ & L & _). discriminate L.
    + intros g l _ L. discriminate L.
  - destruct (at_ (V2.Avg_Gain close) t) as [| | |g]; cbn [nonneg] in PG;
      try contradiction.
    destruct (at_ (V2.Avg_Loss close) t) as [| | |l]; cbn [nonneg] in PL;
      try contradiction.
    destruct (rsi_cell g l PG PL) as (C100 & CNaN & Cin).
    destruct (Qeq_dec l 0) as [El|Nl].
    + destruct (Qlt_le_dec 0 g) as [Pg|Ng].
      * destruct (C100 El Pg) as (r & -> & Er). split; [|split; [split|]].
        -- right. exists r. repeat split; lra.
        -- intros _. exists g, l. auto.
        -- intros _. exact Er.
        -- intros g' l' [= <-] [= <-] _ Eg. lra.
      * assert (Eg : g == 0) by lra.
        rewrite (CNaN El Eg). split; [|split; [split|]].
        -- now left.
        -- intros [].
        -- intros (g' & l' & [= <-] & [= <-] & _ & Pg). lra.
        -- reflexivity.
    + destruct (Cin Nl) as (r & -> & R0 & R100). split; [|split; [split|]].
      * right. exists r. repeat split; lra.
      * cbn [same]. intros Er. lra.
      * intros (g' & l' & [= <-] & [= <-] & El & _). contradiction.
      * intros g' l' [= <-] [= <-] El. contradiction.
Qed.

(** C5 (as amended).  On finite closes, at every date: the RSI is missing
    or lies between 0 and 100; when both averages have a value, the
    average loss is 0 and the average gain is above 0, the RSI is 100; and
    when the average loss and the average gain are both 0 the RSI is
    missing (NaN), not 100. *)
Theorem rsi_is_bounded (close : Series) (t : nat) :
  Forall is_fin close ->
  (at_ (V2.RSI close) t = NaN
   \/ exists r, at_ (V2.RSI close) t = Fin r /\ 0 <= r /\ r <= 100)
  /\ (forall g l, at_ (V2.Avg_Gain close) t = Fin g ->
                  at_ (V2.Avg_Loss close) t = Fin l ->
                  l == 0 -> 0 < g -> same (at_ (V2.RSI close) t) (Fin 100))
  /\ (forall g l, at_ (V2.Avg_Gain close) t = Fin g ->
                  at_ (V2.Avg_Loss close) t = Fin l ->
                  l == 0 -> g == 0 -> at_ (V2.RSI close) t = NaN).
Proof.
  intros H. destruct (rsi_cases close t H) as (B & [_ C] & N).
  split; [exact B|]. split; [|exact N].
  intros g l G L El Pg. apply C. exists g, l. auto.
Qed.

Lemma rsi_is_bounded_witness :
  Forall is_fin (Samples.up 16)
  /\ (at_ (V2.RSI (Samples.up 16)) 14 = NaN
      \/ exists r, at_ (V2.RSI (Samples.up 16)) 14 = Fin r
                   /\ 0 <= r /\ r <= 100)
  /\ (forall g l, at_ (V2.Avg_Gain (Samples.up 16)) 14 = Fin g ->
                  at_ (V2.Avg_Loss (Samples.up 16)) 14 = Fin l ->
                  l == 0 -> 0 < g ->
                  same (at_ (V2.RSI (Samples.up 16)) 14) (Fin 100))
  /\ (forall g l, at_ (V2.Avg_Gain (Samples.up 16)) 14 = Fin g ->
                  at_ (V2.Avg_Loss (Samples.up 16)) 14 = Fin l ->
                  l == 0 -> g == 0 -> at_ (V2.RSI (Samples.up 16)) 14 = NaN).
Proof.
  assert (H : Forall is_fin (Samples.up 16))
    by (apply is_finb_sound; vm_compute; reflexivity).
  split; [exact H | exact (rsi_is_bounded (Samples.up 16) 14 H)].
Defined.

(** C5 (as stated) fails.  On 16 bars of a constant close the average
    loss of date 14 is 0 (and so is the average gain); the RSI of that date
    is NaN, not 100.  On 16 rising bars the average loss is 0 as well and
    the RSI is 100. *)
Lemma rsi_counterexample :
  at_ (V2.Avg_Loss (Samples.flat 16)) 14 = Fin 0
  /\ at_ (V2.Avg_Gain (Samples.flat 16)) 14 = Fin 0
  /\ at_ (V2.RS (Samples.flat 16)) 14 = NaN
  /\ at_ (V2.RSI (Samples.flat 16)) 14 = NaN
  /\ ~ same (at_ (V2.RSI (Samples.flat 16)) 14) (Fin 100)
  /\ at_ (V2.Avg_Loss (Samples.up 16)) 14 = Fin 0
  /\ at_ (V2.RSI (Samples.up 16)) 14 = Fin 100.
Proof. vm_compute. repeat split. intros []. Qed.

(* ================================================================== *)
(** * The news gatherer *)
(* ================================================================== *)

Module NewsFacts.
Import String Ascii News.
Local Open Scope string_scope.

(** ** The order of strings *)

Section StringOrder.

Lemma ascii_compare_lt_trans a b c :
  Ascii.compare a b = Lt -> Ascii.compare b c = Lt -> Ascii.compare a c = Lt.
Proof.
  unfold Ascii.compare. rewrite !N.compare_lt_iff. lia.
Qed.

Lemma ascii_compare_refl a : Ascii.compare a a = Eq.
Proof. unfold Ascii.compare. apply N.compare_refl. Qed.

Lemma compare_refl s : String.compare s s = Eq.
Proof.
  induction s as [|a s IH]; [reflexivity|].
  cbn. now rewrite ascii_compare_refl.
Qed.

Lemma compare_lt_trans s1 : forall s2 s3,
  String.compare s1 s2 = Lt -> String.compare s2 s3 = Lt ->
  String.compare s1 s3 = Lt.
Proof.
  induction s1 as [|a s1 IH]; intros [|b s2] [|c s3]; cbn;
    try discriminate; try reflexivity.
  destruct (Ascii.compare a b) eqn:Eab; try discriminate;
    destruct (Ascii.compare b c) eqn:Ebc; try discriminate; intros H1 H2.
  - apply Ascii.compare_eq_iff in Eab, Ebc. subst.
    rewrite ascii_compare_refl. now apply IH with (s2 := s2).
  - apply Ascii.compare_eq_iff in Eab. subst. now rewrite Ebc.
  - apply Ascii.compare_eq_iff in Ebc. subst. now rewrite Eab.
  - now rewrite (ascii_compare_lt_trans a b c Eab Ebc).
Qed.

Lemma leb_trans s1 s2 s3 :
  String.leb s1 s2 = true -> String.leb s2 s3 = true ->
  String.leb s1 s3 = true.
Proof.
  unfold String.leb.
  destruct (String.compare s1 s2) eqn:E12; try discriminate;
    destruct (String.compare s2 s3) eqn:E23; try discriminate; intros _ _.
  - apply String.compare_eq_iff in E12, E23. subst. now rewrite compare_refl.
  - apply String.compare_eq_iff in E12. subst. now rewrite E23.
  - apply String.compare_eq_iff in E23. subst. now rewrite E12.
  - now rewrite (compare_lt_trans s1 s2 s3 E12 E23).
Qed.

Lemma ltb_leb s1 s2 : String.ltb s1 s2 = true -> String.leb s1 s2 = true.
Proof.
  unfold String.ltb, String.leb. now destruct (String.compare s1 s2).
Qed.

Lemma not_ltb_leb s1 s2 : String.ltb s1 s2 = false -> String.leb s2 s1 = true.
Proof.
  unfold String.ltb, String.leb. rewrite (String.compare_antisym s2 s1).
  now destruct (String.compare s1 s2).
Qed.

Lemma ltb_not_leb s1 s2 :
  String.ltb s1 s2 = true -> String.leb s2 s1 = true -> False.
Proof.
  unfold String.ltb, String.leb. rewrite (String.compare_antisym s2 s1).
  now destruct (String.compare s1 s2).
Qed.

End StringOrder.

(** ** The sort of line 114 *)

Section Sort.

Lemma stable_insert_perm x l : Permutation (x :: l) (stable_insert x l).
Proof.
  induction l as [|y l IH]; cbn; [reflexivity|].
  destruct (String.ltb (time x) (time y)); [|reflexivity].
  rewrite perm_swap. now constructor.
Qed.

Lemma sort_desc_perm l : Permutation l (sort_desc l).
Proof.
  induction l as [|x l IH]; cbn; [reflexivity|].
  rewrite <- stable_insert_perm. now constructor.
Qed.

Lemma stable_insert_sorted x l :
  StronglySorted above l -> StronglySorted above (stable_insert x l).
Proof.
  induction 1 as [|y l Hl IH Hy]; cbn.
  - repeat constructor.
  - destruct (String.ltb (time x) (time y)) eqn:E.
    + constructor; [exact IH|].
      apply Forall_forall. intros z Hz.
      apply (Permutation_in _ (Permutation_sym (stable_insert_perm x l))) in Hz.
      destruct Hz as [<-|Hz].
      * now apply ltb_leb.
      * rewrite Forall_forall in Hy. now apply Hy.
    + constructor; [now constructor|].
      constructor; [now apply not_ltb_leb|].
      eapply Forall_impl; [|exact Hy].
      intros z Hz. unfold above in *.
      apply leb_trans with (s2 := time y); [exact Hz|].
      now apply not_ltb_leb.
Qed.

Lemma sort_desc_sorted l : StronglySorted above (sort_desc l).
Proof.
  induction l as [|x l IH]; cbn; [constructor | now apply stable_insert_sorted].
Qed.

(** in a sorted list, the earlier of two positions holds the larger key *)
Lemma sorted_positions l : StronglySorted above l ->
  forall i j x y, nth_error l i = Some x -> nth_error l j = Some y ->
    (i < j)%nat -> above x y.
Proof.
  induction 1 as [|z l Hl IH Hz]; intros i j x y Hi Hj Hij.
  - destruct i; discriminate.
  - destruct j as [|j]; [lia|]. cbn in Hj.
    destruct i as [|i].
    + cbn in Hi. injection Hi as <-.
      rewrite Forall_forall in Hz. apply Hz. eapply nth_error_In; eassumption.
    + cbn in Hi. apply (IH i j); auto. lia.
Qed.

(** records with the same key keep the order they had (stability) *)
Lemma stable_insert_filter x l k :
  filter (fun r => time r =? k) (stable_insert x l)
  = filter (fun r => time r =? k) (x :: l).
Proof.
  induction l as [|y l IH]; [reflexivity|]. cbn [stable_insert].
  destruct (String.ltb (time x) (time y)) eqn:E; [|reflexivity].
  cbn [filter] in *. rewrite IH.
  destruct (time x =? k) eqn:Ex; [|reflexivity].
  destruct (time y =? k) eqn:Ey; [|reflexivity].
  apply String.eqb_eq in Ex, Ey. exfalso.
  unfold String.ltb in E. rewrite Ex, Ey, compare_refl in E. discriminate.
Qed.

Lemma sort_desc_stable l k :
  filter (fun r => time r =? k) (sort_desc l)
  = filter (fun r => time r =? k) l.
Proof.
  induction l as [|x l IH]; [reflexivity|]. cbn [sort_desc fold_right].
  fold (sort_desc l). rewrite stable_insert_filter. cbn [filter].
  now rewrite IH.
Qed.

End Sort.

(** ** The format of line 64 *)

Section Format.

(** arithmetic with quotients and remainders by constants *)
Ltac lia_div := zify; Z.to_euclidean_division_equations; lia.

Lemma N_of_digit n : N_of_ascii (digit n) = (48 + n mod 10)%N.
Proof.
  unfold digit. apply N_ascii_embedding.
  assert (n mod 10 < 10)%N by (apply N.mod_lt; lia). lia.
Qed.

Lemma compare_digit a b :
  Ascii.compare (digit a) (digit b) = N.compare (a mod 10) (b mod 10).
Proof.
  unfold Ascii.compare. rewrite !N_of_digit.
  destruct (N.compare_spec (a mod 10) (b mod 10)) as [E|E|E].
  - rewrite E. apply N.compare_refl.
  - apply N.compare_lt_iff. lia.
  - apply N.compare_gt_iff. lia.
Qed.

Lemma digit_mod a b : (a mod 10 = b mod 10)%N -> digit a = digit b.
Proof. unfold digit. now intros ->. Qed.

Lemma compare_pad2 a b s t :
  (a < 100)%N -> (b < 100)%N ->
  String.compare (pad2 a ++ s) (pad2 b ++ t)
  = lex (N.compare a b) (String.compare s t).
Proof.
  intros Ha Hb. unfold pad2. cbn [append String.compare].
  rewrite !compare_digit.
  destruct (N.compare_spec ((a / 10) mod 10) ((b / 10) mod 10)) as [E1|E1|E1];
  destruct (N.compare_spec (a mod 10) (b mod 10)) as [E2|E2|E2];
  destruct (N.compare_spec a b) as [E|E|E]; cbn [lex]; try reflexivity;
    exfalso; lia_div.
Qed.

Lemma pad4_split n : pad4 n = pad2 (n / 100) ++ pad2 (n mod 100).
Proof.
  unfold pad4, pad2. cbn [append].
  repeat (apply f_equal2; [apply digit_mod; lia_div|]). reflexivity.
Qed.

Lemma compare_pad4 a b s t :
  (a < 10000)%N -> (b < 10000)%N ->
  String.compare (pad4 a ++ s) (pad4 b ++ t)
  = lex (N.compare a b) (String.compare s t).
Proof.
  intros Ha Hb. rewrite !pad4_split.
  assert (A : forall x y z : string, (x ++ y) ++ z = x ++ (y ++ z)).
  { induction x as [|c x IH]; intros y z; cbn; [reflexivity|]. now rewrite IH. }
  rewrite !A.
  rewrite compare_pad2 by lia_div. rewrite compare_pad2 by lia_div.
  destruct (N.compare_spec (a / 100) (b / 100)) as [E1|E1|E1];
  destruct (N.compare_spec (a mod 100) (b mod 100)) as [E2|E2|E2];
  destruct (N.compare_spec a b) as [E|E|E]; cbn [lex]; try reflexivity;
    exfalso; lia_div.
Qed.

Lemma compare_same_head c s t :
  String.compare (String c s) (String c t) = String.compare s t.
Proof. cbn. now rewrite ascii_compare_refl. Qed.

Lemma year_str_four_digits n : (1000 <= n)%N -> year_str n = pad4 n.
Proof.
  intros H. unfold year_str.
  destruct (N.ltb_spec n 10); [lia|].
  destruct (N.ltb_spec n 100); [lia|].
  destruct (N.ltb_spec n 1000); [lia | reflexivity].
Qed.

(** on well-formed dates the order of the printed strings is the
    order of the printed fields *)
Lemma strftime_compare d1 d2 :
  wf_datetime d1 -> wf_datetime d2 ->
  String.compare (strftime d1) (strftime d2) = dt_compare d1 d2.
Proof.
  intros (L1 & Y1 & M1 & D1 & H1 & I1 & S1) (L2 & Y2 & M2 & D2 & H2 & I2 & S2).
  unfold strftime, dt_compare.
  rewrite !year_str_four_digits by assumption.
  rewrite compare_pad4 by lia. f_equal.
  change ("-" ++ ?x) with (String "-" x). rewrite compare_same_head.
  rewrite compare_pad2 by lia. f_equal.
  change ("-" ++ ?x) with (String "-" x). rewrite compare_same_head.
  rewrite compare_pad2 by lia. f_equal.
  change (" " ++ ?x) with (String " " x). rewrite compare_same_head.
  rewrite compare_pad2 by lia. f_equal.
  change (":" ++ ?x) with (String ":" x). rewrite compare_same_head.
  rewrite compare_pad2 by lia. f_equal.
  change (":" ++ ?x) with (String ":" x). rewrite compare_same_head.
  replace (pad2 (second d1)) with (pad2 (second d1) ++ "") by reflexivity.
  replace (pad2 (second d2)) with (pad2 (second d2) ++ "") by reflexivity.
  rewrite compare_pad2 by lia. cbn [String.compare].
  now destruct (second d1 ?= second d2)%N.
Qed.

(** a printed date starts with a digit, which is below the letter U *)
Lemma digit_below_U n s t :
  String.ltb (String (digit n) s) (String "U" t) = true.
Proof.
  unfold String.ltb. cbn [String.compare]. unfold Ascii.compare.
  rewrite N_of_digit.
  assert (H : (48 + n mod 10 < N_of_ascii "U")%N).
  { assert (n mod 10 < 10)%N by (apply N.mod_lt; lia).
    change (N_of_ascii "U") with 85%N. lia. }
  apply N.compare_lt_iff in H. now rewrite H.
Qed.

Lemma strftime_below_unknown dt :
  String.ltb (strftime dt) "Unknown Time" = true.
Proof.
  unfold strftime, year_str.
  destruct (year dt <? 10)%N; [apply digit_below_U|].
  destruct (year dt <? 100)%N; [apply digit_below_U|].
  destruct (year dt <? 1000)%N; apply digit_below_U.
Qed.

(** two well-formed dates print alike exactly when their six printed
    fields agree *)
Lemma lex_eq c1 c2 : lex c1 c2 = Eq <-> c1 = Eq /\ c2 = Eq.
Proof.
  destruct c1; cbn; split; try (intros [H1 H2]); try discriminate; auto.
Qed.

Lemma dt_compare_eq d1 d2 :
  dt_compare d1 d2 = Eq
  <-> year d1 = year d2 /\ month d1 = month d2 /\ day d1 = day d2
      /\ hour d1 = hour d2 /\ minute d1 = minute d2
      /\ second d1 = second d2.
Proof.
  unfold dt_compare. rewrite !lex_eq, !N.compare_eq_iff. tauto.
Qed.

End Format.

(** ** Instants *)

Section Calendar.

Ltac lia_div := zify; Z.to_euclidean_division_equations; lia.

Lemma days_before_year_succ y :
  days_before_year (y + 1)
  = (days_before_year y + 365 + if is_leap y then 1 else 0)%Z.
Proof.
  unfold days_before_year, is_leap.
  replace (y + 1 - 1)%Z with y by lia.
  destruct (Z.eqb_spec (y mod 4) 0); destruct (Z.eqb_spec (y mod 100) 0);
    destruct (Z.eqb_spec (y mod 400) 0); cbn [andb orb negb]; lia_div.
Qed.

Lemma days_before_year_mono a b :
  (a <= b)%Z -> (days_before_year a <= days_before_year b)%Z.
Proof. unfold days_before_year. intros H. lia_div. Qed.

Lemma days_before_month_table y :
  let feb := if is_leap y then 29%Z else 28%Z in
  days_before_month y 1 = 0%Z
  /\ days_before_month y 2 = 31%Z
  /\ days_before_month y 3 = (31 + feb)%Z
  /\ days_before_month y 4 = (62 + feb)%Z
  /\ days_before_month y 5 = (92 + feb)%Z
  /\ days_before_month y 6 = (123 + feb)%Z
  /\ days_before_month y 7 = (153 + feb)%Z
  /\ days_before_month y 8 = (184 + feb)%Z
  /\ days_before_month y 9 = (215 + feb)%Z
  /\ days_before_month y 10 = (245 + feb)%Z
  /\ days_before_month y 11 = (276 + feb)%Z
  /\ days_before_month y 12 = (306 + feb)%Z.
Proof.
  unfold days_before_month, days_in_month.
  destruct (is_leap y); cbn; repeat split; reflexivity.
Qed.

(** the ordinal of a date grows with the date *)
Lemma toordinal_mono d1 d2 :
  calendar_datetime d1 -> calendar_datetime d2 ->
  lex (N.compare (year d1) (year d2))
   (lex (N.compare (month d1) (month d2))
        (N.compare (day d1) (day d2))) = Gt ->
  (toordinal d2 < toordinal d1)%Z.
Proof.
  intros (Y1 & M1 & D1 & _) (Y2 & M2 & D2 & _) C.
  unfold toordinal.
  set (y1 := Z.of_N (year d1)) in *. set (y2 := Z.of_N (year d2)) in *.
  set (m1 := Z.of_N (month d1)) in *. set (m2 := Z.of_N (month d2)) in *.
  set (e1 := Z.of_N (day d1)) in *. set (e2 := Z.of_N (day d2)) in *.
  assert (B : forall y m e, (1 <= m <= 12)%Z ->
            (1 <= e <= days_in_month y m)%Z ->
            (1 <= days_before_month y m + e
             <= 365 + if is_leap y then 1 else 0)%Z).
  { intros y m e Hm He.
    pose proof (days_before_month_table y) as T. cbv zeta in T.
    unfold days_in_month in He.
    assert (Cm : (m = 1 \/ m = 2 \/ m = 3 \/ m = 4 \/ m = 5 \/ m = 6
                  \/ m = 7 \/ m = 8 \/ m = 9 \/ m = 10 \/ m = 11
                  \/ m = 12)%Z) by lia.
    destruct (is_leap y);
      repeat (destruct Cm as [->|Cm]); try subst m; cbn in He; lia. }
  assert (Mo : forall y a b e, (1 <= a < b)%Z -> (b <= 12)%Z ->
            (e <= days_in_month y a)%Z ->
            (days_before_month y a + e <= days_before_month y b)%Z).
  { intros y a b e Ha Hb He.
    pose proof (days_before_month_table y) as T. cbv zeta in T.
    unfold days_in_month in He.
    assert (Ca : (a = 1 \/ a = 2 \/ a = 3 \/ a = 4 \/ a = 5 \/ a = 6
                  \/ a = 7 \/ a = 8 \/ a = 9 \/ a = 10 \/ a = 11)%Z)
      by lia.
    assert (Cb : (b = 2 \/ b = 3 \/ b = 4 \/ b = 5 \/ b = 6
                  \/ b = 7 \/ b = 8 \/ b = 9 \/ b = 10 \/ b = 11
                  \/ b = 12)%Z) by lia.
    destruct (is_leap y);
      repeat (destruct Ca as [->|Ca]); try subst a; cbn in He;
      repeat (destruct Cb as [->|Cb]); try subst b; lia. }
  destruct (N.compare_spec (year d1) (year d2)) as [Ey|Ly|Gy];
    cbn [lex] in C; try discriminate.
  - assert (E : y1 = y2) by (unfold y1, y2; now rewrite Ey). rewrite E in *.
    destruct (N.compare_spec (month d1) (month d2)) as [Em|Lm|Gm];
      cbn [lex] in C; try discriminate.
    + assert (E' : m1 = m2) by (unfold m1, m2; now rewrite Em).
      rewrite E' in *. apply N.compare_gt_iff in C. unfold e1, e2. lia.
    + assert (G : (m2 < m1)%Z) by (unfold m1, m2; lia).
      pose proof (Mo y2 m2 m1 e2 ltac:(lia) ltac:(lia) ltac:(lia)). lia.
  - assert (G : (y2 + 1 <= y1)%Z) by (unfold y1, y2; lia).
    pose proof (days_before_year_mono _ _ G) as Hm.
    rewrite days_before_year_succ in Hm.
    pose proof (B y2 m2 e2 M2 D2). pose proof (B y1 m1 e1 M1 D1). lia.
Qed.

(** on dates of the calendar the order of the printed fields is the
    order of the wall clocks *)
Lemma wall_seconds_order d1 d2 :
  calendar_datetime d1 -> calendar_datetime d2 ->
  dt_compare d1 d2 <> Lt -> (wall_seconds d2 <= wall_seconds d1)%Z.
Proof.
  intros C1 C2 N.
  pose proof C1 as (_ & _ & _ & H1 & I1 & S1).
  pose proof C2 as (_ & _ & _ & H2 & I2 & S2).
  unfold wall_seconds. unfold dt_compare in N.
  destruct (lex (N.compare (year d1) (year d2))
             (lex (N.compare (month d1) (month d2))
                  (N.compare (day d1) (day d2)))) eqn:D.
  - apply lex_eq in D. destruct D as [Ey D]. apply lex_eq in D.
    destruct D as [Em Ed]. apply N.compare_eq_iff in Ey, Em, Ed.
    assert (O : toordinal d1 = toordinal d2)
      by (unfold toordinal; now rewrite Ey, Em, Ed).
    rewrite O. rewrite Ey, Em, Ed in N.
    rewrite !N.compare_refl in N. cbn [lex] in N.
    destruct (N.compare_spec (hour d1) (hour d2)) as [Eh|Lh|Gh];
      cbn [lex] in N; try congruence; [|lia].
    destruct (N.compare_spec (minute d1) (minute d2)) as [Ei|Li|Gi];
      cbn [lex] in N; try congruence; [|lia].
    destruct (N.compare_spec (second d1) (second d2)) as [Es|Ls|Gs];
      try congruence; lia.
  - exfalso. apply N. clear N.
    destruct (N.compare (year d1) (year d2)); cbn [lex] in *;
      try discriminate; try reflexivity.
    destruct (N.compare (month d1) (month d2)); cbn [lex] in *;
      try discriminate; try reflexivity.
    now rewrite D.
  - pose proof (toordinal_mono d1 d2 C1 C2 D). lia.
Qed.

(** ... and, between aware datetimes of one offset, the order of the
    instants *)
Lemma utc_seconds_order d1 d2 off :
  calendar_datetime d1 -> calendar_datetime d2 ->
  utcoffset d1 = Some off -> utcoffset d2 = Some off ->
  dt_compare d1 d2 <> Lt ->
  exists a b, utc_seconds d1 = Some a /\ utc_seconds d2 = Some b
              /\ (b <= a)%Z.
Proof.
  intros C1 C2 O1 O2 N. unfold utc_seconds. rewrite O1, O2.
  exists (wall_seconds d1 - off)%Z, (wall_seconds d2 - off)%Z.
  pose proof (wall_seconds_order d1 d2 C1 C2 N). repeat split; lia.
Qed.

End Calendar.


(** ** The loop over the watchlist *)

Section Script.

Variable fetch_news : string -> result pyval.
Variable fromtimestamp : pyval -> option datetime.
Variable fromisoformat : string -> option datetime.
Variable repr : pyval -> string.

Local Abbreviation get_news := (News.get_news fetch_news fromtimestamp fromisoformat repr).
Local Abbreviation main_step := (News.main_step fetch_news fromtimestamp fromisoformat repr).
Local Abbreviation main_loop := (News.main_loop fetch_news fromtimestamp fromisoformat repr).
Local Abbreviation main := (News.main fetch_news fromtimestamp fromisoformat repr).
Local Abbreviation results_of := (News.results_of fetch_news fromtimestamp fromisoformat repr).
Local Abbreviation printed_of := (News.printed_of fetch_news fromtimestamp fromisoformat repr).
Local Abbreviation time_str_of := (News.time_str_of fromtimestamp fromisoformat repr).
Local Abbreviation parsed := (News.parsed fromtimestamp fromisoformat).
Local Abbreviation clean_loop := (News.clean_loop fromtimestamp fromisoformat repr).

Lemma main_step_spec st entry :
  main_step st entry
  = {| all_market_news := all_market_news st ++ results_of entry;
       stdout := stdout st ++ printed_of entry |}.
Proof.
  destruct entry as [name tick].
  unfold News.main_step, News.results_of, News.printed_of.
  cbn [fst snd].
  destruct (News.get_news fetch_news fromtimestamp fromisoformat repr name tick)
    as [printed [results|e]]; cbn [fst snd].
  - now rewrite app_nil_r.
  - now rewrite app_nil_r.
Qed.

Lemma fold_main_step wl : forall st,
  fold_left main_step wl st
  = {| all_market_news := all_market_news st ++ List.concat (map results_of wl);
       stdout := stdout st ++ List.concat (map printed_of wl) |}.
Proof.
  induction wl as [|entry wl IH]; intros st; cbn [fold_left map List.concat].
  - rewrite !app_nil_r. now destruct st.
  - rewrite IH, main_step_spec. cbn [all_market_news stdout].
    now rewrite <- !app_assoc.
Qed.

Lemma main_loop_spec wl :
  main_loop wl
  = {| all_market_news := List.concat (map results_of wl);
       stdout := List.concat (map printed_of wl) |}.
Proof. unfold News.main_loop. now rewrite fold_main_step. Qed.

Lemma main_results wl :
  all_market_news (main wl) = sort_desc (List.concat (map results_of wl)).
Proof.
  unfold News.main. cbn [all_market_news]. now rewrite main_loop_spec.
Qed.

Lemma main_stdout wl :
  exists shown,
    stdout (main wl) = (List.concat (map printed_of wl) ++ shown)%list.
Proof.
  unfold News.main. cbn [stdout]. rewrite main_loop_spec. cbn [stdout all_market_news]. eexists. reflexivity.
Qed.

(** line 38-39: a falsy response is an empty list, and an exception of the
    feed leaves [get_news] as it came *)
Lemma get_news_empty name tick v :
  fetch_news tick = Ok v -> truthy v = false ->
  snd (get_news name tick) = Ok [].
Proof.
  intros E T. unfold News.get_news. cbn [snd].
  rewrite E. cbn [bind]. now rewrite T.
Qed.

Lemma get_news_raises name tick e :
  fetch_news tick = Raise e -> snd (get_news name tick) = Raise e.
Proof.
  intros E. unfold News.get_news. cbn [snd]. now rewrite E.
Qed.

(** the time of a clean record is made by lines 56-75 *)
Lemma clean_loop_times name tick stories : forall cleaned out,
  clean_loop name tick stories cleaned = Ok out ->
  Forall (fun r => exists raw, time r = time_str_of raw) cleaned ->
  Forall (fun r => exists raw, time r = time_str_of raw) out.
Proof.
  induction stories as [|story rest IH]; intros cleaned out E H.
  - cbn in E. now injection E as <-.
  - cbn [News.clean_loop] in E.
    destruct (clean_story fromtimestamp fromisoformat repr name tick story)
      as [i|e] eqn:C; cbn [bind] in E; [|discriminate].
    apply (IH _ _ E). apply Forall_app. split; [exact H|].
    constructor; [|constructor].
    unfold clean_story in C.
    destruct (raw_time_of story) as [raw|]; cbn [bind] in C; [|discriminate].
    destruct (headline_of story) as [h|]; cbn [bind] in C; [|discriminate].
    injection C as <-. now exists raw.
Qed.

Lemma results_times entry :
  Forall (fun r => exists raw, time r = time_str_of raw) (results_of entry).
Proof.
  destruct entry as [name tick].
  unfold News.results_of, News.get_news. cbn [fst snd].
  destruct (fetch_news tick) as [v|e]; cbn [bind]; [|constructor].
  destruct (negb (truthy v)); [constructor|].
  destruct (iter v) as [stories|e]; cbn [bind]; [|constructor].
  destruct (News.clean_loop fromtimestamp fromisoformat repr name tick stories [])
    as [out|e] eqn:E; [|constructor].
  apply (clean_loop_times name tick stories [] out E). constructor.
Qed.

(** lines 56-75 by cases: a parsed time is printed by the format; a time
    that is not parsed is ['Unknown Time'] or the raw value *)
Lemma time_str_cases raw :
  (forall dt, parsed raw = Some dt -> time_str_of raw = strftime dt)
  /\ (parsed raw = None ->
      time_str_of raw = "Unknown Time" \/ time_str_of raw = str repr raw).
Proof.
  unfold News.parsed, News.time_str_of.
  destruct raw; split; try (intros dt E; try rewrite E; try discriminate;
    reflexivity); intros E; try rewrite E; try (now left);
    destruct (truthy _); auto.
Qed.

(** C9 (as amended).  For every watchlist and every behaviour of the feed
    the script ends with a master list and an output.  The master list is
    the sorted collection of the cleaned results of the tickers whose
    [get_news] returned, and holds nothing for a ticker whose [get_news]
    raised; for such a ticker the line ['Error on <ticker>: <e>'] is in the
    printed output (not in the master list).  A feed that raises makes
    [get_news] raise, and an empty (falsy) response makes it return the
    empty list. *)
Theorem batch_resilience (wl : list (string * string)) :
  Permutation (all_market_news (main wl)) (List.concat (map results_of wl))
  /\ (forall name tick results,
        In (name, tick) wl -> snd (get_news name tick) = Ok results ->
        incl results (all_market_news (main wl)))
  /\ (forall name tick e,
        In (name, tick) wl -> snd (get_news name tick) = Raise e ->
        results_of (name, tick) = []
        /\ In (error_marker tick e) (stdout (main wl)))
  /\ (forall name tick e,
        fetch_news tick = Raise e -> snd (get_news name tick) = Raise e)
  /\ (forall name tick v,
        fetch_news tick = Ok v -> truthy v = false ->
        snd (get_news name tick) = Ok []).
Proof.
  assert (P : Permutation (all_market_news (main wl))
                (List.concat (map results_of wl))).
  { rewrite main_results. symmetry. apply sort_desc_perm. }
  split; [exact P|]. split; [|split; [|split]].
  - intros name tick results Hin E r Hr.
    apply (Permutation_in _ (Permutation_sym P)).
    apply in_concat. exists results. split; [|exact Hr].
    apply in_map_iff. exists (name, tick). split; [|exact Hin].
    unfold News.results_of. cbn [fst snd]. now rewrite E.
  - intros name tick e Hin E. split.
    + unfold News.results_of. cbn [fst snd]. now rewrite E.
    + destruct (main_stdout wl) as (shown & ->).
      apply in_or_app. left. apply in_concat.
      exists (printed_of (name, tick)). split.
      * apply in_map_iff. exists (name, tick). now split.
      * unfold News.printed_of. cbn [fst snd]. rewrite E.
        apply in_or_app. right. now left.
  - intros name tick e. apply get_news_raises.
  - intros name tick v. apply get_news_empty.
Qed.


End Script.

(** a run of the script on the sample feed, for both theorems *)
Lemma batch_resilience_witness :
  In ("Google", "GOOGL") watchlist
  /\ In ("Tesla", "TSLA") watchlist
  /\ snd (get_news Sample.fetch_news Sample.fromtimestamp
            Sample.fromisoformat Sample.repr "Tesla" "TSLA")
     = Raise (UpstreamError "HTTP 500")
  /\ In (error_marker "TSLA" (UpstreamError "HTTP 500")) (stdout Sample.run)
  /\ Permutation (all_market_news Sample.run)
       (List.concat (map (results_of Sample.fetch_news Sample.fromtimestamp
                            Sample.fromisoformat Sample.repr) watchlist)).
Proof.
  pose proof (batch_resilience Sample.fetch_news Sample.fromtimestamp
                Sample.fromisoformat Sample.repr watchlist)
    as (P & _ & R & _).
  assert (I1 : In ("Google", "GOOGL") watchlist) by (vm_compute; auto).
  assert (I2 : In ("Tesla", "TSLA") watchlist) by (vm_compute; auto).
  assert (E : snd (get_news Sample.fetch_news Sample.fromtimestamp
                     Sample.fromisoformat Sample.repr "Tesla" "TSLA")
              = Raise (UpstreamError "HTTP 500")) by reflexivity.
  split; [exact I1|]. split; [exact I2|]. split; [exact E|].
  split; [|exact P].
  exact (proj2 (R "Tesla" "TSLA" (UpstreamError "HTTP 500") I2 E)).
Defined.

(** C9 (as stated) fails.  On the sample feed Tesla's feed raises.  The
    master list holds the two Google records and nothing else: no record
    and no marker for TSLA.  The marker is a printed line. *)
Lemma batch_marker_counterexample :
  Sample.fetch_news "TSLA" = Raise (UpstreamError "HTTP 500")
  /\ all_market_news Sample.run
     = [ {| company := "Google"; ticker := "GOOGL"; headline := PyStr "C";
            time := "Unknown Time" |};
         {| company := "Google"; ticker := "GOOGL"; headline := PyStr "A";
            time := "2024-03-20 08:00:00" |} ]
  /\ forallb (fun r => negb (ticker r =? "TSLA")) (all_market_news Sample.run)
     = true
  /\ In "Error on TSLA: HTTP 500" (stdout Sample.run).
Proof.
  vm_compute. repeat split. right. right. now left.
Qed.



End NewsFacts.

(* ================================================================== *)
(** * Further properties of the backtesters *)
(* ================================================================== *)

Section WarmUpFlat.

Lemma Qred_zero q : q == 0 -> Qred q = 0.
Proof. intros E. now rewrite (Qred_complete q 0 E). Qed.

(** a return times the flat position: missing or nothing *)
Lemma fmul_flat x : (x * Fin 0)%F = NaN \/ (x * Fin 0)%F = Fin 0.
Proof.
  destruct x as [| | |q]; cells; auto.
  right. f_equal. apply Qred_zero. ring.
Qed.

Lemma cumprod_ones (s : Series) t :
  (forall k, (k <= t)%nat -> at_ s k = Fin 1) -> (t < length s)%nat ->
  at_ (np_accumulate fmul s) t = Fin 1.
Proof.
  induction t as [|t IH]; intros H Ht.
  - rewrite at_np_accumulate_0. now apply H.
  - rewrite at_np_accumulate_S by exact Ht.
    rewrite IH by (auto with arith; lia). rewrite H by lia. reflexivity.
Qed.

Lemma cummax_ones (c : Series) t :
  (forall k, (k <= t)%nat -> at_ c k = Fin 1) -> (t < length c)%nat ->
  at_ (cummax c) t = Fin 1.
Proof.
  intros H Ht. unfold cummax.
  rewrite at_remask by (now rewrite np_accumulate_length, length_map).
  rewrite (H t) by lia. cbn [isnan].
  set (c' := map (fun x => if isnan x then NInf else x) c).
  assert (H' : forall k, (k <= t)%nat -> at_ c' k = Fin 1).
  { intros k Hk. unfold c', at_. rewrite (nth_map' _ _ _ NaN) by lia.
    fold (at_ c k). now rewrite H. }
  assert (L : (t < length c')%nat) by (unfold c'; now rewrite length_map).
  clear H. induction t as [|t IH].
  - rewrite at_np_accumulate_0. now apply H'.
  - rewrite at_np_accumulate_S by exact L.
    rewrite IH by (auto with arith; lia). rewrite H' by lia. reflexivity.
Qed.

Lemma V2_flat_returns (close : Series) t :
  (t <= 49)%nat -> (t < length close)%nat ->
  at_ (fillna0 (V2.Strategy_returns close)) t = Fin 0.
Proof.
  intros Hw Ht.
  rewrite fillna0_at by now rewrite V2_Strategy_returns_length.
  destruct t as [|t].
  - assert (E : at_ (V2.Strategy_returns close) 0 = NaN).
    { unfold V2.Strategy_returns.
      pose proof (at_pct_change_0 (V2.Close close)) as E0.
      fold (V2.Market_returns close) in E0.
      destruct (V2.Market_returns close) as [|m ms]; [reflexivity|].
      destruct (shift1 (V2.Signal close)); [reflexivity|].
      cbn in E0. subst m. reflexivity. }
    now rewrite E.
  - destruct (V2_strategy_return close t) as [_ E];
      [now rewrite V2_index_length|].
    destruct (V2_warm_up_stays close t) as (_ & _ & S0); [lia | lia |].
    rewrite E, S0.
    destruct (fmul_flat (at_ (V2.Market_returns close) (S t))) as [-> | ->];
      reflexivity.
Qed.

End WarmUpFlat.

(** X1.  The second backtester cannot be long before the 50th bar: on
    every series the cumulative strategy return is exactly 1, the peak is
    1 and the drawdown is 0 on each of the first 50 rows. *)
Theorem V2_flat_through_warm_up (close : Series) (t : nat) :
  (t <= 49)%nat -> (t < length close)%nat ->
  at_ (V2.Cumulative_strategy close) t = Fin 1
  /\ at_ (V2.Peak close) t = Fin 1
  /\ at_ (V2.Drawdown close) t = Fin 0.
Proof.
  intros Hw Ht.
  assert (L : length (map (fun x => (Fin 1 + x)%F)
                        (fillna0 (V2.Strategy_returns close)))
              = length close)
    by (unfold fillna0; now rewrite !length_map, V2_Strategy_returns_length).
  assert (C : forall k, (k <= t)%nat ->
            at_ (V2.Cumulative_strategy close) k = Fin 1).
  { intros k Hk. unfold V2.Cumulative_strategy.
    rewrite cumprod_no_nan by apply one_plus_filled_no_nan.
    apply cumprod_ones; [|lia].
    intros j Hj. unfold at_. rewrite (nth_map' _ _ _ NaN)
      by (unfold fillna0; rewrite length_map, V2_Strategy_returns_length; lia).
    fold (at_ (fillna0 (V2.Strategy_returns close)) j).
    rewrite V2_flat_returns by lia. reflexivity. }
  assert (LC : length (V2.Cumulative_strategy close) = length close)
    by (unfold V2.Cumulative_strategy; now rewrite cumprod_length).
  assert (P : at_ (V2.Peak close) t = Fin 1)
    by (unfold V2.Peak; apply cummax_ones; [exact C | lia]).
  split; [now apply C|]. split; [exact P|].
  unfold V2.Drawdown, at_.
  rewrite (nth_map2 _ _ _ _ NaN NaN)
    by (unfold V2.Peak; rewrite ?cummax_length; lia).
  fold (at_ (V2.Cumulative_strategy close) t). fold (at_ (V2.Peak close) t).
  rewrite P, C by lia. reflexivity.
Qed.

Lemma V2_flat_through_warm_up_witness :
  ((49 <= 49)%nat /\ (49 < length (Samples.up 60))%nat)
  /\ at_ (V2.Cumulative_strategy (Samples.up 60)) 49 = Fin 1
  /\ at_ (V2.Peak (Samples.up 60)) 49 = Fin 1
  /\ at_ (V2.Drawdown (Samples.up 60)) 49 = Fin 0.
Proof.
  assert (H1 : (49 <= 49)%nat) by lia.
  assert (H2 : (49 < length (Samples.up 60))%nat) by (vm_compute; lia).
  split; [split; assumption|].
  exact (V2_flat_through_warm_up (Samples.up 60) 49 H1 H2).
Defined.

Section TwoVersions.

Lemma V1_Position_map (df : list V1.row) :
  V1.Position df
  = map (fun r => if fgt (V1.r_sma10 r) (V1.r_sma50 r) then Fin 1 else Fin 0) df.
Proof.
  unfold V1.Position, where_1_0, V1.SMA_10, V1.SMA_50.
  induction df as [|r df IH]; [reflexivity|].
  cbn [map map2]. now rewrite IH.
Qed.

(** the cell found under a date comes from a row with that date *)
Lemma at_date_map (f : V1.row -> F) (df : list V1.row) d p :
  at_date (map V1.r_date df) (map f df) d = Some p ->
  exists r, In r df /\ V1.r_date r = d /\ p = f r.
Proof.
  induction df as [|r df IH]; cbn [map at_date]; [discriminate|].
  destruct (Nat.eqb_spec (V1.r_date r) d) as [E|E].
  - intros [= <-]. exists r. repeat split; auto. now left.
  - intros H. destruct (IH H) as (r' & Hin & Hd & Hp).
    exists r'. repeat split; auto. now right.
Qed.

Lemma V1_row_averages (close : Series) r :
  In r (V1.data close) ->
  (V1.r_date r < length close)%nat
  /\ V1.r_close r = at_ close (V1.r_date r)
  /\ V1.r_sma10 r = at_ (V2.SMA_10 close) (V1.r_date r)
  /\ V1.r_sma50 r = at_ (V2.SMA_50 close) (V1.r_date r).
Proof.
  intros H. unfold V1.data, V1.dropna in H. apply filter_In in H.
  destruct H as [H _]. unfold V1.with_sma in H. apply in_map_iff in H.
  destruct H as (i & <- & Hi). apply in_seq in Hi. cbn.
  repeat split; auto. lia.
Qed.

End TwoVersions.

(** X2.  On a date that the first backtester keeps, the signal of the
    second backtester is the position of the first one filtered by the
    RSI: it is 1 exactly when the first is long and the RSI of the date is
    below 70.  The filter only removes long days. *)
Theorem V2_signal_is_filtered_V1_position (close : Series) (d : nat) (p : F) :
  at_date (V1.index (V1.data close)) (V1.Position (V1.data close)) d = Some p ->
  at_ (V2.Signal close) d
    = (if feqb p (Fin 1) && flt (at_ (V2.RSI close) d) (Fin 70)
       then Fin 1 else Fin 0)
  /\ (at_ (V2.Signal close) d = Fin 1 -> p = Fin 1).
Proof.
  intros H. unfold V1.index in H. rewrite V1_Position_map in H.
  apply (at_date_map
           (fun r => if fgt (V1.r_sma10 r) (V1.r_sma50 r) then Fin 1 else Fin 0))
    in H.
  destruct H as (r & Hin & Hd & ->).
  destruct (V1_row_averages close r Hin) as (Hl & _ & E10 & E50).
  rewrite Hd in *.
  assert (E : at_ (V2.Signal close) d
    = (if feqb (if fgt (V1.r_sma10 r) (V1.r_sma50 r) then Fin 1 else Fin 0)
               (Fin 1)
          && flt (at_ (V2.RSI close) d) (Fin 70)
       then Fin 1 else Fin 0)).
  { rewrite V2_Signal_at by now rewrite V2_index_length.
    rewrite <- E10, <- E50.
    now destruct (fgt (V1.r_sma10 r) (V1.r_sma50 r)). }
  split; [exact E|].
  rewrite E. destruct (fgt (V1.r_sma10 r) (V1.r_sma50 r)); [reflexivity|].
  cbn. discriminate.
Qed.

Lemma V2_signal_is_filtered_V1_position_witness :
  at_date (V1.index (V1.data (Samples.saw 52)))
          (V1.Position (V1.data (Samples.saw 52))) 50 = Some (Fin 1)
  /\ at_ (V2.Signal (Samples.saw 52)) 50
     = (if feqb (Fin 1) (Fin 1)
           && flt (at_ (V2.RSI (Samples.saw 52)) 50) (Fin 70)
        then Fin 1 else Fin 0)
  /\ (at_ (V2.Signal (Samples.saw 52)) 50 = Fin 1 -> Fin 1 = Fin 1).
Proof.
  assert (H : at_date (V1.index (V1.data (Samples.saw 52)))
                (V1.Position (V1.data (Samples.saw 52))) 50 = Some (Fin 1))
    by (vm_compute; reflexivity).
  split; [exact H|].
  exact (V2_signal_is_filtered_V1_position (Samples.saw 52) 50 (Fin 1) H).
Defined.

Section FrameShape.

Lemma fold_fadd_fin (l : Series) : forall a,
  Forall is_fin l -> is_fin (fold_left fadd l (Fin a)).
Proof.
  induction l as [|x l IH]; intros a H; [exact I|].
  inversion H as [|? ? Hx Hl]; subst.
  destruct x as [| | |q]; cbn in Hx; try contradiction.
  cbn [fold_left fadd]. now apply IH.
Qed.

Lemma Forall_skipn' {A} (P : A -> Prop) n l :
  Forall P l -> Forall P (skipn n l).
Proof.
  intros H. revert n. induction H as [|x l Hx Hl IH]; intros [|n]; cbn;
    auto.
Qed.

Lemma of_nat_nonzero w : (0 < w)%nat -> Qeq_bool (inject_Z (Z.of_nat w)) 0 = false.
Proof.
  intros H. apply Qeq_bool_false_pos.
  change 0 with (inject_Z 0). rewrite <- Zlt_Qlt. lia.
Qed.

Lemma roll_at_value w (s : Series) i :
  (0 < w)%nat -> Forall is_fin s ->
  roll_at w s i = NaN <-> (S i < w)%nat.
Proof.
  intros Hw H. unfold roll_at.
  destruct (Nat.ltb_spec (S i) w) as [G|G]; split; intro E;
    try reflexivity; try assumption; try lia.
  exfalso.
  pose proof (fold_fadd_fin (window w i s) 0
                (Forall_firstn' _ _ _ (Forall_skipn' _ _ _ H))) as F.
  fold (fsum (window w i s)) in F.
  destruct (fsum (window w i s)) as [| | |q]; cbn in F; try contradiction.
  unfold of_nat in E. cbn [fdiv] in E.
  rewrite of_nat_nonzero in E by exact Hw. discriminate E.
Qed.

Lemma filter_seq_ge k n : forall a,
  filter (fun i => (k <=? i)%nat) (seq a n)
  = seq (Nat.max a k) (a + n - Nat.max a k).
Proof.
  induction n as [|n IH]; intros a.
  - cbn. now replace (a + 0 - Nat.max a k)%nat with 0%nat by lia.
  - cbn [seq filter]. rewrite IH.
    destruct (Nat.leb_spec k a) as [G|G].
    + replace (Nat.max (S a) k) with (S a) by lia.
      replace (Nat.max a k) with a by lia.
      replace (a + S n - a)%nat with (S (S a + n - S a)) by lia.
      reflexivity.
    + replace (Nat.max (S a) k) with k by lia.
      replace (Nat.max a k) with k by lia.
      f_equal. lia.
Qed.

Lemma filter_map_comm {A B} (f : B -> bool) (g : A -> B) l :
  filter f (map g l) = map g (filter (fun x => f (g x)) l).
Proof.
  induction l as [|x l IH]; cbn; [reflexivity|].
  rewrite IH. now destruct (f (g x)).
Qed.

Lemma map_at_seq (s : Series) k :
  map (at_ s) (seq k (length s - k)) = skipn k s.
Proof.
  apply nth_ext with (d := NaN) (d' := NaN).
  - now rewrite length_map, length_seq, length_skipn.
  - intros i Hi. rewrite length_map, length_seq in Hi.
    rewrite (nth_map' _ _ _ 0%nat) by (rewrite length_seq; lia).
    rewrite seq_nth by lia. rewrite nth_skipn. reflexivity.
Qed.

Lemma V1_data_finite (close : Series) :
  Forall is_fin close ->
  V1.data close
  = map (fun i => {| V1.r_date := i; V1.r_close := at_ close i;
                     V1.r_sma10 := at_ (rolling_mean 10 close) i;
                     V1.r_sma50 := at_ (rolling_mean 50 close) i |})
        (seq 49 (length close - 49)).
Proof.
  intros H. unfold V1.data, V1.dropna, V1.with_sma.
  rewrite filter_map_comm.
  replace (seq 49 (length close - 49))
    with (filter (fun i => (49 <=? i)%nat) (seq 0 (length close)))
    by (rewrite filter_seq_ge; reflexivity).
  f_equal. apply filter_ext_in. intros i Hi. apply in_seq in Hi.
  unfold V1.row_complete. cbn [V1.r_close V1.r_sma10 V1.r_sma50].
  rewrite !at_rolling_mean by lia.
  pose proof (Forall_at _ close i H ltac:(lia)) as Fi.
  destruct (at_ close i) as [| | |c]; cbn in Fi; try contradiction.
  cbn [notna isnan negb andb].
  pose proof (roll_at_value 10 close i ltac:(lia) H) as R10.
  pose proof (roll_at_value 50 close i ltac:(lia) H) as R50.
  destruct (Nat.leb_spec 49 i) as [G|G].
  - assert (N10 : roll_at 10 close i <> NaN)
      by (intro E; apply R10 in E; lia).
    assert (N50 : roll_at 50 close i <> NaN)
      by (intro E; apply R50 in E; lia).
    destruct (roll_at 10 close i); try congruence;
      destruct (roll_at 50 close i); try congruence; reflexivity.
  - rewrite (proj2 R50) by lia. cbn. apply andb_false_r.
Qed.

End FrameShape.

(** X3.  On a download without gaps the first backtester drops exactly
    the first 49 bars: the frame holds the dates 49, 50, ... in order with
    their closes, one row per later bar, and it is empty when fewer than 50
    bars are available. *)
Theorem V1_frame_is_the_tail (close : Series) :
  Forall is_fin close ->
  V1.index (V1.data close) = seq 49 (length close - 49)
  /\ V1.Close (V1.data close) = skipn 49 close
  /\ ((length close < 50)%nat -> V1.data close = []).
Proof.
  intros H. rewrite (V1_data_finite close H).
  unfold V1.index, V1.Close. rewrite !map_map. cbn [V1.r_date V1.r_close].
  repeat split.
  - apply map_id.
  - apply map_at_seq.
  - intros L. replace (length close - 49)%nat with 0%nat by lia. reflexivity.
Qed.

Lemma V1_frame_is_the_tail_witness :
  Forall is_fin (Samples.saw 52)
  /\ V1.index (V1.data (Samples.saw 52)) = seq 49 (length (Samples.saw 52) - 49)
  /\ V1.Close (V1.data (Samples.saw 52)) = skipn 49 (Samples.saw 52)
  /\ ((length (Samples.saw 52) < 50)%nat -> V1.data (Samples.saw 52) = []).
Proof.
  assert (H : Forall is_fin (Samples.saw 52))
    by (apply is_finb_sound; vm_compute; reflexivity).
  split; [exact H | exact (V1_frame_is_the_tail (Samples.saw 52) H)].
Defined.

Section LongOrFlat.

Lemma fdiv_by_positive x y :
  0 < y -> (Fin x / Fin y)%F = Fin (Qred (x / y)).
Proof. intros H. cells. now rewrite (Qeq_bool_false_pos _ H). Qed.

Lemma fmul_by_one x : (Fin (Qred x) * Fin 1)%F = Fin (Qred x).
Proof.
  cells. f_equal. apply Qred_complete. rewrite Qred_correct. ring.
Qed.

Lemma fmul_by_zero q : (Fin q * Fin 0)%F = Fin 0.
Proof. cells. f_equal. apply Qred_zero. ring. Qed.

(** the raw return between two prices is a reduced rational *)
Lemma pct_value a b :
  0 < b -> (Fin a / Fin b - Fin 1)%F = Fin (Qred (Qred (a / b) + - (1))).
Proof. intros H. rewrite fdiv_by_positive by exact H. reflexivity. Qed.

Lemma lagged_return_cases (close signal : Series) t :
  Forall positive close -> Forall binary signal ->
  length signal = length close -> (S t < length close)%nat ->
  at_ (map2 fmul (pct_change close) (shift1 signal)) (S t)
  = if feqb (at_ signal t) (Fin 1) then at_ (pct_change close) (S t) else Fin 0.
Proof.
  intros Hc Hs L Ht. unfold at_ at 1.
  rewrite (nth_map2 _ _ _ _ NaN NaN)
    by (rewrite ?pct_change_length, ?shift1_length; lia).
  fold (at_ (pct_change close) (S t)). fold (at_ (shift1 signal) (S t)).
  rewrite at_shift1_S by lia. rewrite at_pct_change_S by exact Ht.
  pose proof (Forall_at _ close (S t) Hc ltac:(lia)) as Pa.
  pose proof (Forall_at _ close t Hc ltac:(lia)) as Pb.
  pose proof (Forall_at _ signal t Hs ltac:(lia)) as Hb.
  destruct (at_ close (S t)) as [| | |a]; cbn [positive] in Pa;
    try contradiction.
  destruct (at_ close t) as [| | |b]; cbn [positive] in Pb;
    try contradiction.
  rewrite pct_value by exact Pb.
  destruct Hb as [-> | ->].
  - rewrite fmul_by_zero. reflexivity.
  - rewrite fmul_by_one. reflexivity.
Qed.

End LongOrFlat.

(** X5.  Long or flat, never short, never leveraged.  On positive closes
    the strategy return of every row after the first is the market return
    of that row when the signal of the row before is 1, and exactly 0 when
    it is 0, in both backtesters. *)
Theorem strategy_is_long_or_flat (close : Series) (t : nat) :
  Forall positive close ->
  ((S t < length close)%nat ->
   at_ (V2.Strategy_returns close) (S t)
   = if feqb (at_ (V2.Signal close) t) (Fin 1)
     then at_ (V2.Market_returns close) (S t) else Fin 0)
  /\ ((S t < length (V1.data close))%nat ->
      at_ (V1.strategy_returns (V1.data close)) (S t)
      = if feqb (at_ (V1.Position (V1.data close)) t) (Fin 1)
        then at_ (V1.daily_returns (V1.data close)) (S t) else Fin 0).
Proof.
  intros H. split; intros Ht.
  - unfold V2.Strategy_returns, V2.Market_returns, V2.Close.
    apply lagged_return_cases; try assumption.
    + apply where_1_0_binary.
    + apply V2_Signal_length.
  - unfold V1.strategy_returns, V1.daily_returns.
    assert (L : length (V1.Close (V1.data close)) = length (V1.data close))
      by (unfold V1.Close; apply length_map).
    apply lagged_return_cases.
    + now apply V1_Close_positive.
    + apply where_1_0_binary.
    + now rewrite V1_Position_length, V1_Close_length.
    + lia.
Qed.

Lemma strategy_is_long_or_flat_witness :
  Forall positive (Samples.saw 52)
  /\ ((51 < length (Samples.saw 52))%nat ->
      at_ (V2.Strategy_returns (Samples.saw 52)) 51
      = if feqb (at_ (V2.Signal (Samples.saw 52)) 50) (Fin 1)
        then at_ (V2.Market_returns (Samples.saw 52)) 51 else Fin 0)
  /\ ((2 < length (V1.data (Samples.saw 52)))%nat ->
      at_ (V1.strategy_returns (V1.data (Samples.saw 52))) 2
      = if feqb (at_ (V1.Position (V1.data (Samples.saw 52))) 1) (Fin 1)
        then at_ (V1.daily_returns (V1.data (Samples.saw 52))) 2 else Fin 0).
Proof.
  assert (H : Forall positive (Samples.saw 52))
    by (apply positiveb_sound; vm_compute; reflexivity).
  split; [exact H|].
  destruct (strategy_is_long_or_flat (Samples.saw 52) 50 H) as [A _].
  destruct (strategy_is_long_or_flat (Samples.saw 52) 1 H) as [_ B].
  split; assumption.
Defined.

Section NeverLong.

Lemma Forall_from_at (P : F -> Prop) (s : Series) :
  (forall t, (t < length s)%nat -> P (at_ s t)) -> Forall P s.
Proof.
  intros H. apply Forall_forall. intros x Hx.
  apply (In_nth _ _ NaN) in Hx. destruct Hx as (t & Ht & <-). now apply H.
Qed.

Lemma fsum_zeros (l : Series) :
  Forall (fun x => x = Fin 0) l -> fsum l = Fin 0.
Proof.
  unfold fsum. intros H. induction H as [|x l Hx Hl IH]; [reflexivity|].
  subst x. cbn [fold_left]. exact IH.
Qed.

Lemma zero_over_count n : (0 < n)%nat -> (Fin 0 / of_nat n)%F = Fin 0.
Proof.
  intros H. unfold of_nat. cbn [fdiv]. rewrite of_nat_nonzero by exact H.
  apply (f_equal Fin). apply Qred_zero. unfold Qdiv. ring.
Qed.

(** the variance of returns that are all 0 is 0 (or missing) *)
Lemma var_zeros (s : Series) :
  Forall (or_nan (fun x => x = Fin 0)) s -> var s = NaN \/ var s = Fin 0.
Proof.
  intros H. unfold var.
  assert (V : Forall (fun x => x = Fin 0) (valid s)).
  { unfold valid. apply Forall_forall. intros x Hx.
    apply filter_In in Hx. destruct Hx as [Hx Nx].
    rewrite Forall_forall in H. destruct (H x Hx) as [->|E];
      [discriminate | exact E]. }
  destruct (Nat.leb_spec (length (valid s)) 1) as [G|G]; [now left | right].
  rewrite (fsum_zeros _ V), zero_over_count by lia.
  rewrite fsum_zeros; [apply zero_over_count; lia|].
  apply Forall_map. eapply Forall_impl; [|exact V].
  intros x ->. reflexivity.
Qed.

Lemma smin_zeros (s : Series) :
  Forall (fun x => x = Fin 0) s -> s <> [] -> smin s = Fin 0.
Proof.
  intros H Hne. unfold smin, valid.
  assert (E : filter notna s = s).
  { clear Hne. induction H as [|x l Hx Hl IH]; [reflexivity|].
    subst x. cbn. now rewrite IH. }
  rewrite E. destruct H as [|x l Hx Hl]; [congruence|]. subst x.
  clear E Hne. induction Hl as [|y l Hy Hl IH]; [reflexivity|].
  subst y. cbn [fold_left]. exact IH.
Qed.

(** the outcome of a run whose signal is never 1 *)
Lemma V2_never_long (close : Series) (sqrt : Q -> Q) :
  Forall (fun x => x = Fin 0) (V2.Signal close) ->
  Forall (fun x => x = Fin 1) (V2.Cumulative_strategy close)
  /\ Forall (fun x => x = Fin 0) (V2.Drawdown close)
  /\ V2.sharpe close sqrt = Fin 0
  /\ (close <> [] -> V2.max_dd close = Fin 0).
Proof.
  intros H.
  assert (HS : Forall (or_nan (fun x => x = Fin 0)) (V2.Strategy_returns close)).
  { unfold V2.Strategy_returns.
    apply Forall_map2 with (P := fun _ => True)
                           (Q := or_nan (fun x => x = Fin 0)).
    - intros x y _ [->| ->].
      + left. now destruct x.
      + destruct (fmul_flat x) as [E|E]; [now left | now right].
    - apply Forall_forall. auto.
    - apply shift1_or_nan. eapply Forall_impl; [|exact H].
      intros x Hx. now right. }
  assert (H1 : Forall (fun x => x = Fin 1)
                 (map (fun x => (Fin 1 + x)%F)
                    (fillna0 (V2.Strategy_returns close)))).
  { unfold fillna0. rewrite map_map. apply Forall_map.
    eapply Forall_impl; [|exact HS]. intros x [->| ->]; reflexivity. }
  assert (HC : Forall (fun x => x = Fin 1) (V2.Cumulative_strategy close)).
  { unfold V2.Cumulative_strategy.
    rewrite cumprod_no_nan by apply one_plus_filled_no_nan.
    apply Forall_np_accumulate; [|exact H1].
    intros x y -> ->. reflexivity. }
  assert (HP : Forall (fun x => x = Fin 1) (V2.Peak close)).
  { apply Forall_from_at. unfold V2.Peak. rewrite cummax_length.
    intros t Ht. apply cummax_ones; [|exact Ht].
    intros k Hk. apply (Forall_at _ _ k HC). lia. }
  assert (HD : Forall (fun x => x = Fin 0) (V2.Drawdown close)).
  { unfold V2.Drawdown.
    apply Forall_map2 with (P := fun x => x = Fin 1) (Q := fun x => x = Fin 1);
      try assumption.
    intros x y -> ->. reflexivity. }
  split; [exact HC|]. split; [exact HD|]. split.
  - unfold V2.sharpe, V2.std_, std.
    destruct (var_zeros _ HS) as [-> | ->]; reflexivity.
  - intros Hne. unfold V2.max_dd. apply smin_zeros; [exact HD|].
    intros E. apply (f_equal (@length F)) in E.
    unfold V2.Drawdown in E. rewrite map2_length in E.
    unfold V2.Peak, V2.Cumulative_strategy in E.
    rewrite cummax_length, cumprod_length, length_map in E.
    unfold fillna0 in E. rewrite length_map, V2_Strategy_returns_length in E.
    destruct close; [congruence | cbn in E; lia].
Qed.

Lemma skipn_repeat {A} (x : A) k n :
  skipn k (repeat x n) = repeat x (n - k).
Proof.
  revert k; induction n as [|n IH]; intros [|k]; cbn; auto.
Qed.

Lemma firstn_repeat {A} (x : A) k n :
  firstn k (repeat x n) = repeat x (Nat.min k n).
Proof.
  revert k; induction n as [|n IH]; intros [|k]; cbn; auto.
  now rewrite IH.
Qed.

Lemma fold_fadd_repeat p m : forall a,
  exists b, fold_left fadd (repeat (Fin p) m) (Fin a) = Fin b
            /\ b == a + inject_Z (Z.of_nat m) * p.
Proof.
  induction m as [|m IH]; intros a.
  - exists a. split; [reflexivity|]. cbn. ring.
  - cbn [repeat fold_left fadd].
    destruct (IH (Qred (a + p))) as (b & E & Eb).
    exists b. split; [exact E|].
    rewrite Eb, Qred_correct, Nat2Z.inj_succ. unfold Z.succ.
    rewrite inject_Z_plus. ring.
Qed.

(** a moving average of a constant price is that price, where defined *)
Lemma rolling_mean_constant w p n t :
  (0 < w)%nat ->
  at_ (rolling_mean w (repeat (Fin p) n)) t = NaN
  \/ exists a, at_ (rolling_mean w (repeat (Fin p) n)) t = Fin a /\ a == p.
Proof.
  intros Hw.
  destruct (Nat.lt_ge_cases t n) as [Ht|Ht].
  2:{ left. apply nth_overflow. now rewrite rolling_mean_length, repeat_length. }
  rewrite at_rolling_mean by now rewrite repeat_length.
  unfold roll_at. destruct (Nat.ltb_spec (S t) w) as [G|G]; [now left|].
  right. unfold window. rewrite skipn_repeat, firstn_repeat.
  replace (Nat.min w (n - (S t - w))) with w by lia.
  unfold fsum. destruct (fold_fadd_repeat p w 0) as (b & -> & Eb).
  unfold of_nat. cbn [fdiv]. rewrite of_nat_nonzero by exact Hw.
  eexists. split; [reflexivity|].
  rewrite Qred_correct, Eb. field.
  change 0 with (inject_Z 0). rewrite inject_Z_injective. lia.
Qed.

Lemma fgt_equal_or_nan x y p :
  (x = NaN \/ exists a, x = Fin a /\ a == p) ->
  (y = NaN \/ exists b, y = Fin b /\ b == p) ->
  fgt x y = false.
Proof.
  intros [->|(a & -> & Ea)] [->|(b & -> & Eb)]; try reflexivity.
  apply fgt_Fin_false. lra.
Qed.

Lemma V2_constant_never_long p n :
  Forall (fun x => x = Fin 0) (V2.Signal (repeat (Fin p) n)).
Proof.
  apply Forall_from_at. rewrite V2_Signal_length. intros t Ht.
  rewrite V2_Signal_at by now rewrite V2_index_length.
  unfold V2.SMA_10, V2.SMA_50, V2.Close.
  rewrite (fgt_equal_or_nan _ _ p
             (rolling_mean_constant 10 p n t ltac:(lia))
             (rolling_mean_constant 50 p n t ltac:(lia))).
  reflexivity.
Qed.

End NeverLong.

Section ShortHistory.

(** the first row has no strategy return: nothing precedes it *)
Lemma V2_first_strategy_return (close : Series) :
  at_ (V2.Strategy_returns close) 0 = NaN.
Proof.
  unfold V2.Strategy_returns.
  pose proof (at_pct_change_0 (V2.Close close)) as E1.
  fold (V2.Market_returns close) in E1.
  destruct (V2.Market_returns close) as [|m ms]; [reflexivity|].
  destruct (shift1 (V2.Signal close)); [reflexivity|].
  cbn in E1. subst m. reflexivity.
Qed.

Lemma valid_head_nan (s : Series) :
  at_ s 0 = NaN -> (length (valid s) <= length s - 1)%nat.
Proof.
  destruct s as [|x s]; cbn [length]; [cbn; lia|].
  cbn [at_ nth]. intros ->. unfold valid. cbn [filter notna isnan negb].
  pose proof (filter_length_le notna s). lia.
Qed.

(** the frame of the first backtester has at most one row for each bar
    from the 50th on *)
Lemma V1_frame_length (close : Series) :
  (length (V1.data close) <= length close - 49)%nat.
Proof.
  destruct (V1_data_split 49 close) as [E _].
  assert (N : V1.dropna (firstn 49 (V1.with_sma close)) = []).
  { destruct (V1.dropna (firstn 49 (V1.with_sma close))) as [|r l] eqn:D;
      [reflexivity | exfalso].
    assert (I1 : In r (V1.data close))
      by (rewrite E; now left).
    pose proof (V1_drops_warm_up close) as W. rewrite Forall_forall in W.
    destruct (W r I1) as (_ & _ & G).
    assert (I2 : In r (firstn 49 (V1.with_sma close))).
    { assert (I : In r (V1.dropna (firstn 49 (V1.with_sma close))))
        by (rewrite D; now left).
      unfold V1.dropna in I. apply filter_In in I. apply I. }
    apply (in_map V1.r_date) in I2.
    rewrite <- firstn_map, with_sma_dates, firstn_seq in I2.
    apply in_seq in I2. lia. }
  rewrite E, N. cbn [app]. unfold V1.dropna.
  pose proof (filter_length_le V1.row_complete (skipn 49 (V1.with_sma close)))
    as L.
  rewrite length_skipn, with_sma_length in L. exact L.
Qed.

End ShortHistory.

(** X6.  A history of at most 50 bars has no Sharpe ratio.  The slow
    average first has a value on the 50th bar, so no return of such a
    history is earned in the market.  The second backtester finds a
    deviation of 0 (or none), its guard [std > 0] fails and it reports 0.
    The first backtester keeps at most one row, has no return at all and
    reports NaN.  This holds for every content of the bars and every
    square root. *)
Theorem short_history_has_no_sharpe (close : Series) (sqrt : Q -> Q) :
  (length close <= 50)%nat ->
  V2.sharpe close sqrt = Fin 0
  /\ V1.annual_sharpe (V1.data close) sqrt = NaN.
Proof.
  intros L. split.
  - assert (HS : Forall (or_nan (fun x => x = Fin 0))
                   (V2.Strategy_returns close)).
    { apply Forall_from_at. rewrite V2_Strategy_returns_length.
      intros t Ht.
      pose proof (V2_flat_returns close t ltac:(lia) Ht) as E.
      rewrite fillna0_at in E by now rewrite V2_Strategy_returns_length.
      destruct (at_ (V2.Strategy_returns close) t) as [| | |q];
        cbn [isnan] in E; [now left | discriminate E | discriminate E
                          | right; exact E]. }
    unfold V2.sharpe, V2.std_, std.
    destruct (var_zeros _ HS) as [-> | ->]; reflexivity.
  - pose proof (V1_frame_length close) as F.
    destruct (V1_cumulative_first_row (V1.data close)) as (E0 & _).
    pose proof (valid_head_nan _ E0) as V.
    rewrite V1_strategy_returns_length in V.
    unfold V1.index in V. rewrite length_map in V.
    unfold V1.annual_sharpe, V1.daily_sharpe, V1.std_dr, std, var.
    destruct (Nat.leb_spec
                (length (valid (V1.strategy_returns (V1.data close)))) 1)
      as [G|G]; [|lia].
    cbn [fsqrt]. now destruct (V1.mean_dr (V1.data close)).
Qed.

Lemma short_history_has_no_sharpe_witness :
  (length (Samples.saw 50) <= 50)%nat
  /\ V2.sharpe (Samples.saw 50) Samples.root = Fin 0
  /\ V1.annual_sharpe (V1.data (Samples.saw 50)) Samples.root = NaN.
Proof.
  assert (L : (length (Samples.saw 50) <= 50)%nat) by (vm_compute; lia).
  split; [exact L|].
  exact (short_history_has_no_sharpe (Samples.saw 50) Samples.root L).
Defined.


(** X7.  A run of the second backtester whose signal is never 1 stays
    where it started: the cumulative strategy return is 1 on every row,
    every drawdown and the maximum drawdown are 0, and the Sharpe ratio
    is 0. *)
Theorem V2_flat_run_reports_nothing (close : Series) (sqrt : Q -> Q) :
  Forall (fun x => x = Fin 0) (V2.Signal close) ->
  Forall (fun x => x = Fin 1) (V2.Cumulative_strategy close)
  /\ Forall (fun x => x = Fin 0) (V2.Drawdown close)
  /\ V2.sharpe close sqrt = Fin 0
  /\ (close <> [] -> V2.max_dd close = Fin 0).
Proof. apply V2_never_long. Qed.

Lemma V2_flat_run_reports_nothing_witness :
  Forall (fun x => x = Fin 0) (V2.Signal (Samples.up 60))
  /\ Forall (fun x => x = Fin 1) (V2.Cumulative_strategy (Samples.up 60))
  /\ Forall (fun x => x = Fin 0) (V2.Drawdown (Samples.up 60))
  /\ V2.sharpe (Samples.up 60) Samples.root = Fin 0
  /\ (Samples.up 60 <> [] -> V2.max_dd (Samples.up 60) = Fin 0).
Proof.
  assert (H : Forall (fun x => x = Fin 0) (V2.Signal (Samples.up 60))).
  { assert (E : V2.Signal (Samples.up 60) = repeat (Fin 0) 60)
      by (vm_compute; reflexivity).
    rewrite E. apply Forall_forall. intros x Hx.
    exact (repeat_spec _ _ _ Hx). }
  split; [exact H|].
  exact (V2_flat_run_reports_nothing (Samples.up 60) Samples.root H).
Defined.

(** X8.  Constant prices.  On a constant close of any level and any
    length neither backtester is ever long, and the second one reports a
    cumulative return of 1, a Sharpe ratio of 0 and (on a series that is
    not empty) a maximum drawdown of 0. *)
Theorem constant_prices_stay_flat (p : Q) (n : nat) (sqrt : Q -> Q) :
  Forall (fun x => x = Fin 0) (V2.Signal (repeat (Fin p) n))
  /\ Forall (fun x => x = Fin 0) (V1.Position (V1.data (repeat (Fin p) n)))
  /\ Forall (fun x => x = Fin 1) (V2.Cumulative_strategy (repeat (Fin p) n))
  /\ V2.sharpe (repeat (Fin p) n) sqrt = Fin 0
  /\ ((0 < n)%nat -> V2.max_dd (repeat (Fin p) n) = Fin 0).
Proof.
  pose proof (V2_constant_never_long p n) as H.
  destruct (V2_never_long _ sqrt H) as (HC & _ & HS & HM).
  split; [exact H|]. split; [|split; [exact HC|split; [exact HS|]]].
  - rewrite V1_Position_map. apply Forall_map. apply Forall_forall.
    intros r Hr.
    destruct (V1_row_averages _ r Hr) as (_ & _ & -> & ->).
    unfold V2.SMA_10, V2.SMA_50, V2.Close.
    now rewrite (fgt_equal_or_nan _ _ p
                   (rolling_mean_constant 10 p n _ ltac:(lia))
                   (rolling_mean_constant 50 p n _ ltac:(lia))).
  - intros Hn. apply HM. destruct n; [lia | discriminate].
Qed.

Section WarmUpLengths.

Lemma nonneg_notna x : nonneg x -> notna x = true.
Proof. destruct x; cbn; intros H; try contradiction; reflexivity. Qed.

Lemma ewm_step_nobs com st x :
  nonneg x -> nobs (ewm_step com st x) = S (nobs st).
Proof.
  intros Hx. unfold ewm_step. rewrite (nonneg_notna x Hx).
  destruct (notna (weighted st)); reflexivity.
Qed.

Lemma ewm_out_nan minp st :
  ewm_ok st -> ewm_out minp st = NaN <-> (nobs st < minp)%nat.
Proof.
  intros [Hw _]. unfold ewm_out.
  destruct (Nat.leb_spec minp (nobs st)) as [G|G]; split; intro E;
    try reflexivity; try lia.
  destruct (weighted st); cbn in Hw; try contradiction; discriminate E.
Qed.

Lemma ewm_run_nan com minp (s : Series) : forall st t,
  0 < com -> ewm_ok st -> Forall nonneg s -> (t < length s)%nat ->
  at_ (ewm_run com minp st s) t = NaN <-> (nobs st + S t < minp)%nat.
Proof.
  induction s as [|x s IH]; intros st t Hc Hst Hs Ht; [cbn in Ht; lia|].
  inversion Hs as [|? ? Hx Hs']; subst.
  pose proof (ewm_step_ok com st x Hc Hst Hx) as Hst'.
  pose proof (ewm_step_nobs com st x Hx) as Hn.
  cbn [ewm_run]. destruct t as [|t].
  - cbn [at_ nth]. rewrite (ewm_out_nan minp _ Hst'), Hn. lia.
  - change (at_ (?a :: ?l) (S t)) with (at_ l t).
    rewrite (IH _ t Hc Hst' Hs') by (cbn in Ht; lia). rewrite Hn. lia.
Qed.

(** [ewm(min_periods=m)] is missing on exactly the first [m-1] rows *)
Lemma ewm_mean_nan com minp (s : Series) t :
  0 < com -> Forall nonneg s -> (t < length s)%nat ->
  at_ (ewm_mean com minp s) t = NaN <-> (S t < minp)%nat.
Proof.
  intros Hc Hs Ht. destruct s as [|x s]; [cbn in Ht; lia|].
  inversion Hs as [|? ? Hx Hs']; subst.
  assert (H0 : ewm_ok {| weighted := x; old_wt := 1;
                         nobs := if notna x then 1 else 0 |})
    by (split; cbn [weighted old_wt]; [exact Hx | lra]).
  cbn [ewm_mean]. destruct t as [|t].
  - cbn [at_ nth]. rewrite (ewm_out_nan minp _ H0). cbn [nobs].
    rewrite (nonneg_notna x Hx). lia.
  - change (at_ (?a :: ?l) (S t)) with (at_ l t).
    rewrite (ewm_run_nan com minp s _ t Hc H0 Hs') by (cbn in Ht; lia).
    cbn [nobs]. rewrite (nonneg_notna x Hx). lia.
Qed.

End WarmUpLengths.

(** X9.  Warm-up lengths.  On a download without gaps, SMA_10 is missing
    on exactly the first 9 rows, SMA_50 on exactly the first 49, and the
    two averages behind the RSI on exactly the first 13; so the RSI is
    missing on the first 13 rows. *)
Theorem warm_up_lengths (close : Series) (t : nat) :
  Forall is_fin close -> (t < length close)%nat ->
  (at_ (V2.SMA_10 close) t = NaN <-> (t < 9)%nat)
  /\ (at_ (V2.SMA_50 close) t = NaN <-> (t < 49)%nat)
  /\ (at_ (V2.Avg_Gain close) t = NaN <-> (t < 13)%nat)
  /\ (at_ (V2.Avg_Loss close) t = NaN <-> (t < 13)%nat)
  /\ ((t < 13)%nat -> at_ (V2.RSI close) t = NaN).
Proof.
  intros H Ht. destruct (V2_Gain_Loss_nonneg close H) as [HG HL].
  assert (LG : length (V2.Gain close) = length close)
    by (unfold V2.Gain; now rewrite length_map, V2_Change_length).
  assert (LL : length (V2.Loss close) = length close)
    by (unfold V2.Loss; now rewrite length_map, V2_Change_length).
  assert (AG : at_ (V2.Avg_Gain close) t = NaN <-> (t < 13)%nat).
  { unfold V2.Avg_Gain.
    rewrite (ewm_mean_nan 13 14 _ t ltac:(lra) HG ltac:(lia)). lia. }
  assert (AL : at_ (V2.Avg_Loss close) t = NaN <-> (t < 13)%nat).
  { unfold V2.Avg_Loss.
    rewrite (ewm_mean_nan 13 14 _ t ltac:(lra) HL ltac:(lia)). lia. }
  split; [|split; [|split; [exact AG|split; [exact AL|]]]].
  - unfold V2.SMA_10, V2.Close. rewrite at_rolling_mean by exact Ht.
    rewrite (roll_at_value 10 close t ltac:(lia) H). lia.
  - unfold V2.SMA_50, V2.Close. rewrite at_rolling_mean by exact Ht.
    rewrite (roll_at_value 50 close t ltac:(lia) H). lia.
  - intros Hw. rewrite at_RSI by exact Ht.
    rewrite (proj2 AG Hw). reflexivity.
Qed.

Lemma warm_up_lengths_witness :
  (Forall is_fin (Samples.saw 52) /\ (13 < length (Samples.saw 52))%nat)
  /\ (at_ (V2.SMA_10 (Samples.saw 52)) 13 = NaN <-> (13 < 9)%nat)
  /\ (at_ (V2.SMA_50 (Samples.saw 52)) 13 = NaN <-> (13 < 49)%nat)
  /\ (at_ (V2.Avg_Gain (Samples.saw 52)) 13 = NaN <-> (13 < 13)%nat)
  /\ (at_ (V2.Avg_Loss (Samples.saw 52)) 13 = NaN <-> (13 < 13)%nat)
  /\ ((13 < 13)%nat -> at_ (V2.RSI (Samples.saw 52)) 13 = NaN).
Proof.
  assert (H : Forall is_fin (Samples.saw 52))
    by (apply is_finb_sound; vm_compute; reflexivity).
  assert (L : (13 < length (Samples.saw 52))%nat) by (vm_compute; lia).
  split; [split; assumption|].
  exact (warm_up_lengths (Samples.saw 52) 13 H L).
Defined.

(** X12.  Nothing is lost beyond the stake.  On positive closes the
    cumulative strategy return of the second backtester is never
    negative, and in both backtesters every drawdown that has a value and
    the reported maximum drawdown lie between -1 and 0: the loss from a
    peak is at most 100%.  (In exact arithmetic the lower bounds are
    strict; a return that rounds to -1 reaches them.) *)
Theorem drawdown_within_the_stake (close : Series) :
  Forall positive close ->
  (forall t c, at_ (V2.Cumulative_strategy close) t = Fin c -> 0 <= c)
  /\ (forall t d, at_ (V2.Drawdown close) t = Fin d -> - (1) <= d /\ d <= 0)
  /\ (forall m, V2.max_dd close = Fin m -> - (1) <= m /\ m <= 0)
  /\ (forall t d, at_ (V1.Drawdown (V1.data close)) t = Fin d ->
        - (1) <= d /\ d <= 0)
  /\ (forall m, V1.max_dd (V1.data close) = Fin m -> - (1) <= m /\ m <= 0).
Proof.
  intros H.
  destruct (V2_cumulative_positive close H) as [H2 _].
  destruct (V1_cumulative_shape (V1.data close) (V1_Close_positive close H))
    as [H1 _].
  assert (G : forall c : Series, Forall (or_nan positive) c ->
            forall t d,
              at_ (map2 (fun x m => (x / m - Fin 1)%F) c (cummax c)) t = Fin d ->
              - (1) <= d /\ d <= 0).
  { intros c Hc t d E.
    destruct (drawdown_spec c t Hc) as (_ & N & V).
    destruct (Forall_or_nan_at _ c t Hc) as [En|P].
    - rewrite (N En) in E. discriminate E.
    - destruct (at_ c t) as [| | |q] eqn:Eq; cbn [positive] in P;
        try contradiction.
      destruct (V q eq_refl) as (m & d' & _ & [(k & Hk & Ek) _] & Ed & Ev & Ld).
      rewrite Ed in E. injection E as <-.
      pose proof (Forall_or_nan_at _ c k Hc) as Pk. rewrite Ek in Pk.
      destruct Pk as [Pk|Pk]; [discriminate Pk|]. cbn [positive] in Pk.
      split; [|exact Ld]. rewrite Ev.
      assert (0 < q / m) by (apply Qlt_shift_div_l; lra). lra. }
  assert (M : forall c : Series, Forall (or_nan positive) c ->
            forall m,
              smin (map2 (fun x m => (x / m - Fin 1)%F) c (cummax c)) = Fin m ->
              - (1) <= m /\ m <= 0).
  { intros c Hc m E.
    destruct (drawdown_report_holds c Hc) as (_ & _ & [[E' _]|(m' & E' & [(k & Ek) _])]).
    - rewrite E' in E. discriminate E.
    - rewrite E' in E. injection E as <-. exact (G c Hc k m' Ek). }
  split; [|split; [|split; [|split]]].
  - intros t c E.
    destruct (Forall_or_nan_at _ _ t (positive_or_nan _ H2)) as [En|P].
    + rewrite En in E. discriminate E.
    + rewrite E in P. cbn [positive] in P. lra.
  - intros t d. apply G. now apply positive_or_nan.
  - intros m. apply M. now apply positive_or_nan.
  - intros t d. now apply G.
  - intros m. now apply M.
Qed.

Lemma drawdown_within_the_stake_witness :
  Forall positive (Samples.saw 52)
  /\ (forall t c, at_ (V2.Cumulative_strategy (Samples.saw 52)) t = Fin c ->
        0 <= c)
  /\ (forall t d, at_ (V2.Drawdown (Samples.saw 52)) t = Fin d ->
        - (1) <= d /\ d <= 0)
  /\ (forall m, V2.max_dd (Samples.saw 52) = Fin m -> - (1) <= m /\ m <= 0)
  /\ (forall t d, at_ (V1.Drawdown (V1.data (Samples.saw 52))) t = Fin d ->
        - (1) <= d /\ d <= 0)
  /\ (forall m, V1.max_dd (V1.data (Samples.saw 52)) = Fin m ->
        - (1) <= m /\ m <= 0).
Proof.
  assert (H : Forall positive (Samples.saw 52))
    by (apply positiveb_sound; vm_compute; reflexivity).
  split; [exact H | exact (drawdown_within_the_stake (Samples.saw 52) H)].
Defined.


(* ================================================================== *)
(** * Further properties of the news gatherer *)
(* ================================================================== *)

Module StoriesFacts.
Import String Ascii News Stories NewsFacts.
Local Open Scope string_scope.

Section Cleaning.

Variable fetch_news : string -> result pyval.
Variable fromtimestamp : pyval -> option datetime.
Variable fromisoformat : string -> option datetime.
Variable repr : pyval -> string.

Local Abbreviation clean_story :=
  (News.clean_story fromtimestamp fromisoformat repr).
Local Abbreviation clean_loop :=
  (News.clean_loop fromtimestamp fromisoformat repr).
Local Abbreviation get_news :=
  (News.get_news fetch_news fromtimestamp fromisoformat repr).
Local Abbreviation results_of :=
  (News.results_of fetch_news fromtimestamp fromisoformat repr).
Local Abbreviation printed_of :=
  (News.printed_of fetch_news fromtimestamp fromisoformat repr).
Local Abbreviation main :=
  (News.main fetch_news fromtimestamp fromisoformat repr).
Local Abbreviation failed :=
  (Stories.failed fetch_news fromtimestamp fromisoformat repr).

Lemma get_on_dict d k dflt : get (PyDict d) k dflt = Ok (dict_get d k dflt).
Proof. reflexivity. Qed.

Lemma get_raises v k dflt :
  (forall d, v <> PyDict d) ->
  exists m, get v k dflt = Raise (AttributeError m).
Proof.
  intros H. destruct v; try (eexists; reflexivity).
  exfalso. now apply (H d).
Qed.

(** the lookup of the time raises exactly when it has to look into a
    content that is not a dict *)
Lemma raw_time_ok d :
  (exists v, raw_time_of (PyDict d) = Ok v)
  <-> has_top_time d = true \/ content_is_dict d = true.
Proof.
  unfold raw_time_of, has_top_time, content_is_dict.
  rewrite !get_on_dict. cbn [bind].
  destruct (truthy (dict_get d "providerPublishTime" PyNone)); cbn [orb].
  { split; [auto | intros _; eexists; reflexivity]. }
  rewrite ?get_on_dict. cbn [bind].
  destruct (truthy (dict_get d "pubDate" PyNone)).
  { split; [auto | intros _; eexists; reflexivity]. }
  rewrite ?get_on_dict. cbn [bind].
  destruct (dict_get d "content" (PyDict [])); cbn [get];
    split; try (intros [v E]; discriminate E);
    try (intros [E|E]; discriminate E);
    try (intros _; eexists; reflexivity); auto.
Qed.

Lemma headline_ok d :
  (exists v, headline_of (PyDict d) = Ok v)
  <-> has_top_title d = true \/ content_is_dict d = true.
Proof.
  unfold headline_of, has_top_title, content_is_dict.
  rewrite ?get_on_dict. cbn [bind].
  destruct (truthy (dict_get d "title" PyNone)).
  { split; [auto | intros _; eexists; reflexivity]. }
  rewrite ?get_on_dict. cbn [bind].
  destruct (dict_get d "content" (PyDict [])); cbn [get];
    split; try (intros [v E]; discriminate E);
    try (intros [E|E]; discriminate E);
    try (intros _; eexists; reflexivity); auto.
Qed.

Lemma clean_story_exn name tick story e :
  clean_story name tick story = Raise e -> exists m, e = AttributeError m.
Proof.
  unfold News.clean_story, raw_time_of, headline_of.
  assert (G : forall v k dflt e', get v k dflt = Raise e' ->
              exists m, e' = AttributeError m).
  { intros v k dflt e' E. destruct v; cbn in E; try discriminate E;
      injection E as <-; eexists; reflexivity. }
  repeat match goal with
  | |- context [bind (get ?v ?k ?dflt) _] =>
      let E := fresh "E" in
      destruct (get v k dflt) as [?|?] eqn:E; cbn [bind];
      [| intros [= <-]; exact (G _ _ _ _ E)]
  | |- context [if truthy ?a then _ else _] => destruct (truthy a); cbn [bind]
  | |- context [get ?v ?k ?dflt] =>
      let E := fresh "E" in
      destruct (get v k dflt) as [?|?] eqn:E; cbn [bind];
      [| intros [= <-]; exact (G _ _ _ _ E)]
  end; intros E'; discriminate E'.
Qed.

Lemma clean_story_ok_iff name tick story :
  (exists i, clean_story name tick story = Ok i)
  <-> (exists v, raw_time_of story = Ok v)
      /\ (exists h, headline_of story = Ok h).
Proof.
  unfold News.clean_story.
  destruct (raw_time_of story) as [v|e]; cbn [bind].
  - destruct (headline_of story) as [h|e]; cbn [bind].
    + split; [intros _; split; eexists; reflexivity
             | intros _; eexists; reflexivity].
    + split; [intros [i E]; discriminate E
             | intros [_ [h E]]; discriminate E].
  - split; [intros [i E]; discriminate E | intros [[v E] _]; discriminate E].
Qed.

Lemma clean_story_labels name tick story i :
  clean_story name tick story = Ok i -> company i = name /\ ticker i = tick.
Proof.
  unfold News.clean_story.
  destruct (raw_time_of story); cbn [bind]; [|discriminate].
  destruct (headline_of story); cbn [bind]; [|discriminate].
  intros [= <-]. split; reflexivity.
Qed.

(** the loop of lines 44-90 is a traversal that stops at the first story
    that raises *)
Lemma clean_loop_ok name tick stories : forall cleaned out,
  clean_loop name tick stories cleaned = Ok out
  <-> exists recs,
        Forall2 (fun s r => clean_story name tick s = Ok r) stories recs
        /\ out = (cleaned ++ recs)%list.
Proof.
  induction stories as [|s stories IH]; intros cleaned out.
  - cbn [News.clean_loop]. split.
    + intros [= <-]. exists []. split; [constructor | now rewrite app_nil_r].
    + intros (recs & F & ->). inversion F. now rewrite app_nil_r.
  - cbn [News.clean_loop].
    destruct (clean_story name tick s) as [i|e] eqn:E; cbn [bind].
    + rewrite IH. split.
      * intros (recs & F & ->). exists (i :: recs). split.
        -- now constructor.
        -- now rewrite <- app_assoc.
      * intros (recs & F & ->). inversion F as [|? r ? recs' Er F']; subst.
        rewrite E in Er. injection Er as <-.
        exists recs'. split; [exact F'|]. now rewrite <- app_assoc.
    + split; [discriminate|].
      intros (recs & F & _). inversion F as [|? r ? recs' Er F']; subst.
      rewrite E in Er. discriminate Er.
Qed.

Lemma clean_loop_raises name tick stories : forall cleaned s,
  In s stories -> (forall i, clean_story name tick s <> Ok i) ->
  exists m, clean_loop name tick stories cleaned = Raise (AttributeError m).
Proof.
  induction stories as [|s0 stories IH]; intros cleaned s Hin Hbad;
    [destruct Hin|].
  cbn [News.clean_loop].
  destruct (clean_story name tick s0) as [i|e] eqn:E; cbn [bind].
  - destruct Hin as [<-|Hin]; [exfalso; exact (Hbad i E)|].
    now apply (IH _ s).
  - destruct (clean_story_exn _ _ _ _ E) as (m & ->).
    now exists m.
Qed.

Lemma get_news_on_list name tick stories :
  fetch_news tick = Ok (PyList stories) ->
  snd (get_news name tick) = clean_loop name tick stories [].
Proof.
  intros E. unfold News.get_news. cbn [snd]. rewrite E. cbn [bind].
  destruct stories; reflexivity.
Qed.

(** X13.  A story is cleaned exactly when it is a dict that either has a
    truthy time and a truthy title at its top level, or whose content is
    absent or a dict; in every other case cleaning raises, and what it
    raises is an AttributeError.  A cleaned record carries the name and
    the ticker of the watchlist entry. *)
Theorem story_is_cleaned_iff (name tick : string) (story : pyval) :
  ((exists i, clean_story name tick story = Ok i)
   <-> exists d, story = PyDict d
                 /\ ((has_top_time d = true /\ has_top_title d = true)
                     \/ content_is_dict d = true))
  /\ (forall e, clean_story name tick story = Raise e ->
        exists m, e = AttributeError m)
  /\ (forall i, clean_story name tick story = Ok i ->
        company i = name /\ ticker i = tick).
Proof.
  split; [|split].
  - rewrite clean_story_ok_iff. destruct story as [| | | | | |d];
      try (split; [intros [[v E] _]; discriminate E
                  | intros (d & E & _); discriminate E]).
    rewrite raw_time_ok, headline_ok. split.
    + intros [[T|C] [H|C']]; exists d; split; auto.
    + intros (d' & [= <-] & [[T H]|C]); auto.
  - apply clean_story_exn.
  - apply clean_story_labels.
Qed.

(** X14.  One story that cannot be cleaned costs the ticker all its
    stories: when the feed returns a list holding such a story,
    [get_news] raises an AttributeError, the entry adds nothing to the
    master list and is counted as failed, whatever the other stories of
    the list are. *)
Theorem one_bad_story_discards_the_ticker
  (name tick : string) (stories : list pyval) (story : pyval) :
  fetch_news tick = Ok (PyList stories) ->
  In story stories ->
  (forall i, clean_story name tick story <> Ok i) ->
  (exists m, snd (get_news name tick) = Raise (AttributeError m))
  /\ results_of (name, tick) = []
  /\ failed (name, tick) = true.
Proof.
  intros E Hin Hbad.
  destruct (clean_loop_raises name tick stories [] story Hin Hbad) as (m & R).
  pose proof (get_news_on_list name tick stories E) as G. rewrite R in G.
  split; [now exists m|].
  unfold News.results_of, Stories.failed. cbn [fst snd]. rewrite G.
  split; reflexivity.
Qed.

(** X15.  When every story of the feed can be cleaned, [get_news] returns
    one record per story, in the order of the feed: the result is the list
    of the cleaned stories and nothing else.  Each record carries the name
    and the ticker of the entry. *)
Theorem get_news_is_a_traversal
  (name tick : string) (stories : list pyval) (recs : list info) :
  fetch_news tick = Ok (PyList stories) ->
  (snd (get_news name tick) = Ok recs
   <-> Forall2 (fun s r => clean_story name tick s = Ok r) stories recs)
  /\ (snd (get_news name tick) = Ok recs ->
      List.length recs = List.length stories
      /\ Forall (fun r => company r = name /\ ticker r = tick) recs).
Proof.
  intros E. rewrite (get_news_on_list name tick stories E).
  assert (A : clean_loop name tick stories [] = Ok recs
              <-> Forall2 (fun s r => clean_story name tick s = Ok r)
                    stories recs).
  { rewrite clean_loop_ok. split.
    - intros (recs' & F & ->). exact F.
    - intros F. exists recs. split; [exact F | reflexivity]. }
  split; [exact A|].
  intros R. apply A in R. split.
  - symmetry. eapply Forall2_length. exact R.
  - clear A E. induction R as [|s r stories' recs' Hr R IH]; constructor.
    + eapply clean_story_labels. exact Hr.
    + exact IH.
Qed.

(** X16.  The sort is stable on the whole run: records with the same time
    string stand in the master list in the order in which they were
    collected (watchlist order, then feed order). *)
Theorem equal_times_keep_collection_order
  (wl : list (string * string)) (k : string) :
  filter (fun r => time r =? k) (all_market_news (main wl))
  = filter (fun r => time r =? k) (List.concat (map results_of wl)).
Proof.
  rewrite (main_results fetch_news fromtimestamp fromisoformat repr wl).
  apply sort_desc_stable.
Qed.

(** X17.  What the run prints, counted in calls of [print]: one
    announcement per watchlist entry, one error message more per entry
    that failed, the three calls of the table header and one row per
    record of the master list. *)
Theorem printed_lines_are_accounted (wl : list (string * string)) :
  List.length (stdout (main wl))
  = (List.length wl + List.length (filter failed wl) + 3
     + List.length (all_market_news (main wl)))%nat.
Proof.
  unfold News.main. cbn [stdout all_market_news].
  rewrite (main_loop_spec fetch_news fromtimestamp fromisoformat repr wl).
  cbn [stdout all_market_news].
  rewrite length_app. unfold display. rewrite length_app, length_map.
  cbn [List.length].
  assert (P : List.length (List.concat (map printed_of wl))
              = (List.length wl + List.length (filter failed wl))%nat).
  { induction wl as [|entry wl' IH]; [reflexivity|].
    cbn [map List.concat filter]. rewrite length_app, IH.
    unfold News.printed_of, Stories.failed at 2, News.get_news.
    cbn [fst snd List.length].
    destruct (bind (fetch_news (snd entry)) _); cbn [List.length app]; lia. }
  rewrite P. lia.
Qed.

(** X18.  A response of the feed that is truthy but not a list makes the
    ticker fail: a dict or a string is iterated over (keys, characters),
    and the first element, a string, has no [get]; a number or a boolean
    cannot be iterated at all. *)
Theorem non_list_response_fails (name tick : string) (v : pyval) :
  fetch_news tick = Ok v -> truthy v = true -> (forall l, v <> PyList l) ->
  snd (get_news name tick)
  = Raise (match v with
           | PyDict _ | PyStr _ =>
               AttributeError "'str' object has no attribute 'get'"
           | _ => TypeError ("'" ++ type_name v ++ "' object is not iterable")
           end)
  /\ results_of (name, tick) = []
  /\ failed (name, tick) = true.
Proof.
  intros E T NL.
  assert (G : snd (get_news name tick)
              = Raise (match v with
                       | PyDict _ | PyStr _ =>
                           AttributeError "'str' object has no attribute 'get'"
                       | _ => TypeError ("'" ++ type_name v
                                         ++ "' object is not iterable")
                       end)).
  { unfold News.get_news. cbn [snd]. rewrite E. cbn [bind]. rewrite T.
    cbn [negb].
    destruct v as [|b|z|q|s|l|d]; try reflexivity.
    - destruct s as [|c s]; [discriminate T|]. reflexivity.
    - exfalso. exact (NL l eq_refl).
    - destruct d as [|[k x] d]; [discriminate T|]. reflexivity. }
  split; [exact G|].
  unfold News.results_of, Stories.failed. cbn [fst snd]. rewrite G.
  split; reflexivity.
Qed.

(** X19.  A story without a usable time reads "Unknown Time": when both
    top-level times are falsy (absent, None, an empty string, or the
    number 0) and the content holds no pubDate, the record gets the
    placeholder, whatever the date parsers would make of the value. *)
Theorem falsy_time_reads_unknown
  (name tick : string) (d c : list (string * pyval)) :
  has_top_time d = false ->
  dict_get d "content" (PyDict []) = PyDict c ->
  dict_get c "pubDate" PyNone = PyNone ->
  exists h, clean_story name tick (PyDict d)
            = Ok {| company := name; ticker := tick; headline := h;
                    time := "Unknown Time" |}.
Proof.
  intros T C P. unfold Stories.has_top_time in T.
  apply orb_false_iff in T. destruct T as [T1 T2].
  assert (R : raw_time_of (PyDict d) = Ok PyNone).
  { unfold News.raw_time_of. rewrite !get_on_dict. cbn [bind].
    rewrite T1. rewrite ?get_on_dict. cbn [bind]. rewrite T2.
    rewrite ?get_on_dict. cbn [bind]. rewrite C, get_on_dict, P.
    reflexivity. }
  assert (H : exists h, headline_of (PyDict d) = Ok h).
  { apply headline_ok. right. unfold Stories.content_is_dict.
    now rewrite C. }
  destruct H as [h H]. exists h.
  unfold News.clean_story. rewrite R, H. reflexivity.
Qed.

Lemma results_of_failed entry : failed entry = true -> results_of entry = [].
Proof.
  unfold Stories.failed, News.results_of.
  destruct (snd _); [discriminate | reflexivity].
Qed.

(** X20.  Failing tickers leave no trace in the result: the master list
    of a run is the master list of the run over the watchlist without the
    entries that failed. *)
Theorem failed_entries_do_not_matter (wl : list (string * string)) :
  all_market_news (main wl)
  = all_market_news (main (filter (fun entry => negb (failed entry)) wl)).
Proof.
  rewrite !(main_results fetch_news fromtimestamp fromisoformat repr).
  f_equal.
  induction wl as [|entry wl' IH]; [reflexivity|].
  cbn [map List.concat filter].
  destruct (failed entry) eqn:F; cbn [negb].
  - rewrite (results_of_failed entry F). exact IH.
  - cbn [map List.concat]. now rewrite IH.
Qed.

End Cleaning.

Lemma replace_Z_app s t :
  replace_Z (s ++ t) = (replace_Z s ++ replace_Z t)%string.
Proof.
  induction s as [|c s IH]; [reflexivity|].
  cbn [append replace_Z]. destruct (Ascii.eqb c "Z"); rewrite IH; reflexivity.
Qed.

(** X21.  The replacement of line 70 removes every capital Z, wherever it
    stands: the result holds none, it is six characters for one at each
    place, and a string without a Z is passed on unchanged. *)
Theorem replace_Z_clears_every_Z (s : string) :
  count_Z (replace_Z s) = 0%nat
  /\ String.length (replace_Z s) = (String.length s + 5 * count_Z s)%nat
  /\ (count_Z s = 0%nat -> replace_Z s = s)
  /\ replace_Z (replace_Z s) = replace_Z s.
Proof.
  assert (A : forall s, count_Z (replace_Z s) = 0%nat).
  { intros s0. induction s0 as [|c s0 IH]; [reflexivity|].
    cbn [replace_Z]. destruct (Ascii.eqb c "Z") eqn:E.
    - cbn. exact IH.
    - cbn [count_Z]. rewrite E. exact IH. }
  assert (B : forall s, count_Z s = 0%nat -> replace_Z s = s).
  { intros s0. induction s0 as [|c s0 IH]; [reflexivity|].
    cbn [replace_Z count_Z]. destruct (Ascii.eqb c "Z"); [discriminate|].
    cbn [Nat.add]. intros H. now rewrite IH. }
  split; [apply A|]. split; [|split; [apply B | apply B, A]].
  induction s as [|c s IH]; [reflexivity|].
  cbn [replace_Z count_Z]. destruct (Ascii.eqb c "Z").
  - cbn [append String.length]. rewrite IH. lia.
  - cbn [String.length]. rewrite IH. lia.
Qed.

(** X22.  A printed timestamp shows the wall clock and nothing else.
    For datetimes with a year of four digits it has 19 characters, and two
    of them print alike exactly when their six printed fields agree: the
    microsecond and the offset from UTC do not show, so two different
    instants can carry the same key. *)
Theorem timestamp_shows_the_wall_clock (d1 d2 : datetime) :
  wf_datetime d1 -> wf_datetime d2 ->
  String.length (strftime d1) = 19%nat
  /\ (strftime d1 = strftime d2
      <-> year d1 = year d2 /\ month d1 = month d2 /\ day d1 = day d2
          /\ hour d1 = hour d2 /\ minute d1 = minute d2
          /\ second d1 = second d2).
Proof.
  intros W1 W2. split.
  - unfold strftime. rewrite year_str_four_digits by apply W1. reflexivity.
  - rewrite <- dt_compare_eq. rewrite <- (strftime_compare d1 d2 W1 W2).
    split.
    + intros ->. apply compare_refl.
    + intros C. now apply String.compare_eq_iff.
Qed.

Lemma one_bad_story_discards_the_ticker_witness :
  (broken_feed "GOOGL" = Ok (PyList [Sample.dated_story; broken_story])
   /\ In broken_story [Sample.dated_story; broken_story]
   /\ (forall i, News.clean_story Sample.fromtimestamp Sample.fromisoformat
                   Sample.repr "Google" "GOOGL" broken_story <> Ok i))
  /\ (exists m, snd (News.get_news broken_feed Sample.fromtimestamp
                       Sample.fromisoformat Sample.repr "Google" "GOOGL")
                = Raise (AttributeError m))
  /\ News.results_of broken_feed Sample.fromtimestamp Sample.fromisoformat
       Sample.repr ("Google", "GOOGL") = []
  /\ Stories.failed broken_feed Sample.fromtimestamp Sample.fromisoformat
       Sample.repr ("Google", "GOOGL") = true.
Proof.
  assert (H1 : broken_feed "GOOGL"
               = Ok (PyList [Sample.dated_story; broken_story]))
    by reflexivity.
  assert (H2 : In broken_story [Sample.dated_story; broken_story])
    by (right; now left).
  assert (H3 : forall i, News.clean_story Sample.fromtimestamp
                 Sample.fromisoformat Sample.repr "Google" "GOOGL"
                 broken_story <> Ok i)
    by (intros i E; vm_compute in E; discriminate E).
  split; [repeat split; assumption|].
  exact (one_bad_story_discards_the_ticker broken_feed Sample.fromtimestamp
           Sample.fromisoformat Sample.repr "Google" "GOOGL" _ _ H1 H2 H3).
Defined.

Lemma get_news_is_a_traversal_witness :
  Sample.fetch_news "GOOGL"
  = Ok (PyList [Sample.dated_story; Sample.undated_story])
  /\ (snd (News.get_news Sample.fetch_news Sample.fromtimestamp
             Sample.fromisoformat Sample.repr "Google" "GOOGL")
      = Ok [ {| company := "Google"; ticker := "GOOGL";
                headline := PyStr "A"; time := "2024-03-20 08:00:00" |};
             {| company := "Google"; ticker := "GOOGL";
                headline := PyStr "C"; time := "Unknown Time" |} ]
      <-> Forall2 (fun s r => News.clean_story Sample.fromtimestamp
                                Sample.fromisoformat Sample.repr
                                "Google" "GOOGL" s = Ok r)
            [Sample.dated_story; Sample.undated_story]
            [ {| company := "Google"; ticker := "GOOGL";
                 headline := PyStr "A"; time := "2024-03-20 08:00:00" |};
              {| company := "Google"; ticker := "GOOGL";
                 headline := PyStr "C"; time := "Unknown Time" |} ])
  /\ (snd (News.get_news Sample.fetch_news Sample.fromtimestamp
             Sample.fromisoformat Sample.repr "Google" "GOOGL")
      = Ok [ {| company := "Google"; ticker := "GOOGL";
                headline := PyStr "A"; time := "2024-03-20 08:00:00" |};
             {| company := "Google"; ticker := "GOOGL";
                headline := PyStr "C"; time := "Unknown Time" |} ] ->
      List.length
        [ {| company := "Google"; ticker := "GOOGL";
             headline := PyStr "A"; time := "2024-03-20 08:00:00" |};
          {| company := "Google"; ticker := "GOOGL";
             headline := PyStr "C"; time := "Unknown Time" |} ]
      = List.length [Sample.dated_story; Sample.undated_story]
      /\ Forall (fun r => company r = "Google" /\ ticker r = "GOOGL")
           [ {| company := "Google"; ticker := "GOOGL";
                headline := PyStr "A"; time := "2024-03-20 08:00:00" |};
             {| company := "Google"; ticker := "GOOGL";
                headline := PyStr "C"; time := "Unknown Time" |} ]).
Proof.
  assert (H : Sample.fetch_news "GOOGL"
              = Ok (PyList [Sample.dated_story; Sample.undated_story]))
    by reflexivity.
  split; [exact H|].
  exact (get_news_is_a_traversal Sample.fetch_news Sample.fromtimestamp
           Sample.fromisoformat Sample.repr "Google" "GOOGL" _ _ H).
Defined.

Lemma non_list_response_fails_witness :
  (truthy (PyDict [("error", PyStr "Too Many Requests")]) = true
   /\ (forall l, PyDict [("error", PyStr "Too Many Requests")] <> PyList l))
  /\ snd (News.get_news
            (fun _ => Ok (PyDict [("error", PyStr "Too Many Requests")]))
            Sample.fromtimestamp Sample.fromisoformat Sample.repr
            "Google" "GOOGL")
     = Raise (AttributeError "'str' object has no attribute 'get'")
  /\ News.results_of
       (fun _ => Ok (PyDict [("error", PyStr "Too Many Requests")]))
       Sample.fromtimestamp Sample.fromisoformat Sample.repr
       ("Google", "GOOGL") = []
  /\ Stories.failed
       (fun _ => Ok (PyDict [("error", PyStr "Too Many Requests")]))
       Sample.fromtimestamp Sample.fromisoformat Sample.repr
       ("Google", "GOOGL") = true.
Proof.
  assert (H1 : truthy (PyDict [("error", PyStr "Too Many Requests")]) = true)
    by reflexivity.
  assert (H2 : forall l,
             PyDict [("error", PyStr "Too Many Requests")] <> PyList l)
    by (intros l E; discriminate E).
  split; [split; assumption|].
  exact (non_list_response_fails
           (fun _ => Ok (PyDict [("error", PyStr "Too Many Requests")]))
           Sample.fromtimestamp Sample.fromisoformat Sample.repr
           "Google" "GOOGL"
           (PyDict [("error", PyStr "Too Many Requests")])
           eq_refl H1 H2).
Defined.

Lemma falsy_time_reads_unknown_witness :
  (has_top_time [("providerPublishTime", PyInt 0); ("title", PyStr "A")]
   = false
   /\ dict_get [("providerPublishTime", PyInt 0); ("title", PyStr "A")]
        "content" (PyDict []) = PyDict []
   /\ dict_get [] "pubDate" PyNone = PyNone)
  /\ exists h,
       News.clean_story
         (fun _ => Some {| year := 1970; month := 1; day := 1;
                           hour := 0; minute := 0; second := 0;
                           microsecond := 0; utcoffset := None |})
         Sample.fromisoformat Sample.repr "Google" "GOOGL"
         (PyDict [("providerPublishTime", PyInt 0); ("title", PyStr "A")])
       = Ok {| company := "Google"; ticker := "GOOGL"; headline := h;
               time := "Unknown Time" |}.
Proof.
  split; [repeat split; reflexivity|].
  exact (falsy_time_reads_unknown
           (fun _ => Some {| year := 1970; month := 1; day := 1;
                             hour := 0; minute := 0; second := 0;
                             microsecond := 0; utcoffset := None |})
           Sample.fromisoformat Sample.repr "Google" "GOOGL"
           [("providerPublishTime", PyInt 0); ("title", PyStr "A")] []
           eq_refl eq_refl eq_refl).
Defined.

Lemma timestamp_shows_the_wall_clock_witness :
  (wf_datetime Offsets.utc_time
   /\ wf_datetime {| year := 2024; month := 3; day := 20; hour := 8;
                     minute := 0; second := 0; microsecond := 0;
                     utcoffset := Some 18000%Z |})
  /\ String.length (strftime Offsets.utc_time) = 19%nat
  /\ (strftime Offsets.utc_time
      = strftime {| year := 2024; month := 3; day := 20; hour := 8;
                    minute := 0; second := 0; microsecond := 0;
                    utcoffset := Some 18000%Z |}
      <-> year Offsets.utc_time = 2024%N /\ month Offsets.utc_time = 3%N
          /\ day Offsets.utc_time = 20%N /\ hour Offsets.utc_time = 8%N
          /\ minute Offsets.utc_time = 0%N /\ second Offsets.utc_time = 0%N).
Proof.
  assert (W1 : wf_datetime Offsets.utc_time)
    by (unfold wf_datetime; cbn; lia).
  assert (W2 : wf_datetime {| year := 2024; month := 3; day := 20; hour := 8;
                              minute := 0; second := 0; microsecond := 0;
                              utcoffset := Some 18000%Z |})
    by (unfold wf_datetime; cbn; lia).
  split; [split; assumption|].
  exact (timestamp_shows_the_wall_clock _ _ W1 W2).
Defined.

End StoriesFacts.
